(** * Installer Creator Pro: the generation pipeline, embedded and verified

    A shallow embedding of [core/models.py], [utils/helpers.py],
    [core/project_manager.py] and [core/generator.py], together with the
    installer program that [_generate_installer_script] emits and the
    methods of [ui/main_window.py] that edit the sequences of a project or
    start a build, and the properties of the specification proved (or
    refuted) on it, followed by further properties of the code.

    Conventions.
    - A Python [str] is a [string]; every [ascii] stands for one code point in
      the range 0..255.  [repr] and [json.dumps] below are exact on that range.
    - A Python value that travels through [dict]s, [repr] and JSON is a
      [pyval]; a [dict] keeps its insertion order, so it is an association
      list without repeated keys (a lookup takes the first match).  A float
      is kept as the text that [repr] shows for it, which is all the program
      does with one.
    - Calls that leave the process (file system, subprocess, registry, clock,
      random source) are answered by an explicit environment record.  An
      exception that such an answer carries is an [Exception], so that
      [except Exception] catches it.
    - The modules keep the names of the source: a class is a module, its
      methods are the definitions of the module.  [Synth] holds the methods
      [_generate_installer_script] and [_generate_spec_file] of
      [InstallerGeneratorThread], [Generator] its [run] and
      [_run_pyinstaller], and [Installer] the class [InstallThread] of the
      emitted program. *)

From Stdlib Require Import String Ascii List ZArith Bool Lia DecimalString.
From Stdlib Require Import Strings.Byte Permutation Sorted Arith.
Import ListNotations.
Set Warnings "-register-all,-non-recursive".
Open Scope list_scope.
Open Scope string_scope.

(* ================================================================== *)
(** ** Python values and the builtins the program uses *)
(* ================================================================== *)

Module Py.

Inductive pyval : Type :=
| PNone
| PBool (b : bool)
| PInt (z : Z)
| PFloat (shown : string)
| PStr (s : string)
| PList (l : list pyval)
| PDict (d : list (string * pyval)).

Definition dict := list (string * pyval).

(** Exceptions: the class name decides which [except] clause catches it,
    the message is what [str(e)] shows. *)
Record exn : Type := mkExn { exn_class : string; exn_msg : string }.

Inductive result (A : Type) : Type :=
| Ok (a : A)
| Raise (e : exn).
Arguments Ok {A} a.
Arguments Raise {A} e.

Definition rbind {A B} (m : result A) (k : A -> result B) : result B :=
  match m with
  | Ok a => k a
  | Raise e => Raise e
  end.

Fixpoint rmapM {A B} (f : A -> result B) (l : list A) : result (list B) :=
  match l with
  | [] => Ok []
  | x :: xs =>
      rbind (f x) (fun y => rbind (rmapM f xs) (fun ys => Ok (y :: ys)))
  end.

(** [enumerate]-style map: the index is handed to [f]. *)
Fixpoint rmapMi {A B} (f : nat -> A -> result B) (i : nat) (l : list A)
  : result (list B) :=
  match l with
  | [] => Ok []
  | x :: xs =>
      rbind (f i x) (fun y => rbind (rmapMi f (S i) xs) (fun ys => Ok (y :: ys)))
  end.

Definition KeyError (k : string) : exn := mkExn "KeyError" k.
Definition TypeError (m : string) : exn := mkExn "TypeError" m.
Definition ValueError (m : string) : exn := mkExn "ValueError" m.
(** Not a Python exception: the typed records of this development cannot hold
    a value of another type than the declared one, where Python would store it
    unchecked. *)
Definition IllTyped (field : string) : exn := mkExn "IllTyped" field.

(** *** Characters *)

Definition LF : ascii := "010"%char.
Definition CR : ascii := "013"%char.
Definition TAB : ascii := "009"%char.
Definition BS : ascii := "008"%char.
Definition FF : ascii := "012"%char.
Definition DQ : ascii := "034"%char.
Definition SQ : ascii := "039"%char.
Definition BSL : ascii := "092"%char.

Definition chr (c : ascii) : string := String c EmptyString.
Definition dq : string := chr DQ.
Definition nl : string := chr LF.

Definition code (c : ascii) : N := N_of_ascii c.

Definition hex_digit (n : N) : ascii :=
  if (n <? 10)%N then ascii_of_N (48 + n) else ascii_of_N (87 + n).

(** [%02x] *)
Definition hex2 (n : N) : string :=
  String (hex_digit (n / 16)) (String (hex_digit (n mod 16)) EmptyString).

(** [%04x], for code points below 256 *)
Definition hex4 (n : N) : string := "00" ++ hex2 n.

(** *** str methods *)

Fixpoint smap (f : ascii -> ascii) (s : string) : string :=
  match s with
  | EmptyString => EmptyString
  | String c s' => String (f c) (smap f s')
  end.

Fixpoint sflat (f : ascii -> string) (s : string) : string :=
  match s with
  | EmptyString => EmptyString
  | String c s' => f c ++ sflat f s'
  end.

Fixpoint mem_char (c : ascii) (s : string) : bool :=
  match s with
  | EmptyString => false
  | String d s' => Ascii.eqb c d || mem_char c s'
  end.

(** [s.replace(old, new)] for one-character [old] and [new]. *)
Definition replace_char (old new : ascii) (s : string) : string :=
  smap (fun c => if Ascii.eqb c old then new else c) s.

(** [sub in s] *)
Fixpoint contains (sub s : string) : bool :=
  String.prefix sub s ||
  match s with
  | EmptyString => false
  | String _ s' => contains sub s'
  end.

Fixpoint srev_app (s acc : string) : string :=
  match s with
  | EmptyString => acc
  | String c s' => srev_app s' (String c acc)
  end.
Definition srev (s : string) : string := srev_app s EmptyString.

(** [s.endswith(suf)] *)
Definition endswith (s suf : string) : bool := String.prefix (srev suf) (srev s).

Definition is_empty (s : string) : bool :=
  match s with EmptyString => true | _ => false end.

Fixpoint lstrip_by (drop : ascii -> bool) (s : string) : string :=
  match s with
  | EmptyString => EmptyString
  | String c s' => if drop c then lstrip_by drop s' else s
  end.

Fixpoint rstrip_by (drop : ascii -> bool) (s : string) : string :=
  match s with
  | EmptyString => EmptyString
  | String c s' =>
      let r := rstrip_by drop s' in
      if drop c && is_empty r then EmptyString else String c r
  end.

Definition strip_by (drop : ascii -> bool) (s : string) : string :=
  rstrip_by drop (lstrip_by drop s).

(** [str.isspace] on code points below 256. *)
Definition is_space (c : ascii) : bool :=
  let n := code c in
  ((9 <=? n) && (n <=? 13) || (28 <=? n) && (n <=? 32)
   || (n =? 133) || (n =? 160))%N.

(** [s.strip()] *)
Definition strip (s : string) : string := strip_by is_space s.
(** [s.strip(chars)] *)
Definition strip_chars (chars s : string) : string :=
  strip_by (fun c => mem_char c chars) s.

Fixpoint join (sep : string) (l : list string) : string :=
  match l with
  | [] => EmptyString
  | [x] => x
  | x :: xs => x ++ sep ++ join sep xs
  end.

(** *** dict *)

Fixpoint dict_lookup (d : dict) (k : string) : option pyval :=
  match d with
  | [] => None
  | (k', v) :: d' => if String.eqb k k' then Some v else dict_lookup d' k
  end.

(** [d.get(k, default)] *)
Definition dict_get (d : dict) (k : string) (default : pyval) : pyval :=
  match dict_lookup d k with Some v => v | None => default end.

Definition dict_has (d : dict) (k : string) : bool :=
  match dict_lookup d k with Some _ => true | None => false end.

Definition dict_keys (d : dict) : list string := map fst d.

Fixpoint dict_del (d : dict) (k : string) : dict :=
  match d with
  | [] => []
  | (k', v) :: d' => if String.eqb k k' then dict_del d' k else (k', v) :: dict_del d' k
  end.

Definition mem_str (k : string) (l : list string) : bool :=
  existsb (String.eqb k) l.

(** [v.get(k, default)] on a value: only a dict has [get]. *)
Definition py_get (v : pyval) (k : string) (default : pyval) : result pyval :=
  match v with
  | PDict d => Ok (dict_get d k default)
  | _ => Raise (mkExn "AttributeError" "get")
  end.

(** Truth value of an object. *)
Definition truthy (v : pyval) : bool :=
  match v with
  | PNone => false
  | PBool b => b
  | PInt z => negb (z =? 0)%Z
  | PFloat shown => negb (String.eqb shown "0.0" || String.eqb shown "-0.0")
  | PStr s => negb (is_empty s)
  | PList l => match l with [] => false | _ => true end
  | PDict d => match d with [] => false | _ => true end
  end.

(** [v == s] for a str constant [s]. *)
Definition eq_str (v : pyval) (s : string) : bool :=
  match v with
  | PStr t => String.eqb t s
  | _ => false
  end.

(** Iteration, as a [for] loop or a comprehension does it. *)
Definition py_iter (v : pyval) : result (list pyval) :=
  match v with
  | PList l => Ok l
  | PDict d => Ok (map (fun kv => PStr (fst kv)) d)
  | PStr s => Ok (map (fun c => PStr (chr c)) (list_ascii_of_string s))
  | _ => Raise (TypeError "object is not iterable")
  end.

(** *** repr *)

(** [repr] of an int, in decimal (the interpreter's limit on the number of
    digits of such a conversion is not modelled). *)
Definition repr_int (z : Z) : string := NilZero.string_of_int (Z.to_int z).

Definition repr_quote (s : string) : ascii :=
  if mem_char SQ s && negb (mem_char DQ s) then DQ else SQ.

Definition unprintable (c : ascii) : bool :=
  let n := code c in
  ((n <? 32) || (127 <=? n) && (n <=? 160) || (n =? 173))%N.

Definition repr_char (q : ascii) (c : ascii) : string :=
  if Ascii.eqb c q || Ascii.eqb c BSL then String BSL (chr c)
  else if Ascii.eqb c TAB then "\t"
  else if Ascii.eqb c LF then "\n"
  else if Ascii.eqb c CR then "\r"
  else if unprintable c then "\x" ++ hex2 (code c)
  else chr c.

Definition repr_str (s : string) : string :=
  let q := repr_quote s in
  String q (sflat (repr_char q) s ++ chr q).

Fixpoint py_repr (v : pyval) : string :=
  match v with
  | PNone => "None"
  | PBool true => "True"
  | PBool false => "False"
  | PInt z => repr_int z
  | PFloat shown => shown
  | PStr s => repr_str s
  | PList l => "[" ++ join ", " (map py_repr l) ++ "]"
  | PDict d =>
      "{" ++ join ", "
               (map (fun kv => match kv with
                               | (k, x) => repr_str k ++ ": " ++ py_repr x
                               end) d) ++ "}"
  end.

(** [str(v)], which an f-string applies to an interpolated value. *)
Definition py_str (v : pyval) : string :=
  match v with
  | PStr s => s
  | _ => py_repr v
  end.

(** *** int *)

Definition dec_digit (c : ascii) : bool :=
  ((48 <=? code c) && (code c <=? 57))%N.

(** Decimal digits with single underscores between them;
    [after_digit] tells whether the character before was a digit. *)
Fixpoint int_digits (s : string) (after_digit : bool) : bool :=
  match s with
  | EmptyString => after_digit
  | String c s' =>
      if dec_digit c then int_digits s' true
      else if Ascii.eqb c "_" then after_digit && int_digits s' false
      else false
  end.

(** The texts that [int] accepts in base 10: white space around, one
    optional sign, then the digits. *)
Definition int_literal (s : string) : bool :=
  match strip s with
  | EmptyString => false
  | String c r =>
      if Ascii.eqb c "+" || Ascii.eqb c "-" then int_digits r false
      else int_digits (String c r) false
  end.

(** [int(v)], as far as it can raise; the number itself stays with [v].
    (The interpreter's limit on the number of digits of a text is not
    modelled.) *)
Definition py_int (v : pyval) : result unit :=
  match v with
  | PInt _ | PBool _ => Ok tt
  | PFloat shown =>
      if String.eqb shown "nan"
      then Raise (ValueError "cannot convert float NaN to integer")
      else if String.eqb shown "inf" || String.eqb shown "-inf"
      then Raise (mkExn "OverflowError"
                        "cannot convert float infinity to integer")
      else Ok tt
  | PStr s =>
      if int_literal s then Ok tt
      else Raise (ValueError ("invalid literal for int() with base 10: "
                              ++ repr_str s))
  | PNone =>
      Raise (TypeError "int() argument must be a string, a bytes-like object or a real number, not 'NoneType'")
  | PList _ =>
      Raise (TypeError "int() argument must be a string, a bytes-like object or a real number, not 'list'")
  | PDict _ =>
      Raise (TypeError "int() argument must be a string, a bytes-like object or a real number, not 'dict'")
  end.

(** *** json.dumps of a str (ensure_ascii) *)

Definition json_char (c : ascii) : string :=
  if Ascii.eqb c DQ then String BSL dq
  else if Ascii.eqb c BSL then "\\"
  else if Ascii.eqb c LF then "\n"
  else if Ascii.eqb c CR then "\r"
  else if Ascii.eqb c TAB then "\t"
  else if Ascii.eqb c BS then "\b"
  else if Ascii.eqb c FF then "\f"
  else if ((code c <? 32) || (126 <? code c))%N then "\u" ++ hex4 (code c)
  else chr c.

Definition json_dumps_str (s : string) : string :=
  dq ++ sflat json_char s ++ dq.

(** *** Keyword arguments of a dataclass constructor (a call of [cls] on the
    unpacked [data]) *)

Definition as_dict (v : pyval) : result dict :=
  match v with
  | PDict d => Ok d
  | _ => Raise (TypeError "argument must be a mapping")
  end.

(** Every key must be a declared field. *)
Definition check_kwargs (fields : list string) (d : dict) : result unit :=
  if forallb (fun k => mem_str k fields) (dict_keys d) then Ok tt
  else Raise (TypeError "got an unexpected keyword argument").

Definition missing (k : string) : exn :=
  TypeError ("missing required argument: " ++ k).

Definition kw_str (d : dict) (k : string) (default : option string)
  : result string :=
  match dict_lookup d k, default with
  | Some (PStr s), _ => Ok s
  | Some _, _ => Raise (IllTyped k)
  | None, Some s => Ok s
  | None, None => Raise (missing k)
  end.

Definition kw_bool (d : dict) (k : string) (default : bool) : result bool :=
  match dict_lookup d k with
  | Some (PBool b) => Ok b
  | Some _ => Raise (IllTyped k)
  | None => Ok default
  end.

Definition kw_any (d : dict) (k : string) (default : pyval) : result pyval :=
  Ok (dict_get d k default).

Definition as_str (k : string) (v : pyval) : result string :=
  match v with
  | PStr s => Ok s
  | _ => Raise (IllTyped k)
  end.

Definition kw_strs (d : dict) (k : string) : result (list string) :=
  match dict_lookup d k with
  | Some (PList l) => rmapM (as_str k) l
  | Some _ => Raise (IllTyped k)
  | None => Ok []
  end.

(** [d.setdefault(k, v)], the effect of [if k not in d: d[k] = v]. *)
Definition dict_setdefault (d : dict) (k : string) (v : pyval) : dict :=
  if dict_has d k then d else (d ++ [(k, v)])%list.

End Py.
Import Py.

Notation "x <- m ;; k" := (rbind m (fun x => k))
  (at level 61, m at next level, right associativity).


(* ================================================================== *)
(** ** core/models.py *)
(* ================================================================== *)

(** What the data model reads from outside the process. *)
Record World : Type := mkWorld {
  (** [os.path.exists] *)
  path_exists : string -> bool;
  (** SHA-256 hex digest of the bytes of a file, [None] when reading raises *)
  sha256_hexdigest : string -> option string;
  (** the write probe of the validator: create, write and remove a file *)
  write_probe : string -> bool;
  (** [datetime.now().isoformat()], the next reading of the clock within the
      same call, and [datetime.now().year] *)
  now_isoformat : string;
  now_isoformat_next : string;
  now_year : Z;
  (** [sys.version_info], as "major.minor" *)
  python_major_minor : string;
  (** [str(uuid.uuid4())] and [uuid.uuid4().hex], one draw per list position *)
  uuid4_str : nat -> string;
  uuid4_hex : nat -> string
}.

Module ScriptElementType.

Inductive t : Type :=
| INSTALL_FILE | CREATE_DIR | CREATE_SHORTCUT | EXECUTE_COMMAND | SET_REGISTRY
| CREATE_UNINSTALLER | SHOW_LICENSE | REQUIRE_ADMIN | CHECK_DISK_SPACE
| DOWNLOAD_FILE | CREATE_SERVICE | SET_ENVIRONMENT | RUN_SCRIPT.

Definition value (x : t) : string :=
  match x with
  | INSTALL_FILE => "install_file"
  | CREATE_DIR => "create_dir"
  | CREATE_SHORTCUT => "create_shortcut"
  | EXECUTE_COMMAND => "execute_command"
  | SET_REGISTRY => "set_registry"
  | CREATE_UNINSTALLER => "create_uninstaller"
  | SHOW_LICENSE => "show_license"
  | REQUIRE_ADMIN => "require_admin"
  | CHECK_DISK_SPACE => "check_disk_space"
  | DOWNLOAD_FILE => "download_file"
  | CREATE_SERVICE => "create_service"
  | SET_ENVIRONMENT => "set_environment"
  | RUN_SCRIPT => "run_script"
  end.

Definition members : list t :=
  [INSTALL_FILE; CREATE_DIR; CREATE_SHORTCUT; EXECUTE_COMMAND; SET_REGISTRY;
   CREATE_UNINSTALLER; SHOW_LICENSE; REQUIRE_ADMIN; CHECK_DISK_SPACE;
   DOWNLOAD_FILE; CREATE_SERVICE; SET_ENVIRONMENT; RUN_SCRIPT].

(** [ScriptElementType(v)]: the member with that value. *)
Definition of_value (v : pyval) : result t :=
  match v with
  | PStr s =>
      match find (fun x => String.eqb s (value x)) members with
      | Some x => Ok x
      | None => Raise (ValueError "not a valid ScriptElementType")
      end
  | _ => Raise (ValueError "not a valid ScriptElementType")
  end.

End ScriptElementType.

Module ScriptElement.

Record t : Type := mk {
  type : ScriptElementType.t;
  name : string;
  parameters : pyval;
  id : string;
  enabled : bool;
  critical : bool
}.

(** [__post_init__]: an empty id is replaced by a generated one. *)
Definition post_init (w : World) (i : nat) (e : t) : t :=
  if negb (truthy (PStr (id e))) then
    mk (type e) (name e) (parameters e)
       (ScriptElementType.value (type e) ++ "_" ++ substring 0 8 (uuid4_hex w i))
       (enabled e) (critical e)
  else e.

Definition to_dict (e : t) : pyval :=
  PDict [ ("type", PStr (ScriptElementType.value (type e)));
          ("name", PStr (name e));
          ("parameters", parameters e);
          ("id", PStr (id e));
          ("enabled", PBool (enabled e));
          ("critical", PBool (critical e)) ].

Definition subscript (d : dict) (k : string) : result pyval :=
  match dict_lookup d k with
  | Some v => Ok v
  | None => Raise (KeyError k)
  end.

(** [from_dict]; [i] is the position of the element in the list being read. *)
Definition from_dict (w : World) (i : nat) (data : pyval) : result t :=
  match data with
  | PDict d =>
      ty <- subscript d "type" ;;
      ty <- ScriptElementType.of_value ty ;;
      nm <- subscript d "name" ;;
      nm <- as_str "name" nm ;;
      id_ <- as_str "id" (dict_get d "id" (PStr (substring 0 8 (uuid4_str w i)))) ;;
      en <- kw_bool d "enabled" true ;;
      cr <- kw_bool d "critical" false ;;
      Ok (post_init w i (mk ty nm (dict_get d "parameters" (PDict [])) id_ en cr))
  | _ => Raise (TypeError "indices must be integers")
  end.

End ScriptElement.

Module ShortcutConfig.

Record t : Type := mk {
  name : string;
  target : string;
  icon : string;
  working_dir : string;
  arguments : string;
  location : string;
  description : string
}.

Definition fields : list string :=
  ["name"; "target"; "icon"; "working_dir"; "arguments"; "location";
   "description"].

(** [asdict(self)] *)
Definition to_dict (s : t) : pyval :=
  PDict [ ("name", PStr (name s));
          ("target", PStr (target s));
          ("icon", PStr (icon s));
          ("working_dir", PStr (working_dir s));
          ("arguments", PStr (arguments s));
          ("location", PStr (location s));
          ("description", PStr (description s)) ].

(** [cls] on the unpacked [data] *)
Definition from_dict (data : pyval) : result t :=
  d <- as_dict data ;;
  _ <- check_kwargs fields d ;;
  a <- kw_str d "name" None ;;
  b <- kw_str d "target" None ;;
  c <- kw_str d "icon" (Some EmptyString) ;;
  e <- kw_str d "working_dir" (Some EmptyString) ;;
  f <- kw_str d "arguments" (Some EmptyString) ;;
  g <- kw_str d "location" (Some "desktop") ;;
  h <- kw_str d "description" (Some EmptyString) ;;
  Ok (mk a b c e f g h).

End ShortcutConfig.

Module RegistryEntry.

Record t : Type := mk {
  hive : string;
  key : string;
  value_name : string;
  value_type : string;
  value_data : pyval;
  action : string
}.

Definition fields : list string :=
  ["hive"; "key"; "value_name"; "value_type"; "value_data"; "action"].

(** [asdict(self)] *)
Definition to_dict (r : t) : pyval :=
  PDict [ ("hive", PStr (hive r));
          ("key", PStr (key r));
          ("value_name", PStr (value_name r));
          ("value_type", PStr (value_type r));
          ("value_data", value_data r);
          ("action", PStr (action r)) ].

(** [cls] on the unpacked [data] *)
Definition from_dict (data : pyval) : result t :=
  d <- as_dict data ;;
  _ <- check_kwargs fields d ;;
  a <- kw_str d "hive" (Some "HKEY_CURRENT_USER") ;;
  b <- kw_str d "key" (Some EmptyString) ;;
  c <- kw_str d "value_name" (Some EmptyString) ;;
  e <- kw_str d "value_type" (Some "REG_SZ") ;;
  f <- kw_any d "value_data" (PStr EmptyString) ;;
  g <- kw_str d "action" (Some "create") ;;
  Ok (mk a b c e f g).

End RegistryEntry.

Module FileEntry.

Record t : Type := mk {
  source_path : string;
  install_path : string;
  is_binary : bool;
  is_directory : bool;
  compress : bool;
  hash : string;
  version : string;
  description : string
}.

Definition fields : list string :=
  ["source_path"; "install_path"; "is_binary"; "is_directory"; "compress";
   "hash"; "version"; "description"].

Definition calculate_hash (w : World) (f : t) : string :=
  if is_directory f || negb (path_exists w (source_path f)) then EmptyString
  else match sha256_hexdigest w (source_path f) with
       | Some h => h
       | None => EmptyString
       end.

Definition set_hash (f : t) (h : string) : t :=
  mk (source_path f) (install_path f) (is_binary f) (is_directory f)
     (compress f) h (version f) (description f).

(** [__post_init__] *)
Definition post_init (w : World) (f : t) : t :=
  if negb (truthy (PStr (hash f))) && path_exists w (source_path f)
     && negb (is_directory f)
  then set_hash f (calculate_hash w f)
  else f.

Definition to_dict (f : t) : pyval :=
  PDict [ ("source_path", PStr (source_path f));
          ("install_path", PStr (install_path f));
          ("is_binary", PBool (is_binary f));
          ("is_directory", PBool (is_directory f));
          ("compress", PBool (compress f));
          ("hash", PStr (hash f));
          ("version", PStr (version f));
          ("description", PStr (description f)) ].

(** [cls] on the unpacked [data], which runs [__post_init__] *)
Definition from_dict (w : World) (data : pyval) : result t :=
  d <- as_dict data ;;
  _ <- check_kwargs fields d ;;
  a <- kw_str d "source_path" None ;;
  b <- kw_str d "install_path" None ;;
  c <- kw_bool d "is_binary" false ;;
  e <- kw_bool d "is_directory" false ;;
  f <- kw_bool d "compress" true ;;
  g <- kw_str d "hash" (Some EmptyString) ;;
  h <- kw_str d "version" (Some EmptyString) ;;
  i <- kw_str d "description" (Some EmptyString) ;;
  Ok (post_init w (mk a b c e f g h i)).

End FileEntry.

Module Dependency.

Record t : Type := mk {
  name : string;
  version : string;
  installer_path : string;
  check_command : string;
  required : bool
}.

Definition fields : list string :=
  ["name"; "version"; "installer_path"; "check_command"; "required"].

(** [asdict(self)] *)
Definition to_dict (x : t) : pyval :=
  PDict [ ("name", PStr (name x));
          ("version", PStr (version x));
          ("installer_path", PStr (installer_path x));
          ("check_command", PStr (check_command x));
          ("required", PBool (required x)) ].

(** [cls] on the unpacked [data] *)
Definition from_dict (data : pyval) : result t :=
  d <- as_dict data ;;
  _ <- check_kwargs fields d ;;
  a <- kw_str d "name" None ;;
  b <- kw_str d "version" (Some EmptyString) ;;
  c <- kw_str d "installer_path" (Some EmptyString) ;;
  e <- kw_str d "check_command" (Some EmptyString) ;;
  f <- kw_bool d "required" true ;;
  Ok (mk a b c e f).

End Dependency.

Module ProjectConfig.

Record t : Type := mk {
  name : string;
  version : string;
  author : string;
  company : string;
  description : string;
  copyright : string;
  icon_path : string;
  output_dir : string;
  default_install_dir : string;
  python_version : string;
  require_admin : bool;
  compression : string;
  license_enabled : bool;
  license_text : string;
  license_file : string;
  create_uninstaller : bool;
  silent_mode : bool;
  overwrite_existing : bool;
  installer_title : string;
  installer_style : string;
  background_color : string;
  text_color : string;
  button_color : string;
  custom_css : string;
  onefile : bool;
  console : bool;
  hidden_imports : list string;
  additional_hooks : list string;
  exclude_modules : list string;
  script_elements : list ScriptElement.t;
  shortcuts : list ShortcutConfig.t;
  registry_entries : list RegistryEntry.t;
  dependencies : list Dependency.t;
  search_paths : list string;
  files : list FileEntry.t;
  sign_installer : bool;
  certificate_path : string;
  certificate_password : string;
  timestamp_server : string;
  created : string;
  modified : string
}.

Definition fields : list string :=
  ["name";
   "version";
   "author";
   "company";
   "description";
   "copyright";
   "icon_path";
   "output_dir";
   "default_install_dir";
   "python_version";
   "require_admin";
   "compression";
   "license_enabled";
   "license_text";
   "license_file";
   "create_uninstaller";
   "silent_mode";
   "overwrite_existing";
   "installer_title";
   "installer_style";
   "background_color";
   "text_color";
   "button_color";
   "custom_css";
   "onefile";
   "console";
   "hidden_imports";
   "additional_hooks";
   "exclude_modules";
   "script_elements";
   "shortcuts";
   "registry_entries";
   "dependencies";
   "search_paths";
   "files";
   "sign_installer";
   "certificate_path";
   "certificate_password";
   "timestamp_server";
   "created";
   "modified"].

Definition strs (l : list string) : pyval := PList (map PStr l).

Definition to_dict (p : t) : pyval :=
  PDict [
    ("name", PStr (name p));
    ("version", PStr (version p));
    ("author", PStr (author p));
    ("company", PStr (company p));
    ("description", PStr (description p));
    ("copyright", PStr (copyright p));
    ("icon_path", PStr (icon_path p));
    ("output_dir", PStr (output_dir p));
    ("default_install_dir", PStr (default_install_dir p));
    ("python_version", PStr (python_version p));
    ("require_admin", PBool (require_admin p));
    ("compression", PStr (compression p));
    ("license_enabled", PBool (license_enabled p));
    ("license_text", PStr (license_text p));
    ("license_file", PStr (license_file p));
    ("create_uninstaller", PBool (create_uninstaller p));
    ("silent_mode", PBool (silent_mode p));
    ("overwrite_existing", PBool (overwrite_existing p));
    ("installer_title", PStr (installer_title p));
    ("installer_style", PStr (installer_style p));
    ("background_color", PStr (background_color p));
    ("text_color", PStr (text_color p));
    ("button_color", PStr (button_color p));
    ("custom_css", PStr (custom_css p));
    ("onefile", PBool (onefile p));
    ("console", PBool (console p));
    ("hidden_imports", strs (hidden_imports p));
    ("additional_hooks", strs (additional_hooks p));
    ("exclude_modules", strs (exclude_modules p));
    ("script_elements", PList (map ScriptElement.to_dict (script_elements p)));
    ("shortcuts", PList (map ShortcutConfig.to_dict (shortcuts p)));
    ("registry_entries", PList (map RegistryEntry.to_dict (registry_entries p)));
    ("dependencies", PList (map Dependency.to_dict (dependencies p)));
    ("search_paths", strs (search_paths p));
    ("files", PList (map FileEntry.to_dict (files p)));
    ("sign_installer", PBool (sign_installer p));
    ("certificate_path", PStr (certificate_path p));
    ("certificate_password", PStr (certificate_password p));
    ("timestamp_server", PStr (timestamp_server p));
    ("created", PStr (created p));
    ("modified", PStr (modified p)) ].

(** The dataclass constructor on keyword arguments: the five sequences of
    objects arrive as built lists, every other field from [kw], with the
    declared default when the key is absent. *)
Definition init (w : World)
    (files_ : list FileEntry.t) (script_elements_ : list ScriptElement.t)
    (shortcuts_ : list ShortcutConfig.t)
    (registry_entries_ : list RegistryEntry.t)
    (dependencies_ : list Dependency.t) (kw : dict) : result t :=
  _ <- check_kwargs fields kw ;;
  v_name <- kw_str kw "name" (Some "New Project") ;;
  v_version <- kw_str kw "version" (Some "1.0.0") ;;
  v_author <- kw_str kw "author" (Some EmptyString) ;;
  v_company <- kw_str kw "company" (Some EmptyString) ;;
  v_description <- kw_str kw "description" (Some EmptyString) ;;
  v_copyright <- kw_str kw "copyright" (Some EmptyString) ;;
  v_icon_path <- kw_str kw "icon_path" (Some EmptyString) ;;
  v_output_dir <- kw_str kw "output_dir" (Some EmptyString) ;;
  v_default_install_dir <- kw_str kw "default_install_dir" (Some "%PROGRAMFILES%\{name}") ;;
  v_python_version <- kw_str kw "python_version" (Some (python_major_minor w)) ;;
  v_require_admin <- kw_bool kw "require_admin" true ;;
  v_compression <- kw_str kw "compression" (Some "upx") ;;
  v_license_enabled <- kw_bool kw "license_enabled" false ;;
  v_license_text <- kw_str kw "license_text" (Some EmptyString) ;;
  v_license_file <- kw_str kw "license_file" (Some EmptyString) ;;
  v_create_uninstaller <- kw_bool kw "create_uninstaller" true ;;
  v_silent_mode <- kw_bool kw "silent_mode" false ;;
  v_overwrite_existing <- kw_bool kw "overwrite_existing" true ;;
  v_installer_title <- kw_str kw "installer_title" (Some "{name} Setup") ;;
  v_installer_style <- kw_str kw "installer_style" (Some "default") ;;
  v_background_color <- kw_str kw "background_color" (Some EmptyString) ;;
  v_text_color <- kw_str kw "text_color" (Some EmptyString) ;;
  v_button_color <- kw_str kw "button_color" (Some EmptyString) ;;
  v_custom_css <- kw_str kw "custom_css" (Some EmptyString) ;;
  v_onefile <- kw_bool kw "onefile" true ;;
  v_console <- kw_bool kw "console" false ;;
  v_hidden_imports <- kw_strs kw "hidden_imports" ;;
  v_additional_hooks <- kw_strs kw "additional_hooks" ;;
  v_exclude_modules <- kw_strs kw "exclude_modules" ;;
  v_search_paths <- kw_strs kw "search_paths" ;;
  v_sign_installer <- kw_bool kw "sign_installer" false ;;
  v_certificate_path <- kw_str kw "certificate_path" (Some EmptyString) ;;
  v_certificate_password <- kw_str kw "certificate_password" (Some EmptyString) ;;
  v_timestamp_server <- kw_str kw "timestamp_server" (Some "http://timestamp.digicert.com") ;;
  v_created <- kw_str kw "created" (Some (now_isoformat w)) ;;
  v_modified <- kw_str kw "modified" (Some (now_isoformat_next w)) ;;
  Ok (mk v_name v_version v_author v_company v_description v_copyright
       v_icon_path v_output_dir v_default_install_dir v_python_version
       v_require_admin v_compression v_license_enabled v_license_text
       v_license_file v_create_uninstaller v_silent_mode
       v_overwrite_existing v_installer_title v_installer_style
       v_background_color v_text_color v_button_color v_custom_css v_onefile
       v_console v_hidden_imports v_additional_hooks v_exclude_modules
       script_elements_ shortcuts_ registry_entries_ dependencies_
       v_search_paths files_ v_sign_installer v_certificate_path
       v_certificate_password v_timestamp_server v_created v_modified).

Definition set_modified (p : t) (m : string) : t :=
  mk (name p) (version p) (author p) (company p) (description p)
    (copyright p) (icon_path p) (output_dir p) (default_install_dir p)
    (python_version p) (require_admin p) (compression p) (license_enabled p)
    (license_text p) (license_file p) (create_uninstaller p) (silent_mode p)
    (overwrite_existing p) (installer_title p) (installer_style p)
    (background_color p) (text_color p) (button_color p) (custom_css p)
    (onefile p) (console p) (hidden_imports p) (additional_hooks p)
    (exclude_modules p) (script_elements p) (shortcuts p)
    (registry_entries p) (dependencies p) (search_paths p) (files p)
    (sign_installer p) (certificate_path p) (certificate_password p)
    (timestamp_server p) (created p) m.

Definition set_create_uninstaller (p : t) (b : bool) : t :=
  mk (name p) (version p) (author p) (company p) (description p)
    (copyright p) (icon_path p) (output_dir p) (default_install_dir p)
    (python_version p) (require_admin p) (compression p) (license_enabled p)
    (license_text p) (license_file p) b (silent_mode p)
    (overwrite_existing p) (installer_title p) (installer_style p)
    (background_color p) (text_color p) (button_color p) (custom_css p)
    (onefile p) (console p) (hidden_imports p) (additional_hooks p)
    (exclude_modules p) (script_elements p) (shortcuts p)
    (registry_entries p) (dependencies p) (search_paths p) (files p)
    (sign_installer p) (certificate_path p) (certificate_password p)
    (timestamp_server p) (created p) (modified p).

(** [p] with its list of file entries replaced. *)
Definition set_files (p : t) (l : list FileEntry.t) : t :=
  mk (name p) (version p) (author p) (company p) (description p)
    (copyright p) (icon_path p) (output_dir p) (default_install_dir p)
    (python_version p) (require_admin p) (compression p) (license_enabled p)
    (license_text p) (license_file p) (create_uninstaller p) (silent_mode p)
    (overwrite_existing p) (installer_title p) (installer_style p)
    (background_color p) (text_color p) (button_color p) (custom_css p)
    (onefile p) (console p) (hidden_imports p) (additional_hooks p)
    (exclude_modules p) (script_elements p) (shortcuts p)
    (registry_entries p) (dependencies p) (search_paths p) l
    (sign_installer p) (certificate_path p) (certificate_password p)
    (timestamp_server p) (created p) (modified p).

Definition copyright_default (w : World) : string :=
  "Copyright " ++ chr "169"%char ++ " " ++ repr_int (now_year w).

Definition sequence_keys : list string :=
  ["files"; "script_elements"; "shortcuts"; "registry_entries"; "dependencies"].

(** The defaults that [from_dict] writes into [updated_data] for the keys
    that an older document lacks. *)
Definition backfill (w : World) (updated_data : dict) : dict :=
  let updated_data := dict_setdefault updated_data "company" (PStr EmptyString) in
  let updated_data :=
    dict_setdefault updated_data "copyright" (PStr (copyright_default w)) in
  let updated_data := dict_setdefault updated_data "create_uninstaller" (PBool true) in
  let updated_data := dict_setdefault updated_data "silent_mode" (PBool false) in
  let updated_data := dict_setdefault updated_data "overwrite_existing" (PBool true) in
  let updated_data := dict_setdefault updated_data "installer_title" (PStr "{name} Setup") in
  let updated_data := dict_setdefault updated_data "installer_style" (PStr "default") in
  updated_data.

Definition from_dict (w : World) (data : pyval) : result t :=
  match data with
  | PDict d =>
      fl <- py_iter (dict_get d "files" (PList [])) ;;
      files_ <- rmapM (FileEntry.from_dict w) fl ;;
      el <- py_iter (dict_get d "script_elements" (PList [])) ;;
      script_elements_ <- rmapMi (ScriptElement.from_dict w) 0 el ;;
      sl <- py_iter (dict_get d "shortcuts" (PList [])) ;;
      shortcuts_ <- rmapM ShortcutConfig.from_dict sl ;;
      rl <- py_iter (dict_get d "registry_entries" (PList [])) ;;
      registry_entries_ <- rmapM RegistryEntry.from_dict rl ;;
      dl <- py_iter (dict_get d "dependencies" (PList [])) ;;
      dependencies_ <- rmapM Dependency.from_dict dl ;;
      (* updated_data = data.copy(); its five sequence keys now hold the
         lists built above, which [init] receives as arguments *)
      let updated_data := fold_left dict_del sequence_keys d in
      let updated_data := backfill w updated_data in
      init w files_ script_elements_ shortcuts_ registry_entries_ dependencies_
           updated_data
  | _ => Raise (mkExn "AttributeError" "get")
  end.

(** Which of the keys that [from_dict] backfills a document lacks. *)
Record Missing : Type := mkMissing {
  no_company : bool;
  no_copyright : bool;
  no_create_uninstaller : bool;
  no_silent_mode : bool;
  no_overwrite_existing : bool;
  no_installer_title : bool;
  no_installer_style : bool
}.

Definition nothing_missing : Missing :=
  mkMissing false false false false false false false.

Definition absent_keys (m : Missing) : list string :=
  ((if no_company m then ["company"] else [])
   ++ (if no_copyright m then ["copyright"] else [])
   ++ (if no_create_uninstaller m then ["create_uninstaller"] else [])
   ++ (if no_silent_mode m then ["silent_mode"] else [])
   ++ (if no_overwrite_existing m then ["overwrite_existing"] else [])
   ++ (if no_installer_title m then ["installer_title"] else [])
   ++ (if no_installer_style m then ["installer_style"] else []))%list.

(** The document of [p] as an older version of the program would have
    written it: without the keys that [m] marks. *)
Definition older_document (m : Missing) (p : t) : pyval :=
  match to_dict p with
  | PDict d => PDict (fold_left dict_del (absent_keys m) d)
  | v => v
  end.

(** [p] with the documented default in every field that [m] marks. *)
Definition backfilled (w : World) (m : Missing) (p : t) : t :=
  mk (name p) (version p) (author p)
    (if no_company m then EmptyString else company p) (description p)
    (if no_copyright m then (copyright_default w) else copyright p)
    (icon_path p) (output_dir p) (default_install_dir p) (python_version p)
    (require_admin p) (compression p) (license_enabled p) (license_text p)
    (license_file p)
    (if no_create_uninstaller m then true else create_uninstaller p)
    (if no_silent_mode m then false else silent_mode p)
    (if no_overwrite_existing m then true else overwrite_existing p)
    (if no_installer_title m then "{name} Setup" else installer_title p)
    (if no_installer_style m then "default" else installer_style p)
    (background_color p) (text_color p) (button_color p) (custom_css p)
    (onefile p) (console p) (hidden_imports p) (additional_hooks p)
    (exclude_modules p) (script_elements p) (shortcuts p)
    (registry_entries p) (dependencies p) (search_paths p) (files p)
    (sign_installer p) (certificate_path p) (certificate_password p)
    (timestamp_server p) (created p) (modified p).

(** Reading an entry back leaves its hash alone: it has one, or it is a
    directory, or its source is not on disk, or the source cannot be
    hashed. *)
Definition hash_settled (w : World) (f : FileEntry.t) : bool :=
  negb (is_empty (FileEntry.hash f))
  || FileEntry.is_directory f
  || negb (path_exists w (FileEntry.source_path f))
  || is_empty (FileEntry.calculate_hash w f).

(** The condition under which reading a document gives back the project:
    every file entry is settled and every script element has an id, as its
    constructor guarantees. *)
Definition reads_back (w : World) (p : t) : bool :=
  forallb (hash_settled w) (files p)
  && forallb (fun e => negb (is_empty (ScriptElement.id e))) (script_elements p).

End ProjectConfig.

(* ================================================================== *)
(** ** core/project_manager.py *)
(* ================================================================== *)

Module ProjectManager.

(** [save_project]: stamps [modified], then dumps [to_dict] as JSON.  The
    result is the project as the call leaves it and the document written.
    The document is kept as the JSON value: [json.dump] followed by
    [json.load] gives back an equal value for the values of [pyval]. *)
Definition save_project (w : World) (project : ProjectConfig.t)
  : ProjectConfig.t * pyval :=
  let project := ProjectConfig.set_modified project (now_isoformat w) in
  (project, ProjectConfig.to_dict project).

(** [load_project] *)
Definition load_project (w : World) (document : pyval)
  : result ProjectConfig.t :=
  ProjectConfig.from_dict w document.

End ProjectManager.

(* ================================================================== *)
(** ** utils/helpers.py *)
(* ================================================================== *)

Module Helpers.

Definition is_digit (c : ascii) : bool :=
  ((48 <=? code c) && (code c <=? 57))%N.

(** [re.match(r'^\d+(\.\d+)*$', s)]: groups of digits separated by dots;
    [$] also matches just before a newline that ends the string.
    [in_group] tells that the current group already has a digit. *)
Fixpoint version_groups (in_group : bool) (s : string) : bool :=
  match s with
  | EmptyString => in_group
  | String c s' =>
      if is_digit c then version_groups true s'
      else if Ascii.eqb c "." then in_group && version_groups false s'
      else if Ascii.eqb c LF then in_group && is_empty s'
      else false
  end.

Definition version_pattern_match (s : string) : bool := version_groups false s.

Definition append_if {A} (b : bool) (l : list A) (x : A) : list A :=
  if b then (l ++ [x])%list else l.

Definition validate_project (w : World) (project : ProjectConfig.t)
  : bool * list string * list string :=
  let errors : list string := [] in
  let warnings : list string := [] in
  (* Check required fields *)
  let errors :=
    append_if (is_empty (ProjectConfig.name project)
               || is_empty (strip (ProjectConfig.name project)))
              errors "Project name is required" in
  let errors :=
    append_if (is_empty (ProjectConfig.version project)
               || is_empty (strip (ProjectConfig.version project)))
              errors "Version is required" in
  let errors :=
    if is_empty (ProjectConfig.output_dir project) then
      (errors ++ ["Output directory is required"])%list
    else
      (* Check if output directory is writable *)
      if path_exists w (ProjectConfig.output_dir project) then
        if write_probe w (ProjectConfig.output_dir project) then errors
        else (errors ++ ["Output directory is not writable"])%list
      else errors in
  (* Check if icon exists *)
  let warnings :=
    append_if (negb (is_empty (ProjectConfig.icon_path project))
               && negb (path_exists w (ProjectConfig.icon_path project)))
              warnings
              ("Icon file not found: " ++ ProjectConfig.icon_path project) in
  (* Check if license file exists *)
  let warnings :=
    append_if (ProjectConfig.license_enabled project
               && negb (is_empty (ProjectConfig.license_file project))
               && negb (path_exists w (ProjectConfig.license_file project)))
              warnings
              ("License file not found: " ++ ProjectConfig.license_file project) in
  (* Check if certificate exists for signing *)
  let warnings :=
    append_if (ProjectConfig.sign_installer project
               && negb (is_empty (ProjectConfig.certificate_path project))
               && negb (path_exists w (ProjectConfig.certificate_path project)))
              warnings
              ("Certificate file not found: "
               ++ ProjectConfig.certificate_path project) in
  (* Check if files exist *)
  let warnings :=
    fold_left
      (fun warnings file_entry =>
         append_if (negb (FileEntry.is_directory file_entry)
                    && negb (path_exists w (FileEntry.source_path file_entry)))
                   warnings
                   ("File not found: " ++ FileEntry.source_path file_entry))
      (ProjectConfig.files project) warnings in
  (* Check for valid version format *)
  let warnings :=
    if negb (is_empty (ProjectConfig.version project)) then
      append_if (negb (version_pattern_match (ProjectConfig.version project)))
                warnings
                ("Version format should be like '1.0.0': "
                 ++ ProjectConfig.version project)
    else warnings in
  (* Check default install directory *)
  let warnings :=
    if negb (is_empty (ProjectConfig.default_install_dir project)) then
      append_if (negb (contains "{name}"
                                (ProjectConfig.default_install_dir project)))
                warnings
                "Default install directory should contain {name} placeholder"
    else warnings in
  let is_valid := (length errors =? 0)%nat in
  (is_valid, errors, warnings).

(** A required text field counts as set when the validator accepts it:
    it is not empty and not made of white space only. *)
Definition field_set (s : string) : bool :=
  negb (is_empty s) && negb (is_empty (strip s)).

(** The conditions the specification names for a clean verdict. *)
Definition required_fields_set (w : World) (project : ProjectConfig.t) : Prop :=
  field_set (ProjectConfig.name project) = true
  /\ ProjectConfig.version project = "1.0.0"
  /\ is_empty (ProjectConfig.output_dir project) = false
  /\ path_exists w (ProjectConfig.output_dir project) = true
  /\ write_probe w (ProjectConfig.output_dir project) = true
  /\ contains "{name}" (ProjectConfig.default_install_dir project) = true.

(** No file that the project refers to is missing from disk: the icon, the
    license file when the license is enabled, the certificate when signing
    is enabled, and the source of every entry that is not a directory. *)
Definition references_present (w : World) (project : ProjectConfig.t) : bool :=
  (is_empty (ProjectConfig.icon_path project)
   || path_exists w (ProjectConfig.icon_path project))
  && (negb (ProjectConfig.license_enabled project)
      || is_empty (ProjectConfig.license_file project)
      || path_exists w (ProjectConfig.license_file project))
  && (negb (ProjectConfig.sign_installer project)
      || is_empty (ProjectConfig.certificate_path project)
      || path_exists w (ProjectConfig.certificate_path project))
  && forallb (fun f => FileEntry.is_directory f
                       || path_exists w (FileEntry.source_path f))
             (ProjectConfig.files project).

(** The second half of the claim on the validator, as the specification
    words it. *)
Definition clean_verdict_claim (w : World) (project : ProjectConfig.t) : Prop :=
  required_fields_set w project ->
  validate_project w project = (true, [], []).

Definition invalid_chars : string := "<>:" ++ dq ++ "/\|?*".

Definition sanitize_filename (filename : string) : string :=
  (* Remove invalid characters *)
  let filename :=
    fold_left (fun filename char => replace_char char "_" filename)
              (list_ascii_of_string invalid_chars) filename in
  (* Remove leading/trailing spaces and dots *)
  let filename := strip_chars ". " filename in
  (* Ensure not empty *)
  if is_empty filename then "unnamed" else filename.

End Helpers.

(* ================================================================== *)
(** ** core/generator.py: the two synthesizers *)
(* ================================================================== *)

Definition unlines (l : list string) : string :=
  String.concat EmptyString (map (fun x => x ++ nl) l).

(** The constants that the emitted installer program binds at its top level.
    A literal written by [repr] or [json.dumps] denotes, when the emitted
    program is loaded, the value it was printed from; the program is
    therefore kept as these values next to its text. *)
Record InstallerData : Type := mkInstallerData {
  FILES_DATA : list pyval;
  SHORTCUTS : list pyval;
  REGISTRY_ENTRIES : list pyval;
  SCRIPT_ELEMENTS : list pyval;
  DEPENDENCIES : list pyval;
  PROJECT_NAME : string;
  PROJECT_VERSION : string;
  PROJECT_DESCRIPTION : string;
  CREATE_UNINSTALLER : bool
}.

Module Synth.

(** The template up to the embedded data. *)
Definition installer_head : list string :=
  [ "#!/usr/bin/env python3";
    "# -*- coding: utf-8 -*-";
    EmptyString;
    "import os";
    "import sys";
    "import shutil";
    "import subprocess";
    "import winreg";
    "from pathlib import Path";
    "from PyQt6.QtWidgets import (";
    "    QApplication, QMainWindow, QWidget, QVBoxLayout,";
    "    QLabel, QPushButton, QProgressBar, QFileDialog, QMessageBox";
    ")";
    "from PyQt6.QtCore import Qt, QThread, pyqtSignal";
    EmptyString ].

(** The template after the embedded constants: the install routine and the
    window of the emitted program, as text. *)
Definition installer_body : list string :=
  [ EmptyString;
    EmptyString;
    "class InstallThread(QThread):";
    "    " ++ dq ++ dq ++ dq ++ "Worker thread for installation process" ++ dq ++ dq ++ dq;
    "    progress = pyqtSignal(int, str)";
    "    finished_signal = pyqtSignal(bool, str)";
    EmptyString;
    "    def __init__(self, install_path):";
    "        super().__init__()";
    "        self.install_path = install_path";
    EmptyString;
    "    def run(self):";
    "        try:";
    "            # Create install directory";
    "            os.makedirs(self.install_path, exist_ok=True)";
    "            self.progress.emit(10, " ++ dq ++ "Created installation directory" ++ dq ++ ")";
    EmptyString;
    "            # Install dependencies";
    "            if DEPENDENCIES:";
    "                self.progress.emit(20, " ++ dq ++ "Installing dependencies..." ++ dq ++ ")";
    "                for dep in DEPENDENCIES:";
    "                    self._install_dependency(dep)";
    EmptyString;
    "            # Copy files";
    "            self.progress.emit(40, " ++ dq ++ "Copying files..." ++ dq ++ ")";
    "            for file_info in FILES_DATA:";
    "                self._copy_file(file_info)";
    EmptyString;
    "            # Create shortcuts";
    "            self.progress.emit(60, " ++ dq ++ "Creating shortcuts..." ++ dq ++ ")";
    "            for shortcut in SHORTCUTS:";
    "                self._create_shortcut(shortcut)";
    EmptyString;
    "            # Apply registry entries";
    "            self.progress.emit(70, " ++ dq ++ "Applying registry entries..." ++ dq ++ ")";
    "            for reg_entry in REGISTRY_ENTRIES:";
    "                self._apply_registry(reg_entry)";
    EmptyString;
    "            # Run post-install scripts";
    "            self.progress.emit(80, " ++ dq ++ "Running post-install scripts..." ++ dq ++ ")";
    "            for script in SCRIPT_ELEMENTS:";
    "                if script.get('event') == 'post_install':";
    "                    self._run_script(script)";
    EmptyString;
    "            # Create uninstaller";
    "            if CREATE_UNINSTALLER:";
    "                self.progress.emit(90, " ++ dq ++ "Creating uninstaller..." ++ dq ++ ")";
    "                self._create_uninstaller()";
    EmptyString;
    "            self.progress.emit(100, " ++ dq ++ "Installation complete!" ++ dq ++ ")";
    "            self.finished_signal.emit(True, " ++ dq ++ "Installation completed successfully!" ++ dq ++ ")";
    EmptyString;
    "        except Exception as e:";
    "            self.finished_signal.emit(False, f" ++ dq ++ "Installation failed: {str(e)}" ++ dq ++ ")";
    EmptyString;
    "    def _install_dependency(self, dep):";
    "        " ++ dq ++ dq ++ dq ++ "Install a dependency using pip or system command" ++ dq ++ dq ++ dq;
    "        dep_type = dep.get('type', 'pip')";
    "        name = dep.get('name', '')";
    "        ";
    "        if dep_type == 'pip' and name:";
    "            subprocess.run([sys.executable, '-m', 'pip', 'install', name], ";
    "                         check=True, capture_output=True)";
    EmptyString;
    "    def _copy_file(self, file_info):";
    "        " ++ dq ++ dq ++ dq ++ "Copy a file to the installation directory" ++ dq ++ dq ++ dq;
    "        source = file_info.get('source', '')";
    "        dest = file_info.get('destination', '')";
    "        ";
    "        if not source or not dest:";
    "            return";
    "            ";
    "        dest_path = os.path.join(self.install_path, dest)";
    "        os.makedirs(os.path.dirname(dest_path), exist_ok=True)";
    "        ";
    "        if os.path.isfile(source):";
    "            shutil.copy2(source, dest_path)";
    "        elif os.path.isdir(source):";
    "            if os.path.exists(dest_path):";
    "                shutil.rmtree(dest_path)";
    "            shutil.copytree(source, dest_path)";
    EmptyString;
    "    def _create_shortcut(self, shortcut):";
    "        " ++ dq ++ dq ++ dq ++ "Create a Windows shortcut" ++ dq ++ dq ++ dq;
    "        try:";
    "            import win32com.client";
    "            shell = win32com.client.Dispatch(" ++ dq ++ "WScript.Shell" ++ dq ++ ")";
    "            ";
    "            name = shortcut.get('name', '')";
    "            target = shortcut.get('target', '')";
    "            location = shortcut.get('location', 'desktop')";
    "            ";
    "            if location == 'desktop':";
    "                shortcut_path = os.path.join(os.path.expanduser('~'), 'Desktop', f" ++ dq ++ "{name}.lnk" ++ dq ++ ")";
    "            elif location == 'start_menu':";
    "                shortcut_path = os.path.join(os.environ['APPDATA'], ";
    "                                            'Microsoft', 'Windows', 'Start Menu', ";
    "                                            'Programs', f" ++ dq ++ "{name}.lnk" ++ dq ++ ")";
    "            else:";
    "                return";
    "            ";
    "            target_path = os.path.join(self.install_path, target)";
    "            link = shell.CreateShortCut(shortcut_path)";
    "            link.Targetpath = target_path";
    "            link.WorkingDirectory = os.path.dirname(target_path)";
    "            link.save()";
    "        except ImportError:";
    "            pass  # win32com not available";
    EmptyString;
    "    def _apply_registry(self, reg_entry):";
    "        " ++ dq ++ dq ++ dq ++ "Apply a registry entry" ++ dq ++ dq ++ dq;
    "        try:";
    "            root = reg_entry.get('root', 'HKEY_CURRENT_USER')";
    "            key_path = reg_entry.get('key', '')";
    "            value_name = reg_entry.get('name', '')";
    "            value_data = reg_entry.get('value', '')";
    "            value_type = reg_entry.get('type', 'REG_SZ')";
    "            ";
    "            root_key = getattr(winreg, root, winreg.HKEY_CURRENT_USER)";
    "            ";
    "            key = winreg.CreateKey(root_key, key_path)";
    "            ";
    "            if value_type == 'REG_DWORD':";
    "                winreg.SetValueEx(key, value_name, 0, winreg.REG_DWORD, int(value_data))";
    "            else:";
    "                winreg.SetValueEx(key, value_name, 0, winreg.REG_SZ, str(value_data))";
    "            ";
    "            winreg.CloseKey(key)";
    "        except Exception:";
    "            pass  # Silently fail on registry errors";
    EmptyString;
    "    def _run_script(self, script):";
    "        " ++ dq ++ dq ++ dq ++ "Run a post-install script" ++ dq ++ dq ++ dq;
    "        script_type = script.get('type', 'python')";
    "        content = script.get('content', '')";
    "        ";
    "        if script_type == 'python' and content:";
    "            exec(content)";
    "        elif script_type == 'cmd' and content:";
    "            subprocess.run(content, shell=True, cwd=self.install_path)";
    EmptyString;
    "    def _create_uninstaller(self):";
    "        " ++ dq ++ dq ++ dq ++ "Create an uninstaller executable" ++ dq ++ dq ++ dq;
    "        uninstall_script = f'''";
    "import os";
    "import sys";
    "import shutil";
    "from PyQt6.QtWidgets import QApplication, QMessageBox";
    EmptyString;
    "def uninstall():";
    "    reply = QMessageBox.question(None, " ++ dq ++ "Uninstall" ++ dq ++ ", ";
    "                                " ++ dq ++ "Are you sure you want to uninstall {PROJECT_NAME}?" ++ dq ++ ",";
    "                                QMessageBox.StandardButton.Yes | QMessageBox.StandardButton.No)";
    "    ";
    "    if reply == QMessageBox.StandardButton.Yes:";
    "        try:";
    "            install_dir = r" ++ dq ++ "{self.install_path}" ++ dq;
    "            if os.path.exists(install_dir):";
    "                shutil.rmtree(install_dir)";
    "            QMessageBox.information(None, " ++ dq ++ "Success" ++ dq ++ ", " ++ dq ++ "Uninstallation complete!" ++ dq ++ ")";
    "        except Exception as ex:";
    "            QMessageBox.critical(None, " ++ dq ++ "Error" ++ dq ++ ", f" ++ dq ++ "Uninstallation failed: {{ex}}" ++ dq ++ ")";
    EmptyString;
    "if __name__ == " ++ dq ++ "__main__" ++ dq ++ ":";
    "    app = QApplication(sys.argv)";
    "    uninstall()";
    "'''";
    "        uninstall_path = os.path.join(self.install_path, " ++ dq ++ "uninstall.py" ++ dq ++ ")";
    "        with open(uninstall_path, 'w') as f:";
    "            f.write(uninstall_script)";
    EmptyString;
    EmptyString;
    "class InstallerWindow(QMainWindow):";
    "    def __init__(self):";
    "        super().__init__()";
    "        self.setWindowTitle(f" ++ dq ++ "{PROJECT_NAME} Setup" ++ dq ++ ")";
    "        self.setFixedSize(580, 420)";
    "        self.install_thread = None";
    EmptyString;
    "        central = QWidget()";
    "        self.setCentralWidget(central)";
    "        layout = QVBoxLayout(central)";
    "        layout.setSpacing(15)";
    "        layout.setContentsMargins(30, 30, 30, 30)";
    EmptyString;
    "        title = QLabel(f" ++ dq ++ "<h2>{PROJECT_NAME}</h2><h4>Version {PROJECT_VERSION}</h4>" ++ dq ++ ")";
    "        title.setAlignment(Qt.AlignmentFlag.AlignCenter)";
    "        layout.addWidget(title)";
    EmptyString;
    "        if PROJECT_DESCRIPTION:";
    "            desc = QLabel(PROJECT_DESCRIPTION)";
    "            desc.setWordWrap(True)";
    "            desc.setAlignment(Qt.AlignmentFlag.AlignCenter)";
    "            layout.addWidget(desc)";
    EmptyString;
    "        layout.addStretch()";
    EmptyString;
    "        self.install_btn = QPushButton(" ++ dq ++ "Install" ++ dq ++ ")";
    "        self.install_btn.setMinimumHeight(40)";
    "        self.install_btn.clicked.connect(self.install)";
    "        layout.addWidget(self.install_btn)";
    EmptyString;
    "        self.cancel_btn = QPushButton(" ++ dq ++ "Cancel" ++ dq ++ ")";
    "        self.cancel_btn.setMinimumHeight(40)";
    "        self.cancel_btn.clicked.connect(self.close)";
    "        layout.addWidget(self.cancel_btn)";
    EmptyString;
    "        self.progress = QProgressBar()";
    "        self.progress.setVisible(False)";
    "        self.progress.setMinimumHeight(30)";
    "        layout.addWidget(self.progress)";
    EmptyString;
    "        self.status = QLabel(" ++ dq ++ dq ++ ")";
    "        self.status.setAlignment(Qt.AlignmentFlag.AlignCenter)";
    "        layout.addWidget(self.status)";
    EmptyString;
    "    def install(self):";
    "        default_path = os.path.join(";
    "            os.environ.get(" ++ dq ++ "ProgramFiles" ++ dq ++ ", " ++ dq ++ "C:\\Program Files" ++ dq ++ "), ";
    "            PROJECT_NAME.replace(" ++ dq ++ " " ++ dq ++ ", " ++ dq ++ "_" ++ dq ++ ")";
    "        )";
    "        ";
    "        path = QFileDialog.getExistingDirectory(";
    "            self,";
    "            " ++ dq ++ "Select Install Location" ++ dq ++ ",";
    "            default_path";
    "        )";
    "        ";
    "        if not path:";
    "            return";
    EmptyString;
    "        self.install_btn.setEnabled(False)";
    "        self.cancel_btn.setEnabled(False)";
    "        self.progress.setVisible(True)";
    "        self.progress.setValue(0)";
    EmptyString;
    "        self.install_thread = InstallThread(path)";
    "        self.install_thread.progress.connect(self.update_progress)";
    "        self.install_thread.finished_signal.connect(self.install_finished)";
    "        self.install_thread.start()";
    EmptyString;
    "    def update_progress(self, value, message):";
    "        self.progress.setValue(value)";
    "        self.status.setText(message)";
    EmptyString;
    "    def install_finished(self, success, message):";
    "        if success:";
    "            QMessageBox.information(self, " ++ dq ++ "Success" ++ dq ++ ", message)";
    "            self.close()";
    "        else:";
    "            QMessageBox.critical(self, " ++ dq ++ "Error" ++ dq ++ ", message)";
    "            self.install_btn.setEnabled(True)";
    "            self.cancel_btn.setEnabled(True)";
    "            self.progress.setVisible(False)";
    EmptyString;
    EmptyString;
    "def main():";
    "    app = QApplication(sys.argv)";
    "    app.setStyle(" ++ dq ++ "Fusion" ++ dq ++ ")";
    "    win = InstallerWindow()";
    "    win.show()";
    "    sys.exit(app.exec())";
    EmptyString;
    EmptyString;
    "if __name__ == " ++ dq ++ "__main__" ++ dq ++ ":";
    "    main()" ].

(** The build spec up to the declaration of the executable name. *)
Definition spec_head : list string :=
  [ "# -*- mode: python ; coding: utf-8 -*-";
    EmptyString;
    "block_cipher = None";
    EmptyString;
    "a = Analysis(";
    "    ['installer.py'],";
    "    pathex=[],";
    "    binaries=[],";
    "    datas=[],";
    "    hiddenimports=['win32com.client', 'winreg'],";
    "    hookspath=[],";
    "    hooksconfig={},";
    "    runtime_hooks=[],";
    "    excludes=[],";
    "    win_no_prefer_redirects=False,";
    "    win_private_assemblies=False,";
    "    cipher=block_cipher,";
    "    noarchive=False,";
    ")";
    EmptyString;
    "pyz = PYZ(a.pure, a.zipped_data, cipher=block_cipher)";
    EmptyString;
    "exe = EXE(";
    "    pyz,";
    "    a.scripts,";
    "    a.binaries,";
    "    a.zipfiles,";
    "    a.datas,";
    "    []," ].

(** The build spec after the declaration of the executable name. *)
Definition spec_tail : list string :=
  [ "    debug=False,";
    "    bootloader_ignore_signals=False,";
    "    strip=False,";
    "    upx=True,";
    "    upx_exclude=[],";
    "    runtime_tmpdir=None,";
    "    console=False,";
    "    disable_windowed_traceback=False,";
    "    target_arch=None,";
    "    codesign_identity=None,";
    "    entitlements_file=None,";
    ")" ].

(** [x or default] on strings *)
Definition str_or (x default : string) : string :=
  if is_empty x then default else x.

(** The values bound by the first lines of [_generate_installer_script]. *)
Definition installer_data (project : ProjectConfig.t) : InstallerData :=
  let name := str_or (ProjectConfig.name project) "My Application" in
  let version := ProjectConfig.version project in
  let description := str_or (ProjectConfig.description project) EmptyString in
  mkInstallerData
    (map FileEntry.to_dict (ProjectConfig.files project))
    (map ShortcutConfig.to_dict (ProjectConfig.shortcuts project))
    (map RegistryEntry.to_dict (ProjectConfig.registry_entries project))
    (map ScriptElement.to_dict (ProjectConfig.script_elements project))
    (map Dependency.to_dict (ProjectConfig.dependencies project))
    name version description
    true.

(** The lines of the template that carry the embedded data. *)
Definition embedded_data_lines (d : InstallerData) : list string :=
  [ "FILES_DATA = " ++ py_repr (PList (FILES_DATA d));
    "SHORTCUTS = " ++ py_repr (PList (SHORTCUTS d));
    "REGISTRY_ENTRIES = " ++ py_repr (PList (REGISTRY_ENTRIES d));
    "SCRIPT_ELEMENTS = " ++ py_repr (PList (SCRIPT_ELEMENTS d));
    "DEPENDENCIES = " ++ py_repr (PList (DEPENDENCIES d));
    EmptyString;
    "PROJECT_NAME = " ++ json_dumps_str (PROJECT_NAME d);
    "PROJECT_VERSION = " ++ json_dumps_str (PROJECT_VERSION d);
    "PROJECT_DESCRIPTION = " ++ json_dumps_str (PROJECT_DESCRIPTION d);
    EmptyString ].

(** The line of the template that fixes the uninstaller switch. *)
Definition uninstaller_line : string := "CREATE_UNINSTALLER = True".

Definition installer_constants (d : InstallerData) : list string :=
  app (embedded_data_lines d) [ uninstaller_line ].

Definition _generate_installer_script (project : ProjectConfig.t) : string :=
  unlines (app installer_head
             (app (installer_constants (installer_data project))
                  installer_body)).

Definition name_safe (project : ProjectConfig.t) : string :=
  replace_char "-" "_" (replace_char " " "_" (ProjectConfig.name project)).

Definition _generate_spec_file (project : ProjectConfig.t) : string :=
  unlines (app spec_head
             (app [ "    name='" ++ name_safe project ++ "_Setup'," ]
                  spec_tail)).

Arguments _generate_installer_script : simpl never.
Arguments _generate_spec_file : simpl never.

(** Two projects have the same content, as far as the synthesizers read
    it: the identity fields and the five sequences. *)
Definition same_content (p q : ProjectConfig.t) : Prop :=
  ProjectConfig.name p = ProjectConfig.name q
  /\ ProjectConfig.version p = ProjectConfig.version q
  /\ ProjectConfig.description p = ProjectConfig.description q
  /\ ProjectConfig.files p = ProjectConfig.files q
  /\ ProjectConfig.shortcuts p = ProjectConfig.shortcuts q
  /\ ProjectConfig.registry_entries p = ProjectConfig.registry_entries q
  /\ ProjectConfig.script_elements p = ProjectConfig.script_elements q
  /\ ProjectConfig.dependencies p = ProjectConfig.dependencies q.

(** A list literal: the items in order, separated by a comma and a space. *)
Definition list_literal (items : list string) : string :=
  "[" ++ join ", " items ++ "]".


End Synth.

(* ================================================================== *)
(** ** core/generator.py: the build orchestrator *)
(* ================================================================== *)

Module Generator.

(** The three signals of [InstallerGeneratorThread]. *)
Inductive event : Type :=
| progress (percent : Z) (message : string)
| log_message (message : string)
| finished (message : string) (success : bool).

(** What one run of the orchestrator meets outside the process. *)
Record BuildEnv : Type := mkBuildEnv {
  sys_executable : string;
  (** [tempfile.mkdtemp(prefix="instgen_")] *)
  mkdtemp : result string;
  os_path_join : string -> string -> string;
  os_path_dirname : string -> string;
  (** [open(path, "w", encoding="utf-8")] and [f.write(text)] *)
  write_text : string -> string -> result unit;
  (** [subprocess.run(cmd, cwd=..., capture_output=True, text=True)]:
      the return code and the captured stderr *)
  subprocess_run : list string -> option string -> result (Z * string);
  (** [os.path.exists] at its three call sites *)
  dist_exists : string -> bool;
  output_dir_exists : string -> bool;
  temp_dir_exists : string -> bool;
  os_listdir : string -> result (list string);
  os_makedirs : string -> result unit;
  shutil_move : string -> string -> result unit;
  shutil_rmtree : string -> result unit
}.

(** The state a run works on: the signals emitted so far, the attribute
    [self.temp_dir], and what the run left on disk. *)
Record state : Type := mkState {
  emitted : list event;
  temp_dir : option string;
  scratch_on_disk : bool;
  installer_at : option string
}.

Definition initial : state := mkState [] None false None.

Definition M (A : Type) : Type := state -> state * result A.

Definition ret {A} (a : A) : M A := fun s => (s, Ok a).
Definition bind {A B} (m : M A) (k : A -> M B) : M B :=
  fun s => match m s with
           | (s', Ok a) => k a s'
           | (s', Raise e) => (s', Raise e)
           end.
Definition raise {A} (e : exn) : M A := fun s => (s, Raise e).
Definition lift {A} (r : result A) : M A := fun s => (s, r).
Definition emit (e : event) : M unit :=
  fun s => match s with
           | mkState evs td sc out => (mkState (evs ++ [e])%list td sc out, Ok tt)
           end.
Definition get_temp_dir : M (option string) := fun s => (s, Ok (temp_dir s)).
Definition set_temp_dir (d : string) : M unit :=
  fun s => match s with
           | mkState evs _ _ out => (mkState evs (Some d) true out, Ok tt)
           end.
Definition set_scratch (b : bool) : M unit :=
  fun s => match s with
           | mkState evs td _ out => (mkState evs td b out, Ok tt)
           end.
Definition set_installer_at (p : string) : M unit :=
  fun s => match s with
           | mkState evs td sc _ => (mkState evs td sc (Some p), Ok tt)
           end.

(** [try: body except Exception as e: handler e] *)
Definition try_except (body : M unit) (handler : exn -> M unit) : M unit :=
  fun s => match body s with
           | (s', Ok x) => (s', Ok x)
           | (s', Raise e) => handler e s'
           end.

(** [try: body finally: fin] *)
Definition try_finally (body : M unit) (fin : M unit) : M unit :=
  fun s => match body s with
           | (s', r) =>
               match fin s' with
               | (s'', Ok _) => (s'', r)
               | (s'', Raise e) => (s'', Raise e)
               end
           end.

Notation "x <-- m ;;; k" := (bind m (fun x => k))
  (at level 61, m at next level, right associativity).
Notation "m ;;; k" := (bind m (fun _ => k))
  (at level 61, right associativity).

Definition RuntimeError (m : string) : exn := mkExn "RuntimeError" m.
Definition FileNotFoundError (m : string) : exn := mkExn "FileNotFoundError" m.

(** U+2192, which the 8-bit characters of [string] cannot hold as one code
    point: kept as the three bytes of its UTF-8 encoding. *)
Definition RIGHTWARDS_ARROW : string :=
  String "226"%char (String "134"%char (String "146"%char EmptyString)).

Section Run.

Variable env : BuildEnv.
Variable project : ProjectConfig.t.
Variable output_path : string.

Definition str_list (l : list string) : string := py_repr (PList (map PStr l)).

Definition relocate (dist_dir : string) (exe : string) : M unit :=
  let generated_exe := os_path_join env dist_dir exe in
  emit (log_message ("Found generated installer: " ++ generated_exe)) ;;;
  (* Ensure output directory exists *)
  let output_dir := os_path_dirname env output_path in
  (if negb (is_empty output_dir) && negb (output_dir_exists env output_dir)
   then lift (os_makedirs env output_dir)
   else ret tt) ;;;
  lift (shutil_move env generated_exe output_path) ;;;
  set_installer_at output_path ;;;
  emit (log_message ("Installer created " ++ RIGHTWARDS_ARROW ++ " "
                     ++ output_path)) ;;;
  emit (progress 95 "Installer file moved to output location").

Definition collect (td : string) : M unit :=
  (* Check what was actually generated in dist folder *)
  let dist_dir := os_path_join env td "dist" in
  if negb (dist_exists env dist_dir) then
    raise (FileNotFoundError ("Dist directory not found: " ++ dist_dir))
  else
    (* List all files in dist directory *)
    dist_files <-- lift (os_listdir env dist_dir) ;;;
    emit (log_message ("Files in dist: " ++ str_list dist_files)) ;;;
    (* Find the .exe file *)
    let exe_files := filter (fun f => endswith f ".exe") dist_files in
    match exe_files with
    | [] =>
        raise (FileNotFoundError
                 ("No .exe file found in " ++ dist_dir ++ ". Files present: "
                  ++ str_list dist_files))
    | exe :: _ => relocate dist_dir exe
    end.

Definition _run_pyinstaller : M unit :=
  emit (log_message "Running PyInstaller...") ;;;
  emit (progress 40 "Running PyInstaller...") ;;;
  let cmd := [ sys_executable env; "-m"; "PyInstaller"; "--noconfirm";
               "--clean"; "installer.spec" ] in
  td <-- get_temp_dir ;;;
  result <-- lift (subprocess_run env cmd td) ;;;
  emit (progress 80 "PyInstaller finished, checking output...") ;;;
  let '(returncode, stderr) := result in
  if negb (returncode =? 0)%Z then
    emit (log_message ("PyInstaller stderr: " ++ stderr)) ;;;
    raise (RuntimeError ("PyInstaller failed: " ++ stderr))
  else
    match td with
    | Some td => collect td
    | None => raise (TypeError "expected str, bytes or os.PathLike object")
    end.

Definition body : M unit :=
  emit (progress 0 "Starting installer generation...") ;;;
  emit (log_message "=== Installer Generation Started ===") ;;;
  td <-- lift (mkdtemp env) ;;;
  set_temp_dir td ;;;
  emit (progress 5 ("Created temp directory: " ++ td)) ;;;
  let installer_code := Synth._generate_installer_script project in
  let installer_py := os_path_join env td "installer.py" in
  lift (write_text env installer_py installer_code) ;;;
  emit (progress 20 "Generated installer script") ;;;
  let spec_content := Synth._generate_spec_file project in
  let spec_file := os_path_join env td "installer.spec" in
  lift (write_text env spec_file spec_content) ;;;
  emit (progress 35 "Generated PyInstaller spec") ;;;
  _run_pyinstaller ;;;
  emit (progress 100 "Installer build completed") ;;;
  emit (log_message "Installer generation successful") ;;;
  emit (finished output_path true).

Definition handler (e : exn) : M unit :=
  let msg := "Installer generation failed: " ++ exn_msg e in
  emit (log_message ("ERROR: " ++ msg)) ;;;
  emit (finished msg false).

(** The [finally] block: clean up temp directory. *)
Definition cleanup : M unit :=
  td <-- get_temp_dir ;;;
  match td with
  | Some td =>
      if negb (is_empty td) && temp_dir_exists env td then
        try_except
          (lift (shutil_rmtree env td) ;;;
           set_scratch false ;;;
           emit (log_message ("Cleaned up temp directory: " ++ td)))
          (fun e =>
             emit (log_message ("Warning: Could not clean temp directory: "
                                ++ exn_msg e)))
      else if is_empty td then ret tt
      else
        (* [os.path.exists] answered that the workspace is not on disk *)
        set_scratch false
  | None => ret tt
  end.

Definition run_M : M unit := try_finally (try_except body handler) cleanup.

(** [InstallerGeneratorThread.run] on a fresh thread object. *)
Definition run : state := fst (run_M initial).

End Run.

Definition is_finished (e : event) : bool :=
  match e with finished _ _ => true | _ => false end.
Definition is_progress (e : event) : bool :=
  match e with progress _ _ => true | _ => false end.

(** The terminal outcome events of a run. *)
Definition outcomes (evs : list event) : list event := filter is_finished evs.

(** What is emitted after the first terminal outcome event. *)
Fixpoint after_outcome (evs : list event) : list event :=
  match evs with
  | [] => []
  | e :: rest => if is_finished e then rest else after_outcome rest
  end.

(** The log line of the [finally] block, for a workspace [td]. *)
Definition cleanup_report (env : BuildEnv) (td : string) : list event :=
  if negb (is_empty td) && temp_dir_exists env td then
    match shutil_rmtree env td with
    | Ok _ => [ log_message ("Cleaned up temp directory: " ++ td) ]
    | Raise e =>
        [ log_message ("Warning: Could not clean temp directory: "
                       ++ exn_msg e) ]
    end
  else [].

(** What follows the outcome of a run in [env]. *)
Definition cleanup_tail (env : BuildEnv) : list event :=
  match mkdtemp env with
  | Ok td => cleanup_report env td
  | Raise _ => []
  end.

Definition removal_raises (env : BuildEnv) (td : string) : bool :=
  match shutil_rmtree env td with
  | Ok _ => false
  | Raise _ => true
  end.

(** The claim on the order of events, as the specification words it: the
    terminal outcome is the last event of the run. *)
Definition outcome_is_last (evs : list event) : Prop :=
  exists pre message success, evs = (pre ++ [finished message success])%list.

(** The claim on a failed packaging step, as the specification words it:
    one outcome, a failure that carries the captured stderr, and no scratch
    workspace left when the run ends. *)
Definition failure_reported_and_cleaned (stderr : string) (s : state) : Prop :=
  (exists message,
      outcomes (emitted s) = [ finished message false ]
      /\ contains stderr message = true)
  /\ scratch_on_disk s = false.

(** The events of a run up to the point where the packaging tool has
    exited with a non-zero code and the failure has been reported. *)
Definition packaging_failure_events (td stderr : string) : list event :=
  [ progress 0 "Starting installer generation...";
    log_message "=== Installer Generation Started ===";
    progress 5 ("Created temp directory: " ++ td);
    progress 20 "Generated installer script";
    progress 35 "Generated PyInstaller spec";
    log_message "Running PyInstaller...";
    progress 40 "Running PyInstaller...";
    progress 80 "PyInstaller finished, checking output...";
    log_message ("PyInstaller stderr: " ++ stderr);
    log_message ("ERROR: Installer generation failed: PyInstaller failed: "
                 ++ stderr);
    finished ("Installer generation failed: PyInstaller failed: " ++ stderr)
             false ].

Definition pyinstaller_cmd (env : BuildEnv) : list string :=
  [ sys_executable env; "-m"; "PyInstaller"; "--noconfirm"; "--clean";
    "installer.spec" ].

End Generator.

(* ================================================================== *)
(** ** The emitted installer program: [InstallThread] of the template *)
(* ================================================================== *)

Module Installer.

(** The two signals of [InstallThread]. *)
Inductive signal : Type :=
| progress (value : Z) (message : string)
| finished_signal (success : bool) (message : string).

(** The value handed to [winreg.SetValueEx] with its registry type:
    [winreg.REG_DWORD, int(value_data)] or [winreg.REG_SZ, str(value_data)]. *)
Inductive regvalue : Type :=
| REG_DWORD_int (value_data : pyval)
| REG_SZ_str (value_data : pyval).

(** The operations by which the install routine acts on the machine.  A
    Python value that the routine passes on as it found it stays a [pyval];
    a root key is named by the attribute of [winreg] that holds it.  What the
    text handed to [exec] does when it runs is not modelled: [exec] is an
    operation like the others, which succeeds or raises. *)
Inductive sysop : Type :=
| os_makedirs (path : string)
| pip_install (name : pyval)
| shutil_copy2 (source : pyval) (dest_path : string)
| shutil_rmtree (dest_path : string)
| shutil_copytree (source : pyval) (dest_path : string)
| import_win32com_client
| Dispatch_WScript_Shell
| save_shortcut (shortcut_path target_path working_directory : string)
| winreg_CreateKey (root_key : string) (key_path : pyval)
| winreg_SetValueEx (root_key : string) (key_path value_name : pyval)
                    (value : regvalue)
| winreg_CloseKey (root_key : string) (key_path : pyval)
| exec (content : pyval)
| subprocess_run_shell (content : pyval) (cwd : string)
| write_file (path : string) (text : string).

(** What a run leaves behind, in order. *)
Inductive item : Type :=
| sig (s : signal)
| did (o : sysop)
| failed (o : sysop) (e : exn).

(** [isinstance(e, Exception)]: of the builtin classes, [BaseException],
    [SystemExit], [KeyboardInterrupt] and [GeneratorExit] are outside
    [Exception]. *)
Definition outside_Exception : list string :=
  [ "BaseException"; "SystemExit"; "KeyboardInterrupt"; "GeneratorExit" ].

Definition Exception (e : exn) : bool :=
  negb (mem_str (exn_class e) outside_Exception).

Definition ImportError (e : exn) : bool :=
  String.eqb (exn_class e) "ImportError"
  || String.eqb (exn_class e) "ModuleNotFoundError".

(** The machine the installer runs on.  [raises n o] tells whether the
    library call [o], attempted after [n] earlier items, raises: what a
    library raises is an [Exception].  [exec_raises n content] tells what
    the text run by [exec] raises, which can be anything, [SystemExit]
    included. *)
Record InstallEnv : Type := mkInstallEnv {
  raises : nat -> sysop -> option { e : exn | Exception e = true };
  exec_raises : nat -> pyval -> option exn;
  os_path_join : string -> string -> string;
  os_path_dirname : string -> string;
  os_path_isfile : pyval -> result bool;
  os_path_isdir : pyval -> result bool;
  os_path_exists : string -> bool;
  (** [os.path.expanduser('~')] *)
  home : string;
  os_environ : string -> option string;
  (** whether [winreg] has an attribute of that name *)
  winreg_hasattr : string -> bool
}.

Definition M (A : Type) : Type := list item -> list item * result A.

Definition ret {A} (a : A) : M A := fun t => (t, Ok a).
Definition bind {A B} (m : M A) (k : A -> M B) : M B :=
  fun t => match m t with
           | (t', Ok a) => k a t'
           | (t', Raise e) => (t', Raise e)
           end.
Definition lift {A} (r : result A) : M A := fun t => (t, r).
Definition emit (s : signal) : M unit := fun t => ((t ++ [sig s])%list, Ok tt).

(** [try: body except <classes>: handler] *)
Definition try_except (catches : exn -> bool) (body : M unit)
    (handler : exn -> M unit) : M unit :=
  fun t => match body t with
           | (t', Ok x) => (t', Ok x)
           | (t', Raise e) => if catches e then handler e t' else (t', Raise e)
           end.

Fixpoint for_each {A} (l : list A) (f : A -> M unit) : M unit :=
  match l with
  | [] => ret tt
  | x :: xs => bind (f x) (fun _ => for_each xs f)
  end.

Notation "x <-- m ;;; k" := (bind m (fun x => k))
  (at level 61, m at next level, right associativity).
Notation "m ;;; k" := (bind m (fun _ => k))
  (at level 61, right associativity).

(** The text that [_create_uninstaller] writes. *)
Definition uninstall_script (PROJECT_NAME install_path : string) : string :=
  nl ++ unlines
  [ "import os";
    "import sys";
    "import shutil";
    "from PyQt6.QtWidgets import QApplication, QMessageBox";
    EmptyString;
    "def uninstall():";
    "    reply = QMessageBox.question(None, " ++ dq ++ "Uninstall" ++ dq ++ ", ";
    "                                " ++ dq ++ "Are you sure you want to uninstall " ++ PROJECT_NAME ++ "?" ++ dq ++ ",";
    "                                QMessageBox.StandardButton.Yes | QMessageBox.StandardButton.No)";
    "    ";
    "    if reply == QMessageBox.StandardButton.Yes:";
    "        try:";
    "            install_dir = r" ++ dq ++ install_path ++ dq;
    "            if os.path.exists(install_dir):";
    "                shutil.rmtree(install_dir)";
    "            QMessageBox.information(None, " ++ dq ++ "Success" ++ dq ++ ", " ++ dq ++ "Uninstallation complete!" ++ dq ++ ")";
    "        except Exception as ex:";
    "            QMessageBox.critical(None, " ++ dq ++ "Error" ++ dq ++ ", f" ++ dq ++ "Uninstallation failed: {ex}" ++ dq ++ ")";
    EmptyString;
    "if __name__ == " ++ dq ++ "__main__" ++ dq ++ ":";
    "    app = QApplication(sys.argv)";
    "    uninstall()" ].

Section InstallThread.

Variable env : InstallEnv.
Variable data : InstallerData.
(** [self.install_path] *)
Variable install_path : string.

(** What operation [o] raises when it is attempted after [n] items. *)
Definition raised (n : nat) (o : sysop) : option exn :=
  match o with
  | exec content => exec_raises env n content
  | _ => match raises env n o with
         | Some e => Some (proj1_sig e)
         | None => None
         end
  end.

Definition perform (o : sysop) : M unit :=
  fun t => match raised (length t) o with
           | None => ((t ++ [did o])%list, Ok tt)
           | Some e => ((t ++ [failed o e])%list, Raise e)
           end.

(** [os.path.join(a, b)] where [b] is whatever the dict held. *)
Definition join_value (a : string) (b : pyval) : result string :=
  match b with
  | PStr s => Ok (os_path_join env a s)
  | _ => Raise (TypeError "expected str, bytes or os.PathLike object")
  end.

Definition _install_dependency (dep : pyval) : M unit :=
  dep_type <-- lift (py_get dep "type" (PStr "pip")) ;;;
  name <-- lift (py_get dep "name" (PStr EmptyString)) ;;;
  if eq_str dep_type "pip" && truthy name then perform (pip_install name)
  else ret tt.

Definition _copy_file (file_info : pyval) : M unit :=
  source <-- lift (py_get file_info "source" (PStr EmptyString)) ;;;
  dest <-- lift (py_get file_info "destination" (PStr EmptyString)) ;;;
  if negb (truthy source) || negb (truthy dest) then ret tt
  else
    dest_path <-- lift (join_value install_path dest) ;;;
    perform (os_makedirs (os_path_dirname env dest_path)) ;;;
    is_file <-- lift (os_path_isfile env source) ;;;
    if is_file then perform (shutil_copy2 source dest_path)
    else
      is_dir <-- lift (os_path_isdir env source) ;;;
      if is_dir then
        (if os_path_exists env dest_path then perform (shutil_rmtree dest_path)
         else ret tt) ;;;
        perform (shutil_copytree source dest_path)
      else ret tt.

Definition _create_shortcut (shortcut : pyval) : M unit :=
  try_except ImportError
    (perform import_win32com_client ;;;
     perform Dispatch_WScript_Shell ;;;
     name <-- lift (py_get shortcut "name" (PStr EmptyString)) ;;;
     target <-- lift (py_get shortcut "target" (PStr EmptyString)) ;;;
     location <-- lift (py_get shortcut "location" (PStr "desktop")) ;;;
     let link := fun shortcut_path : string =>
       target_path <-- lift (join_value install_path target) ;;;
       perform (save_shortcut shortcut_path target_path
                              (os_path_dirname env target_path)) in
     if eq_str location "desktop" then
       link (fold_left (os_path_join env)
                       [ "Desktop"; py_str name ++ ".lnk" ] (home env))
     else if eq_str location "start_menu" then
       match os_environ env "APPDATA" with
       | Some appdata =>
           link (fold_left (os_path_join env)
                           [ "Microsoft"; "Windows"; "Start Menu"; "Programs";
                             py_str name ++ ".lnk" ] appdata)
       | None => lift (Raise (KeyError (repr_str "APPDATA")))
       end
     else ret tt)
    (fun _ => ret tt).

(** [getattr(winreg, root, winreg.HKEY_CURRENT_USER)] *)
Definition getattr_winreg (root : pyval) : result string :=
  match root with
  | PStr s => Ok (if winreg_hasattr env s then s else "HKEY_CURRENT_USER")
  | _ => Raise (TypeError "attribute name must be string")
  end.

Definition _apply_registry (reg_entry : pyval) : M unit :=
  try_except Exception
    (root <-- lift (py_get reg_entry "root" (PStr "HKEY_CURRENT_USER")) ;;;
     key_path <-- lift (py_get reg_entry "key" (PStr EmptyString)) ;;;
     value_name <-- lift (py_get reg_entry "name" (PStr EmptyString)) ;;;
     value_data <-- lift (py_get reg_entry "value" (PStr EmptyString)) ;;;
     value_type <-- lift (py_get reg_entry "type" (PStr "REG_SZ")) ;;;
     root_key <-- lift (getattr_winreg root) ;;;
     perform (winreg_CreateKey root_key key_path) ;;;
     (if eq_str value_type "REG_DWORD" then
        lift (py_int value_data) ;;;
        perform (winreg_SetValueEx root_key key_path value_name
                                   (REG_DWORD_int value_data))
      else
        perform (winreg_SetValueEx root_key key_path value_name
                                   (REG_SZ_str value_data))) ;;;
     perform (winreg_CloseKey root_key key_path))
    (fun _ => ret tt).

Definition _run_script (script : pyval) : M unit :=
  script_type <-- lift (py_get script "type" (PStr "python")) ;;;
  content <-- lift (py_get script "content" (PStr EmptyString)) ;;;
  if eq_str script_type "python" && truthy content then perform (exec content)
  else if eq_str script_type "cmd" && truthy content then
    perform (subprocess_run_shell content install_path)
  else ret tt.

Definition _create_uninstaller : M unit :=
  let uninstall_path := os_path_join env install_path "uninstall.py" in
  perform (write_file uninstall_path
                      (uninstall_script (PROJECT_NAME data) install_path)).

(** The loop of [run] over [SCRIPT_ELEMENTS]. *)
Definition run_post_install_scripts : M unit :=
  for_each (SCRIPT_ELEMENTS data) (fun script =>
    event <-- lift (py_get script "event" PNone) ;;;
    if eq_str event "post_install" then _run_script script else ret tt).

Definition run_body : M unit :=
  (* Create install directory *)
  perform (os_makedirs install_path) ;;;
  emit (progress 10 "Created installation directory") ;;;
  (* Install dependencies *)
  (if truthy (PList (DEPENDENCIES data)) then
     emit (progress 20 "Installing dependencies...") ;;;
     for_each (DEPENDENCIES data) _install_dependency
   else ret tt) ;;;
  (* Copy files *)
  emit (progress 40 "Copying files...") ;;;
  for_each (FILES_DATA data) _copy_file ;;;
  (* Create shortcuts *)
  emit (progress 60 "Creating shortcuts...") ;;;
  for_each (SHORTCUTS data) _create_shortcut ;;;
  (* Apply registry entries *)
  emit (progress 70 "Applying registry entries...") ;;;
  for_each (REGISTRY_ENTRIES data) _apply_registry ;;;
  (* Run post-install scripts *)
  emit (progress 80 "Running post-install scripts...") ;;;
  run_post_install_scripts ;;;
  (* Create uninstaller *)
  (if CREATE_UNINSTALLER data then
     emit (progress 90 "Creating uninstaller...") ;;;
     _create_uninstaller
   else ret tt) ;;;
  emit (progress 100 "Installation complete!") ;;;
  emit (finished_signal true "Installation completed successfully!").

Definition run_M : M unit :=
  try_except Exception run_body
    (fun e => emit (finished_signal false ("Installation failed: " ++ exn_msg e))).

(** [InstallThread.run]: what the run leaves behind. *)
Definition run : list item := fst (run_M []).

End InstallThread.

(** The operations that succeeded, in order. *)
Definition done (t : list item) : list sysop :=
  flat_map (fun i => match i with did o => [o] | _ => [] end) t.

(** The operations attempted, in order. *)
Definition attempted (t : list item) : list sysop :=
  flat_map (fun i => match i with did o => [o] | failed o _ => [o] | sig _ => [] end) t.

Definition is_success (i : item) : bool :=
  match i with sig (finished_signal true _) => true | _ => false end.

Definition succeeded (t : list item) : bool := existsb is_success t.

Definition is_copy (o : sysop) : bool :=
  match o with
  | shutil_copy2 _ _ | shutil_copytree _ _ => true
  | _ => false
  end.

Definition is_script (o : sysop) : bool :=
  match o with
  | exec _ | subprocess_run_shell _ _ => true
  | _ => false
  end.

Definition is_exec (o : sysop) : bool :=
  match o with exec _ => true | _ => false end.

(** A step is tame when it raises nothing but [Exception]s. *)
Definition tame {A} (m : M A) : Prop :=
  forall t e, snd (m t) = Raise e -> Exception e = true.

(** A step is quiet when it only appends to the run and never signals
    success. *)
Definition quiet {A} (m : M A) : Prop :=
  forall t, exists ext, fst (m t) = (t ++ ext)%list /\ succeeded ext = false.

(** The operation by which [_create_uninstaller] writes the companion
    program. *)
Definition the_uninstaller (env : InstallEnv) (data : InstallerData)
    (install_path : string) : sysop :=
  write_file (os_path_join env install_path "uninstall.py")
             (uninstall_script (PROJECT_NAME data) install_path).

(** A step is good when, started on a run without success signal, it either
    ends normally with the uninstaller written, or raises without having
    signalled success. *)
Definition good (env : InstallEnv) (data : InstallerData)
    (install_path : string) (m : M unit) : Prop :=
  forall t, succeeded t = false ->
            match m t with
            | (t', Ok _) => In (did (the_uninstaller env data install_path)) t'
            | (t', Raise _) => succeeded t' = false
            end.

(** What [_apply_registry] does on an entry all of whose keys but [key]
    fall back to their defaults. *)
Definition default_registry_write (env : InstallEnv) (key_path : pyval)
  : M unit :=
  try_except Exception
    (perform env (winreg_CreateKey "HKEY_CURRENT_USER" key_path) ;;;
     perform env (winreg_SetValueEx "HKEY_CURRENT_USER" key_path
                                    (PStr EmptyString)
                                    (REG_SZ_str (PStr EmptyString))) ;;;
     perform env (winreg_CloseKey "HKEY_CURRENT_USER" key_path))
    (fun _ => ret tt).

End Installer.

(* ================================================================== *)
(** ** Concrete projects and environments *)
(* ================================================================== *)

Module Scenario.

(** A plain Windows-style [os.path.join] and [os.path.dirname] for the
    concrete environments: components are separated by a backslash. *)
Definition join_bs (a b : string) : string := a ++ "\" ++ b.

Fixpoint drop_last_component (rs : string) : string :=
  match rs with
  | EmptyString => EmptyString
  | String c rs' => if Ascii.eqb c BSL then rs' else drop_last_component rs'
  end.
Definition dirname_bs (p : string) : string := srev (drop_last_component (srev p)).

(** A project with defaults everywhere but in the given fields. *)
Definition project_with (name version output_dir icon_path : string)
    (files : list FileEntry.t) (script_elements : list ScriptElement.t)
    (registry_entries : list RegistryEntry.t) (create_uninstaller : bool)
    (modified : string) : ProjectConfig.t :=
  ProjectConfig.mk
    name version EmptyString EmptyString EmptyString EmptyString icon_path
    output_dir "%PROGRAMFILES%\{name}" "3.11"
    true "upx" false EmptyString EmptyString create_uninstaller false true
    "{name} Setup" "default" EmptyString EmptyString EmptyString EmptyString
    true false [] [] []
    script_elements [] registry_entries [] [] files
    false EmptyString EmptyString "http://timestamp.digicert.com"
    "2024-01-01T00:00:00" modified.

Definition demo_file : FileEntry.t :=
  FileEntry.mk "C:\src\data.txt" "app\data.txt" false false true
               EmptyString EmptyString EmptyString.

Definition demo_dir : FileEntry.t :=
  FileEntry.mk "C:\src\assets" "assets" false true true
               EmptyString EmptyString EmptyString.

Definition demo_script : ScriptElement.t :=
  ScriptElement.mk ScriptElementType.RUN_SCRIPT "hello"
    (PDict [ ("event", PStr "post_install"); ("type", PStr "python");
             ("content", PStr "print(1)") ])
    "a1b2c3d4" true false.

Definition demo_registry : RegistryEntry.t :=
  RegistryEntry.mk "HKEY_LOCAL_MACHINE" "Software\Demo" "Version" "REG_DWORD"
                   (PInt 5) "create".

Definition demo : ProjectConfig.t :=
  project_with "Demo" "1.0.0" "C:\out" EmptyString
               [demo_file; demo_dir] [demo_script] [demo_registry] true
               "2024-01-01T00:00:00".

(** The same project with the uninstaller switched off and a later
    modification stamp. *)
Definition demo_no_uninstaller : ProjectConfig.t :=
  project_with "Demo" "1.0.0" "C:\out" EmptyString
               [demo_file; demo_dir] [demo_script] [demo_registry] false
               "2025-06-30T12:00:00".

Definition empty_project : ProjectConfig.t :=
  project_with EmptyString EmptyString EmptyString "C:\missing.ico"
               [] [] [] true "2024-01-01T00:00:00".

Definition demo_missing_icon : ProjectConfig.t :=
  project_with "Demo" "1.0.0" "C:\out" "C:\missing.ico"
               [] [] [] true "2024-01-01T00:00:00".


(** A machine on which [C:\out] and [C:\src\data.txt] exist and nothing
    else does. *)
Definition disk : World :=
  mkWorld
    (fun p => String.eqb p "C:\out" || String.eqb p "C:\src\data.txt")
    (fun p => if String.eqb p "C:\src\data.txt" then Some "9f86d081884c7d65"
              else None)
    (fun p => String.eqb p "C:\out")
    "2025-06-30T12:00:00" "2025-06-30T12:00:00.000125" 2025 "3.11"
    (fun _ => "123e4567-e89b-12d3-a456-426614174000")
    (fun _ => "123e4567e89b12d3a456426614174000").

(** A machine on which nothing exists. *)
Definition blank_disk : World :=
  mkWorld (fun _ => false) (fun _ => None) (fun _ => false)
          "2025-06-30T12:00:00" "2025-06-30T12:00:00.000125" 2025 "3.11"
          (fun _ => "123e4567-e89b-12d3-a456-426614174000")
          (fun _ => "123e4567e89b12d3a456426614174000").

(** An install target on which every operation succeeds; every source is a
    regular file. *)
Definition willing_machine : Installer.InstallEnv :=
  Installer.mkInstallEnv
    (fun _ _ => None) (fun _ _ => None) join_bs dirname_bs
    (fun _ => Ok true) (fun _ => Ok false) (fun _ => false)
    "C:\Users\me" (fun _ => Some "C:\Users\me\AppData\Roaming")
    (fun s => String.eqb s "HKEY_CURRENT_USER"
              || String.eqb s "HKEY_LOCAL_MACHINE").

(** A build on which the packaging tool succeeds and leaves [Setup.exe]. *)
Definition build_ok : Generator.BuildEnv :=
  Generator.mkBuildEnv
    "python.exe" (Ok "C:\tmp\instgen_x") join_bs dirname_bs
    (fun _ _ => Ok tt) (fun _ _ => Ok (0%Z, EmptyString))
    (fun _ => true) (fun _ => true) (fun _ => true)
    (fun _ => Ok ["Setup.exe"]) (fun _ => Ok tt) (fun _ _ => Ok tt)
    (fun _ => Ok tt).

(** A build on which the packaging tool exits with code 1. *)
Definition build_tool_fails : Generator.BuildEnv :=
  Generator.mkBuildEnv
    "python.exe" (Ok "C:\tmp\instgen_x") join_bs dirname_bs
    (fun _ _ => Ok tt) (fun _ _ => Ok (1%Z, "boom"))
    (fun _ => true) (fun _ => true) (fun _ => true)
    (fun _ => Ok ["Setup.exe"]) (fun _ => Ok tt) (fun _ _ => Ok tt)
    (fun _ => Ok tt).

(** The same, and the scratch workspace cannot be removed. *)
Definition build_tool_fails_locked : Generator.BuildEnv :=
  Generator.mkBuildEnv
    "python.exe" (Ok "C:\tmp\instgen_x") join_bs dirname_bs
    (fun _ _ => Ok tt) (fun _ _ => Ok (1%Z, "boom"))
    (fun _ => true) (fun _ => true) (fun _ => true)
    (fun _ => Ok ["Setup.exe"]) (fun _ => Ok tt) (fun _ _ => Ok tt)
    (fun _ => Raise (mkExn "PermissionError" "access is denied")).

End Scenario.

(* ================================================================== *)
(** ** utils/helpers.py: the file sniffer, and what the validator decides *)
(* ================================================================== *)

Module HelpersMore.

(** [is_binary_file]; [open_rb] answers for [open(file_path, 'rb')] and the
    reads that follow: the bytes of the file, or [None] when anything
    raises. *)
Definition is_binary_file (open_rb : string -> option (list byte))
    (file_path : string) : bool :=
  match open_rb file_path with
  | Some content =>
      let chunk := firstn 1024 content in
      existsb (Byte.eqb x00) chunk
  | None => false
  end.

(** The character that [sanitize_filename] leaves in the place of [c]
    before it strips the ends. *)
Definition sanitized_char (c : ascii) : ascii :=
  if mem_char c Helpers.invalid_chars then "_"%char else c.

(** The string is empty or starts with a character that [drop] keeps. *)
Definition starts_kept (drop : ascii -> bool) (s : string) : Prop :=
  match s with
  | EmptyString => True
  | String c _ => drop c = false
  end.

(** A non-empty run of decimal digits. *)
Definition all_digits (s : string) : bool :=
  negb (is_empty s)
  && forallb Helpers.is_digit (list_ascii_of_string s).

(** The groups after the first one, each behind its dot. *)
Fixpoint tail_groups (rest : list string) : string :=
  match rest with
  | [] => EmptyString
  | x :: r => "." ++ x ++ tail_groups r
  end.

(** Groups of digits separated by dots, at least one group. *)
Definition dotted (groups : list string) : Prop :=
  groups <> [] /\ forallb all_digits groups = true.

(** What decides the verdict of the validator. *)
Definition verdict (w : World) (project : ProjectConfig.t) : bool :=
  Helpers.field_set (ProjectConfig.name project)
  && Helpers.field_set (ProjectConfig.version project)
  && negb (is_empty (ProjectConfig.output_dir project))
  && (negb (path_exists w (ProjectConfig.output_dir project))
      || write_probe w (ProjectConfig.output_dir project)).

Definition warn_if (b : bool) (message : string) : list string :=
  if b then [message] else [].

(** The warnings of the validator, source by source. *)
Definition icon_warning (w : World) (p : ProjectConfig.t) : list string :=
  warn_if (negb (is_empty (ProjectConfig.icon_path p))
           && negb (path_exists w (ProjectConfig.icon_path p)))
          ("Icon file not found: " ++ ProjectConfig.icon_path p).

Definition license_warning (w : World) (p : ProjectConfig.t) : list string :=
  warn_if (ProjectConfig.license_enabled p
           && negb (is_empty (ProjectConfig.license_file p))
           && negb (path_exists w (ProjectConfig.license_file p)))
          ("License file not found: " ++ ProjectConfig.license_file p).

Definition certificate_warning (w : World) (p : ProjectConfig.t)
  : list string :=
  warn_if (ProjectConfig.sign_installer p
           && negb (is_empty (ProjectConfig.certificate_path p))
           && negb (path_exists w (ProjectConfig.certificate_path p)))
          ("Certificate file not found: " ++ ProjectConfig.certificate_path p).

Definition missing_source (w : World) (f : FileEntry.t) : bool :=
  negb (FileEntry.is_directory f)
  && negb (path_exists w (FileEntry.source_path f)).

Definition file_warnings (w : World) (p : ProjectConfig.t) : list string :=
  map (fun f => "File not found: " ++ FileEntry.source_path f)
      (filter (missing_source w) (ProjectConfig.files p)).

Definition version_warning (p : ProjectConfig.t) : list string :=
  warn_if (negb (is_empty (ProjectConfig.version p))
           && negb (Helpers.version_pattern_match (ProjectConfig.version p)))
          ("Version format should be like '1.0.0': " ++ ProjectConfig.version p).

Definition placeholder_warning (p : ProjectConfig.t) : list string :=
  warn_if (negb (is_empty (ProjectConfig.default_install_dir p))
           && negb (contains "{name}" (ProjectConfig.default_install_dir p)))
          "Default install directory should contain {name} placeholder".

End HelpersMore.

(* ================================================================== *)
(** ** core/models.py: identity of script elements *)
(* ================================================================== *)

Module ScriptElementIdentity.

(** [ScriptElement.__eq__] against another script element. *)
Definition __eq__ (self other : ScriptElement.t) : bool :=
  String.eqb (ScriptElement.id self) (ScriptElement.id other).

(** The tuple that [ScriptElement.__hash__] hashes. *)
Definition hashed (self : ScriptElement.t) : string * string * string :=
  (ScriptElementType.value (ScriptElement.type self),
   ScriptElement.name self, ScriptElement.id self).

End ScriptElementIdentity.

(* ================================================================== *)
(** ** core/project_manager.py: the list of recent projects *)
(* ================================================================== *)

Module RecentProjects.

(** [s.split(sep)] for a one-character separator. *)
Fixpoint split (sep : ascii) (s : string) : list string :=
  match s with
  | EmptyString => [EmptyString]
  | String c s' =>
      if Ascii.eqb c sep then EmptyString :: split sep s'
      else match split sep s' with
           | piece :: rest => String c piece :: rest
           | [] => [String c EmptyString]
           end
  end.

(** [ConfigParser] and the file [settings.ini], as far as the recent
    projects go.  The text of the file is [None] when the file is not
    there. *)
Record Settings : Type := mkSettings {
  (** [config['Recent'] = {'projects': value}]: the text that
      [config.write] writes for it, or the exception of the assignment,
      which refuses some values *)
  assign : string -> result string;
  (** [open('settings.ini', 'w')] and [config.write(f)] with that text *)
  write : string -> result unit;
  (** what a write that raises leaves of the file that was there *)
  torn : string -> option string -> option string;
  (** [config.read('settings.ini')] on a file with that text, then
      [config['Recent'].get('projects', '')]: [None] when the file has no
      section [Recent] *)
  read : option string -> result (option string)
}.

(** [save_recent_projects]: the settings file that the call leaves, given
    the one it finds.  The bare [except] passes over every exception. *)
Definition save_recent_projects (cfg : Settings) (projects : list string)
    (settings_ini : option string) : option string :=
  match assign cfg (join "|" (firstn 10 projects)) with
  | Raise _ => settings_ini
  | Ok text =>
      match write cfg text with
      | Ok _ => Some text
      | Raise _ => torn cfg text settings_ini
      end
  end.

(** [load_recent_projects], on the settings file it finds. *)
Definition load_recent_projects (w : World) (cfg : Settings)
    (settings_ini : option string) : list string :=
  match read cfg settings_ini with
  | Ok (Some value) =>
      let recent := split "|" value in
      filter (fun p => negb (is_empty p) && path_exists w p) recent
  | Ok None => []
  | Raise _ => []
  end.

End RecentProjects.

(* ================================================================== *)
(** ** ui/main_window.py: the file scanner *)
(* ================================================================== *)

Module FileScannerThread.

(** The dict that the scanner makes for a file. *)
Record file_info : Type := mk_info {
  path : string;
  relative : string;
  size : Z;
  modified : string
}.

(** The directory tree under scan.  [os_walk] gives, for every directory of
    the tree in the order of the walk, its path and the names of its files;
    the two walks of a scan see the same tree. *)
Record ScanEnv : Type := mkScanEnv {
  os_walk : string -> list (string * list string);
  os_listdir : string -> result (list string);
  os_path_isfile : string -> bool;
  os_path_join : string -> string -> string;
  os_path_relpath : string -> string -> string;
  os_path_getsize : string -> result Z;
  os_path_getmtime : string -> result string
}.

(** [file.endswith(tuple(pattern.split(';')))] *)
Definition matches (file pattern : string) : bool :=
  existsb (endswith file) (RecentProjects.split ";" pattern).

Definition describe (env : ScanEnv) (full_path rel_path : string)
  : result file_info :=
  size <- os_path_getsize env full_path ;;
  modified <- os_path_getmtime env full_path ;;
  Ok (mk_info full_path rel_path size modified).

(** The loop over the patterns, for one file: one entry for every pattern
    that the name matches. *)
Definition scan_file (env : ScanEnv) (patterns : list string)
    (full_path rel_path file : string) : result (list file_info) :=
  rmapM (fun _ => describe env full_path rel_path)
        (filter (matches file) patterns).

(** [run]: the list handed to [finished], or the exception that ends the
    scan with the message [Error scanning].  The progress signals are left
    out. *)
Definition run (env : ScanEnv) (directory : string) (patterns : list string)
    (recursive : bool) : result (list file_info) :=
  if recursive then
    per_directory <-
      rmapM (fun entry =>
               match entry with
               | (root, files) =>
                   per_file <-
                     rmapM (fun file =>
                              let full_path := os_path_join env root file in
                              let rel_path :=
                                os_path_relpath env full_path directory in
                              scan_file env patterns full_path rel_path file)
                           files ;;
                   Ok (List.concat per_file)
               end)
            (os_walk env directory) ;;
    Ok (List.concat per_directory)
  else
    items <- os_listdir env directory ;;
    per_item <-
      rmapM (fun item =>
               let full_path := os_path_join env directory item in
               if os_path_isfile env full_path
               then scan_file env patterns full_path item item
               else Ok [])
            items ;;
    Ok (List.concat per_item).

End FileScannerThread.

(* ================================================================== *)
(** ** ui/main_window.py: the methods that edit the sequences of a project *)
(* ================================================================== *)

Module MainWindow.

(** [l.index(x)] on script elements, from position [i] on: the first
    position whose element equals [x]. *)
Fixpoint index_from (l : list ScriptElement.t) (x : ScriptElement.t) (i : nat)
  : result nat :=
  match l with
  | [] => Raise (ValueError "x not in list")
  | y :: l' =>
      if ScriptElementIdentity.__eq__ y x then Ok i
      else index_from l' x (S i)
  end.

Definition index (l : list ScriptElement.t) (x : ScriptElement.t)
  : result nat := index_from l x 0.

(** [l[i] = v] for [i] in range. *)
Fixpoint setitem {A} (l : list A) (i : nat) (v : A) : list A :=
  match l, i with
  | [], _ => []
  | _ :: l', O => v :: l'
  | x :: l', S i' => x :: setitem l' i' v
  end.

(** [l[i], l[j] = l[j], l[i]] for [i] and [j] in range. *)
Definition swap_items {A} (l : list A) (i j : nat) : list A :=
  match nth_error l j, nth_error l i with
  | Some at_j, Some at_i => setitem (setitem l i at_j) j at_i
  | _, _ => l
  end.

(** The exchange of the neighbours at positions [i] and [i + 1]. *)
Fixpoint swap_adjacent {A} (l : list A) (i : nat) : list A :=
  match l, i with
  | a :: b :: r, O => b :: a :: r
  | a :: r, S i' => a :: swap_adjacent r i'
  | _, _ => l
  end.

(** [move_script_up], on the sequence and the selected element. *)
Definition move_script_up (script_elements : list ScriptElement.t)
    (script : ScriptElement.t) : result (list ScriptElement.t) :=
  index <- index script_elements script ;;
  if (0 <? index)%nat then Ok (swap_items script_elements index (index - 1))
  else Ok script_elements.

(** [move_script_down] *)
Definition move_script_down (script_elements : list ScriptElement.t)
    (script : ScriptElement.t) : result (list ScriptElement.t) :=
  index <- index script_elements script ;;
  if (index <? length script_elements - 1)%nat
  then Ok (swap_items script_elements index (index + 1))
  else Ok script_elements.

(** [l.pop(row)] guarded by [row < len(l)]. *)
Fixpoint pop_row {A} (l : list A) (row : nat) : list A :=
  match l, row with
  | [], _ => []
  | _ :: l', O => l'
  | x :: l', S row' => x :: pop_row l' row'
  end.

(** [sorted(set(rows), reverse=True)] *)
Fixpoint insert_reverse (row : nat) (sorted : list nat) : list nat :=
  match sorted with
  | [] => [row]
  | r :: rest =>
      if (r <? row)%nat then row :: sorted
      else if (r =? row)%nat then sorted
      else r :: insert_reverse row rest
  end.

Definition sorted_reverse (rows : list nat) : list nat :=
  fold_right insert_reverse [] rows.

(** [remove_selected_files], on the rows of the selected cells and the
    files of the project. *)
Definition remove_selected_files {A} (selected : list nat) (files : list A)
  : list A :=
  fold_left pop_row (sorted_reverse selected) files.

(** The entries of [l] whose position, counted from [k], is not in [rows]. *)
Fixpoint keep_unselected {A} (rows : list nat) (k : nat) (l : list A)
  : list A :=
  match l with
  | [] => []
  | x :: l' =>
      if existsb (Nat.eqb k) rows then keep_unselected rows (S k) l'
      else x :: keep_unselected rows (S k) l'
  end.

(** [l.remove(x)] on strings, when [x] is in [l]: the first occurrence
    goes. *)
Fixpoint remove_first (x : string) (l : list string) : list string :=
  match l with
  | [] => []
  | y :: l' => if String.eqb y x then l' else y :: remove_first x l'
  end.

(** [add_to_recent_projects]: the list it leaves in [self.recent_projects]
    and hands to [save_recent_projects]. *)
Definition add_to_recent_projects (recent_projects : list string)
    (file_path : string) : list string :=
  let recent_projects :=
    if mem_str file_path recent_projects
    then remove_first file_path recent_projects
    else recent_projects in
  let recent_projects := file_path :: recent_projects in
  firstn 10 recent_projects.

(** [script in l]: some element of [l] equals [script]. *)
Definition contains_script (l : list ScriptElement.t)
    (script : ScriptElement.t) : bool :=
  existsb (fun y => ScriptElementIdentity.__eq__ y script) l.

(** [l.remove(script)] when [script] is in [l]: the first element that
    equals it goes. *)
Fixpoint remove_script (l : list ScriptElement.t) (script : ScriptElement.t)
  : list ScriptElement.t :=
  match l with
  | [] => []
  | y :: l' =>
      if ScriptElementIdentity.__eq__ y script then l'
      else y :: remove_script l' script
  end.

(** [remove_selected_scripts], on the elements of the selected items and the
    script elements of the project. *)
Definition remove_selected_scripts (selected : list ScriptElement.t)
    (script_elements : list ScriptElement.t) : list ScriptElement.t :=
  fold_left
    (fun l script => if contains_script l script then remove_script l script
                     else l)
    selected script_elements.

(** Whether an element is none of the selected ones. *)
Definition unselected (selected : list ScriptElement.t)
    (y : ScriptElement.t) : bool :=
  negb (existsb (fun script => ScriptElementIdentity.__eq__ y script) selected).

(** What [generate_installer] shows and does, in order: message boxes, the
    creation of the output directory, the start of the generator thread. *)
Inductive step : Type :=
| critical (title text : string)
| question (title text : string)
| warning (title text : string)
| os_makedirs (path : string)
| start_thread (output_path : string).

(** What [generate_installer] meets: the answers of the user to the
    questions, and the machine.  [import_PyInstaller] tells whether the
    import succeeds (it raises [ImportError] otherwise). *)
Record Desk : Type := mkDesk {
  answers_yes : string -> string -> bool;
  makedirs : string -> result unit;
  import_PyInstaller : bool;
  shutil_which : string -> option string
}.

Definition nonempty {A} (l : list A) : bool :=
  match l with [] => false | _ => true end.

Definition upx_question : string :=
  "UPX compression is enabled but UPX is not found in PATH." ++ nl
  ++ "Installation will continue without UPX compression." ++ nl
  ++ "Continue anyway?".

(** The end of [generate_installer], from the check for UPX on. *)
Definition start_generation (desk : Desk) (project : ProjectConfig.t)
    (shown : list step) : list step * result unit :=
  let start :=
    ((shown ++ [start_thread (ProjectConfig.output_dir project)])%list,
     Ok tt) in
  (* Check for UPX if compression is enabled *)
  if String.eqb (ProjectConfig.compression project) "upx" then
    match shutil_which desk "upx" with
    | Some upx_path =>
        if negb (is_empty upx_path) then start
        else if answers_yes desk "UPX Not Found" upx_question
             then ((shown ++ [question "UPX Not Found" upx_question;
                              start_thread (ProjectConfig.output_dir project)])%list,
                   Ok tt)
             else ((shown ++ [question "UPX Not Found" upx_question])%list, Ok tt)
    | None =>
        if answers_yes desk "UPX Not Found" upx_question
        then ((shown ++ [question "UPX Not Found" upx_question;
                         start_thread (ProjectConfig.output_dir project)])%list,
              Ok tt)
        else ((shown ++ [question "UPX Not Found" upx_question])%list, Ok tt)
    end
  else start.

(** [generate_installer], on the project as [update_project_from_ui] leaves
    it: the steps taken, and whether the call returns or raises. *)
Definition generate_installer (w : World) (desk : Desk)
    (project : ProjectConfig.t) : list step * result unit :=
  (* Validate project *)
  match Helpers.validate_project w project with
  | (is_valid, errors, warnings) =>
      if negb is_valid then
        let error_msg := "Validation failed:" ++ nl ++ nl ++ join nl errors in
        let error_msg :=
          if nonempty warnings
          then error_msg ++ nl ++ nl ++ "Warnings:" ++ nl ++ join nl warnings
          else error_msg in
        ([critical "Validation Failed" error_msg], Ok tt)
      else
        let warning_msg :=
          "Validation warnings:" ++ nl ++ nl ++ join nl warnings in
        let asked :=
          if nonempty warnings
          then [question "Validation Warnings"
                         (warning_msg ++ nl ++ nl ++ "Continue anyway?")]
          else [] in
        if nonempty warnings
           && negb (answers_yes desk "Validation Warnings"
                                (warning_msg ++ nl ++ nl ++ "Continue anyway?"))
        then (asked, Ok tt)
        else if is_empty (ProjectConfig.output_dir project) then
          ((asked ++ [warning "Warning" "Please specify output directory"])%list,
           Ok tt)
        else
          (* Create output directory *)
          let asked :=
            (asked ++ [os_makedirs (ProjectConfig.output_dir project)])%list in
          match makedirs desk (ProjectConfig.output_dir project) with
          | Raise e => (asked, Raise e)
          | Ok _ =>
              (* Check if PyInstaller is installed *)
              if negb (import_PyInstaller desk) then
                ((asked ++ [critical "Error"
                              ("PyInstaller is not installed. Please install it with:"
                               ++ nl ++ "pip install pyinstaller")])%list,
                 Ok tt)
              else start_generation desk project asked
          end
  end.

Definition is_warning (s : step) : bool :=
  match s with warning _ _ => true | _ => false end.

End MainWindow.

(* ================================================================== *)
(** ** Observations on runs *)
(* ================================================================== *)

Module Observe.

(** The percentages of the progress events of a build, in order. *)
Definition percents (evs : list Generator.event) : list Z :=
  flat_map (fun e => match e with
                     | Generator.progress n _ => [n]
                     | _ => []
                     end) evs.

Definition checkpoints : list Z := [0; 5; 20; 35; 40; 80; 95; 100]%Z.

Fixpoint is_prefix (a b : list Z) : bool :=
  match a, b with
  | [], _ => true
  | x :: a', y :: b' => (x =? y)%Z && is_prefix a' b'
  | _ :: _, [] => false
  end.

(** The events of a build in which every step succeeds, up to the outcome;
    [files] is the listing of the dist directory and [exe] the entry that is
    moved. *)
Definition success_events (env : Generator.BuildEnv) (td output_path : string)
    (files : list string) (exe : string) : list Generator.event :=
  let dist_dir := Generator.os_path_join env td "dist" in
  [ Generator.progress 0 "Starting installer generation...";
    Generator.log_message "=== Installer Generation Started ===";
    Generator.progress 5 ("Created temp directory: " ++ td);
    Generator.progress 20 "Generated installer script";
    Generator.progress 35 "Generated PyInstaller spec";
    Generator.log_message "Running PyInstaller...";
    Generator.progress 40 "Running PyInstaller...";
    Generator.progress 80 "PyInstaller finished, checking output...";
    Generator.log_message ("Files in dist: " ++ Generator.str_list files);
    Generator.log_message
      ("Found generated installer: " ++ Generator.os_path_join env dist_dir exe);
    Generator.log_message
      ("Installer created " ++ Generator.RIGHTWARDS_ARROW ++ " " ++ output_path);
    Generator.progress 95 "Installer file moved to output location";
    Generator.progress 100 "Installer build completed";
    Generator.log_message "Installer generation successful";
    Generator.finished output_path true ].

(** The failure that [run] reports for an exception with message [m]: the
    error line of the log and the outcome. *)
Definition failure_report (m : string) : list Generator.event :=
  [ Generator.log_message ("ERROR: Installer generation failed: " ++ m);
    Generator.finished ("Installer generation failed: " ++ m) false ].

(** The events of a build up to the listing of the dist directory, when the
    packaging tool has exited with code 0. *)
Definition listing_events (td : string) (files : list string)
  : list Generator.event :=
  [ Generator.progress 0 "Starting installer generation...";
    Generator.log_message "=== Installer Generation Started ===";
    Generator.progress 5 ("Created temp directory: " ++ td);
    Generator.progress 20 "Generated installer script";
    Generator.progress 35 "Generated PyInstaller spec";
    Generator.log_message "Running PyInstaller...";
    Generator.progress 40 "Running PyInstaller...";
    Generator.progress 80 "PyInstaller finished, checking output...";
    Generator.log_message ("Files in dist: " ++ Generator.str_list files) ].

(** The message of the exception raised when the dist directory holds no
    executable. *)
Definition no_executable (dist_dir : string) (files : list string) : string :=
  "No .exe file found in " ++ dist_dir ++ ". Files present: "
  ++ Generator.str_list files.

Fixpoint ends_with {A} (l tail : list A) : Prop :=
  l = tail \/ match l with
              | [] => False
              | _ :: l' => ends_with l' tail
              end.

(** Items of an install run. *)
Definition is_outcome (i : Installer.item) : bool :=
  match i with
  | Installer.sig (Installer.finished_signal _ _) => true
  | _ => false
  end.

Definition is_save_shortcut (i : Installer.item) : bool :=
  match i with
  | Installer.did (Installer.save_shortcut _ _ _)
  | Installer.failed (Installer.save_shortcut _ _ _) _ => true
  | _ => false
  end.

(** A step only appends items, all of which satisfy [P]. *)
Definition appends (P : Installer.item -> bool) {A} (m : Installer.M A)
  : Prop :=
  forall t, exists ext,
      fst (m t) = (t ++ ext)%list /\ forallb P ext = true.

Definition no_outcome (i : Installer.item) : bool := negb (is_outcome i).

Definition no_save_shortcut (i : Installer.item) : bool :=
  negb (is_save_shortcut i).

Definition is_pip_install (i : Installer.item) : bool :=
  match i with
  | Installer.did (Installer.pip_install _)
  | Installer.failed (Installer.pip_install _) _ => true
  | _ => false
  end.

Definition no_pip_install (i : Installer.item) : bool :=
  negb (is_pip_install i).

(** The two signals that end a successful install. *)
Definition closing : list Installer.item :=
  [ Installer.sig (Installer.progress 100 "Installation complete!");
    Installer.sig
      (Installer.finished_signal true "Installation completed successfully!") ].

(** A run ends with its outcome: one [finished_signal], as its last item,
    with the message of success right after the progress signal at 100, or
    with a message of failure. *)
Definition ends_with_outcome (run : list Installer.item) : Prop :=
  exists pre success message,
    run = (pre ++ [Installer.sig
                     (Installer.finished_signal success message)])%list
    /\ forallb no_outcome pre = true
    /\ (success = true ->
        message = "Installation completed successfully!"
        /\ exists pre',
            pre = (pre' ++ [Installer.sig
                              (Installer.progress 100 "Installation complete!")])%list)
    /\ (success = false ->
        String.prefix "Installation failed: " message = true).

(** A step closes a run when it either ends normally, having appended items
    that are no outcome and then the two closing signals, or raises, having
    appended items that are no outcome. *)
Definition closes (m : Installer.M unit) : Prop :=
  forall t, exists ext,
      forallb no_outcome ext = true
      /\ match m t with
         | (t', Ok _) => t' = (t ++ ext ++ closing)%list
         | (t', Raise _) => t' = (t ++ ext)%list
         end.

Definition is_registry_op (o : Installer.sysop) : bool :=
  match o with
  | Installer.winreg_CreateKey _ _
  | Installer.winreg_SetValueEx _ _ _ _
  | Installer.winreg_CloseKey _ _ => true
  | _ => false
  end.

Definition is_shortcut_op (o : Installer.sysop) : bool :=
  match o with
  | Installer.import_win32com_client
  | Installer.Dispatch_WScript_Shell
  | Installer.save_shortcut _ _ _ => true
  | _ => false
  end.

(** The failures that the install routine catches and passes over: those of
    the registry operations, and the import errors of the shortcut
    operations. *)
Definition swallowed (o : Installer.sysop) (e : exn) : bool :=
  is_registry_op o || (is_shortcut_op o && Installer.ImportError e).

Definition fatal (i : Installer.item) : bool :=
  match i with
  | Installer.failed o e => negb (swallowed o e)
  | _ => false
  end.

Definition calm (t : list Installer.item) : bool :=
  forallb (fun i => negb (fatal i)) t.

(** Items whose operation, if any, is of kind [K]. *)
Definition of_kind (K : Installer.sysop -> bool) (i : Installer.item) : bool :=
  match i with
  | Installer.did o | Installer.failed o _ => K o
  | Installer.sig _ => true
  end.

(** A step is fail-fast when what it appends holds no fatal failure, except
    as the last item of a step that raises the exception of that failure. *)
Definition fail_fast {A} (m : Installer.M A) : Prop :=
  forall t, exists ext,
      fst (m t) = (t ++ ext)%list
      /\ match snd (m t) with
         | Ok _ => calm ext = true
         | Raise e =>
             calm ext = true
             \/ exists ext' o,
                 ext = (ext' ++ [Installer.failed o e])%list
                 /\ calm ext' = true
         end.

(** The shortcut that the install routine saves for a shortcut of the
    project, when [APPDATA] is set to [appdata]: none unless the location is
    [desktop] or [start_menu]. *)
Definition saved_link (env : Installer.InstallEnv) (appdata : string)
    (install_path : string) (s : ShortcutConfig.t) : list Installer.item :=
  let target_path :=
    Installer.os_path_join env install_path (ShortcutConfig.target s) in
  let saved := fun shortcut_path =>
    [ Installer.did
        (Installer.save_shortcut shortcut_path target_path
                                 (Installer.os_path_dirname env target_path)) ] in
  if String.eqb (ShortcutConfig.location s) "desktop" then
    saved (fold_left (Installer.os_path_join env)
                     [ "Desktop"; ShortcutConfig.name s ++ ".lnk" ]
                     (Installer.home env))
  else if String.eqb (ShortcutConfig.location s) "start_menu" then
    saved (fold_left (Installer.os_path_join env)
                     [ "Microsoft"; "Windows"; "Start Menu"; "Programs";
                       ShortcutConfig.name s ++ ".lnk" ]
                     appdata)
  else [].

(** What [_create_shortcut] leaves behind when nothing raises. *)
Definition shortcut_items (env : Installer.InstallEnv) (appdata : string)
    (install_path : string) (s : ShortcutConfig.t) : list Installer.item :=
  ([ Installer.did Installer.import_win32com_client;
     Installer.did Installer.Dispatch_WScript_Shell ]
   ++ saved_link env appdata install_path s)%list.

(** The dependencies of a project that have a name. *)
Definition named (deps : list Dependency.t) : list Dependency.t :=
  filter (fun d => negb (is_empty (Dependency.name d))) deps.

Definition pip_installed (d : Dependency.t) : Installer.item :=
  Installer.did (Installer.pip_install (PStr (Dependency.name d))).

(** A machine on which no operation raises. *)
Definition never_raises (env : Installer.InstallEnv) : Prop :=
  forall n o, Installer.raises env n o = None.

(** Characters of the printable ASCII range. *)
Definition printable_ascii (c : ascii) : bool :=
  ((32 <=? code c) && (code c <=? 126))%N.

Definition all_printable_ascii (s : string) : bool :=
  forallb printable_ascii (list_ascii_of_string s).

End Observe.

(* ================================================================== *)
(** ** More concrete values *)
(* ================================================================== *)

Module Cases.

Definition element (id name : string) : ScriptElement.t :=
  ScriptElement.mk ScriptElementType.EXECUTE_COMMAND name (PDict []) id true
                   false.

Definition recent_three : list string :=
  [ "C:\projects\a.icp"; "C:\projects\b.icp"; "C:\projects\c.icp" ].

(** A machine on which the first two recent projects exist. *)
Definition recent_disk : World :=
  mkWorld
    (fun p => String.eqb p "C:\projects\a.icp"
              || String.eqb p "C:\projects\b.icp")
    (fun _ => None) (fun _ => false)
    "2025-06-30T12:00:00" "2025-06-30T12:00:00.000125" 2025 "3.11"
    (fun _ => "123e4567-e89b-12d3-a456-426614174000")
    (fun _ => "123e4567e89b12d3a456426614174000").

Definition three_elements : list ScriptElement.t :=
  [ element "aaaa0001" "first"; element "bbbb0002" "second";
    element "cccc0003" "third" ].

Definition both_shortcut : ShortcutConfig.t :=
  ShortcutConfig.mk "Demo" "app\demo.exe" EmptyString EmptyString EmptyString
                    "both" EmptyString.

Definition pip_dependency : Dependency.t :=
  Dependency.mk "requests" "2.0" "C:\deps\setup.exe" "requests --version" true.

Definition unnamed_dependency : Dependency.t :=
  Dependency.mk EmptyString EmptyString EmptyString EmptyString false.

(** 1024 bytes without a zero byte. *)
Definition text_kilobyte : list byte := repeat "a"%byte 1024.

(** A file whose only zero byte is the byte after the first 1024. *)
Definition late_zero (path : string) : option (list byte) :=
  Some (text_kilobyte ++ [x00])%list.

(** The dict of a file entry, a shortcut, a registry entry, a dependency or
    a script element, with a key that none of the classes knows. *)
Definition annotated : dict :=
  [ ("name", PStr "Demo"); ("type", PStr "run_script");
    ("comment", PStr "added by hand") ].

(** The keys that the five entry classes read. *)
Definition known_keys : list string :=
  (FileEntry.fields ++ ShortcutConfig.fields ++ RegistryEntry.fields
   ++ Dependency.fields
   ++ ["type"; "name"; "parameters"; "id"; "enabled"; "critical"])%list.

(** A build on which the packaging tool succeeds and leaves no executable. *)
Definition build_no_exe : Generator.BuildEnv :=
  Generator.mkBuildEnv
    "python.exe" (Ok "C:\tmp\instgen_x") Scenario.join_bs Scenario.dirname_bs
    (fun _ _ => Ok tt) (fun _ _ => Ok (0%Z, EmptyString))
    (fun _ => true) (fun _ => true) (fun _ => true)
    (fun _ => Ok ["Setup.pkg"; "notes.txt"]) (fun _ => Ok tt)
    (fun _ _ => Ok tt) (fun _ => Ok tt).

(** A project with a shortcut for both places and two dependencies, one of
    them without a name. *)
Definition equipped : ProjectConfig.t :=
  ProjectConfig.mk
    "Demo" "1.0.0" EmptyString EmptyString EmptyString EmptyString EmptyString
    "C:\out" "%PROGRAMFILES%\{name}" "3.11"
    true "upx" false EmptyString EmptyString true false true
    "{name} Setup" "default" EmptyString EmptyString EmptyString EmptyString
    true false [] [] []
    [] [both_shortcut] [] [pip_dependency; unnamed_dependency] [] []
    false EmptyString EmptyString "http://timestamp.digicert.com"
    "2024-01-01T00:00:00" "2024-01-01T00:00:00".

Definition desktop_shortcut : ShortcutConfig.t :=
  ShortcutConfig.mk "Demo" "app\demo.exe" "app\demo.ico" "C:\work" "--fast"
                    "desktop" "Starts the demo".

(** A project with a shortcut for the desktop, one for the start menu and
    one for both places. *)
Definition linked : ProjectConfig.t :=
  ProjectConfig.mk
    "Demo" "1.0.0" EmptyString EmptyString EmptyString EmptyString EmptyString
    "C:\out" "%PROGRAMFILES%\{name}" "3.11"
    true "upx" false EmptyString EmptyString true false true
    "{name} Setup" "default" EmptyString EmptyString EmptyString EmptyString
    true false [] [] []
    []
    [ desktop_shortcut;
      ShortcutConfig.mk "Manual" "doc\manual.pdf" EmptyString EmptyString
                        EmptyString "start_menu" EmptyString;
      both_shortcut ]
    [] [] [] []
    false EmptyString EmptyString "http://timestamp.digicert.com"
    "2024-01-01T00:00:00" "2024-01-01T00:00:00".

(** A directory with an executable, a library and a folder of notes. *)
Definition scanned_tree : FileScannerThread.ScanEnv :=
  FileScannerThread.mkScanEnv
    (fun _ => [ ("C:\app", ["setup.exe"; "core.dll"]);
                ("C:\app\doc", ["readme.md"; "notes.txt"]) ])
    (fun _ => Ok ["setup.exe"; "core.dll"; "doc"])
    (fun p => negb (String.eqb p "C:\app\doc"))
    Scenario.join_bs (fun p _ => p)
    (fun _ => Ok 1024%Z) (fun _ => Ok "1700000000.0").

(** A settings file as [ConfigParser] writes and reads it: a value with a
    percent sign is refused. *)
Definition plain_settings : RecentProjects.Settings :=
  RecentProjects.mkSettings
    (fun value =>
       if mem_char "%" value
       then Raise (ValueError "invalid interpolation syntax")
       else Ok ("[Recent]" ++ nl ++ "projects = " ++ value ++ nl ++ nl))
    (fun _ => Ok tt)
    (fun _ before => before)
    (fun settings_ini =>
       match settings_ini with
       | Some text =>
           Ok (Some (String.substring 20 (String.length text - 22) text))
       | None => Ok None
       end).

Definition pip_failed : exn := mkExn "CalledProcessError" "pip failed".

(** A machine without network: every pip install raises. *)
Definition offline_machine : Installer.InstallEnv :=
  Installer.mkInstallEnv
    (fun _ o => match o with
                | Installer.pip_install _ => Some (exist _ pip_failed eq_refl)
                | _ => None
                end)
    (fun _ _ => None)
    Scenario.join_bs Scenario.dirname_bs
    (fun _ => Ok true) (fun _ => Ok false) (fun _ => false)
    "C:\Users\me" (fun _ => Some "C:\Users\me\AppData\Roaming")
    (fun s => String.eqb s "HKEY_CURRENT_USER").

End Cases.

(* ================================================================== *)
(** ** Facts about the builtins *)
(* ================================================================== *)



Lemma smap_smap (f g : ascii -> ascii) (s : string) :
  smap f (smap g s) = smap (fun c => f (g c)) s.
Proof. induction s as [|c s IH]; simpl; congruence. Qed.

Lemma sapp_nil_r (s : string) : s ++ EmptyString = s.
Proof. induction s as [|c s IH]; simpl; congruence. Qed.

Lemma sapp_assoc (a b c : string) : (a ++ b) ++ c = a ++ (b ++ c).
Proof. induction a as [|x a IH]; simpl; congruence. Qed.

Lemma concat_empty_cons (x : string) (l : list string) :
  String.concat EmptyString (x :: l) = x ++ String.concat EmptyString l.
Proof. destruct l; simpl; [now rewrite sapp_nil_r | reflexivity]. Qed.

Lemma unlines_cons (x : string) (l : list string) :
  unlines (x :: l) = x ++ nl ++ unlines l.
Proof.
  unfold unlines. rewrite map_cons, concat_empty_cons. apply sapp_assoc.
Qed.

Lemma unlines_app (a b : list string) :
  unlines (a ++ b)%list = unlines a ++ unlines b.
Proof.
  induction a as [|x a IH].
  - reflexivity.
  - rewrite <- app_comm_cons, !unlines_cons, IH. now rewrite !sapp_assoc.
Qed.

(* ================================================================== *)
(** ** The build spec: the name of the executable *)
(* ================================================================== *)



(* ================================================================== *)
(** ** The emitted installer on the data that the generator embeds *)
(* ================================================================== *)

Section EmittedInstaller.

Variable env : Installer.InstallEnv.
Variable install_path : string.

Lemma copy_file_of_entry (f : FileEntry.t) (t : list Installer.item) :
  Installer._copy_file env install_path (FileEntry.to_dict f) t = (t, Ok tt).
Proof. reflexivity. Qed.

Lemma copy_loop_of_entries (l : list FileEntry.t) (t : list Installer.item) :
  Installer.for_each (map FileEntry.to_dict l)
                     (Installer._copy_file env install_path) t
  = (t, Ok tt).
Proof.
  induction l as [|f l IH]; simpl.
  - reflexivity.
  - unfold Installer.bind. rewrite copy_file_of_entry. exact IH.
Qed.

Lemma script_loop_of_elements (l : list ScriptElement.t)
    (t : list Installer.item) :
  Installer.for_each (map ScriptElement.to_dict l)
    (fun script =>
       Installer.bind (Installer.lift (py_get script "event" PNone))
         (fun event =>
            if eq_str event "post_install"
            then Installer._run_script env install_path script
            else Installer.ret tt)) t
  = (t, Ok tt).
Proof.
  induction l as [|e l IH]; simpl.
  - reflexivity.
  - unfold Installer.bind at 1. simpl. exact IH.
Qed.

End EmittedInstaller.

(** C1.  The code does not do what the claim says.  On the data that the
    generator embeds, the post-install loop of the emitted installer reads
    the key [event] of the dict made by [ScriptElement.to_dict], which has no
    such key: for every project the loop leaves the run as it found it, and on
    the project [Scenario.demo], whose only script element has
    [parameters.event == post_install], kind [python] and a content, the
    whole install run attempts neither [exec] nor a shell command. *)
Theorem C1_post_install_scripts_never_run :
  (forall (env : Installer.InstallEnv) (project : ProjectConfig.t)
          (install_path : string) (t : list Installer.item),
      Installer.run_post_install_scripts
        env (Synth.installer_data project) install_path t = (t, Ok tt))
  /\ existsb Installer.is_script
       (Installer.attempted
          (Installer.run Scenario.willing_machine
                         (Synth.installer_data Scenario.demo) "C:\Apps\Demo"))
     = false.
Proof.
  split.
  - intros env project install_path t.
    unfold Installer.run_post_install_scripts. simpl.
    apply script_loop_of_elements.
  - vm_compute. reflexivity.
Qed.

(** C2.  The code does not do what the claim says.  [_copy_file] reads the
    keys [source] and [destination], the dict made by [FileEntry.to_dict] has
    [source_path] and [install_path]: for every project the copy loop of the
    emitted installer leaves the run as it found it, and on [Scenario.demo],
    which has one file entry and one directory entry, the install run attempts
    no copy at all. *)
Theorem C2_no_file_is_copied :
  (forall (env : Installer.InstallEnv) (project : ProjectConfig.t)
          (install_path : string) (t : list Installer.item),
      Installer.for_each (FILES_DATA (Synth.installer_data project))
                         (Installer._copy_file env install_path) t
      = (t, Ok tt))
  /\ existsb Installer.is_copy
       (Installer.attempted
          (Installer.run Scenario.willing_machine
                         (Synth.installer_data Scenario.demo) "C:\Apps\Demo"))
     = false.
Proof.
  split.
  - intros env project install_path t. simpl. apply copy_loop_of_entries.
  - vm_compute. reflexivity.
Qed.

Section Tame.

Variable env : Installer.InstallEnv.

Lemma raised_is_Exception (n : nat) (o : Installer.sysop) (e : exn) :
  Installer.raised env n o = Some e -> Installer.is_exec o = false ->
  Installer.Exception e = true.
Proof.
  unfold Installer.raised. intros H Ho.
  destruct o; try discriminate Ho;
    match type of H with
    | match ?r with _ => _ end = _ => destruct r as [[x Hx]|]
    end; try discriminate H; injection H as <-; exact Hx.
Qed.

Lemma tame_ret {A} (a : A) : Installer.tame (Installer.ret a).
Proof. intros t e H. discriminate H. Qed.

Lemma tame_emit (s : Installer.signal) : Installer.tame (Installer.emit s).
Proof. intros t e H. discriminate H. Qed.

Lemma tame_lift {A} (r : result A) :
  (forall e, r = Raise e -> Installer.Exception e = true) ->
  Installer.tame (Installer.lift r).
Proof. intros H t e E. apply H. exact E. Qed.

Lemma tame_perform (o : Installer.sysop) :
  Installer.is_exec o = false -> Installer.tame (Installer.perform env o).
Proof.
  intros Ho t e. unfold Installer.perform.
  destruct (Installer.raised env (length t) o) as [x|] eqn:R; simpl;
    intros H; [|discriminate H].
  injection H as <-. exact (raised_is_Exception _ _ _ R Ho).
Qed.

Lemma tame_bind {A B} (m : Installer.M A) (k : A -> Installer.M B) :
  Installer.tame m -> (forall a, Installer.tame (k a)) ->
  Installer.tame (Installer.bind m k).
Proof.
  intros Hm Hk t e. unfold Installer.bind.
  specialize (Hm t). destruct (m t) as [t1 [a|x]]; simpl in *.
  - apply Hk.
  - intros H. injection H as <-. now apply Hm.
Qed.

Lemma tame_try_except (catches : exn -> bool) (body : Installer.M unit)
    (handler : exn -> Installer.M unit) :
  Installer.tame body -> (forall x, Installer.tame (handler x)) ->
  Installer.tame (Installer.try_except catches body handler).
Proof.
  intros Hb Hh t e. unfold Installer.try_except.
  specialize (Hb t). destruct (body t) as [t1 [[]|x]]; simpl in *.
  - intros H. discriminate H.
  - destruct (catches x); [apply Hh|].
    simpl. intros H. injection H as <-. now apply Hb.
Qed.

Lemma tame_for_each {A} (l : list A) (f : A -> Installer.M unit) :
  (forall a, Installer.tame (f a)) -> Installer.tame (Installer.for_each l f).
Proof.
  intros Hf. induction l as [|x l IH]; simpl.
  - apply tame_ret.
  - apply tame_bind; [apply Hf | intros _; exact IH].
Qed.

Lemma py_get_is_tame (v : pyval) (k : string) (default : pyval) (e : exn) :
  py_get v k default = Raise e -> Installer.Exception e = true.
Proof. destruct v; simpl; intros H; try discriminate H; now injection H as <-. Qed.

Lemma py_int_is_tame (v : pyval) (e : exn) :
  py_int v = Raise e -> Installer.Exception e = true.
Proof.
  destruct v as [| | |shown|s| |]; simpl; intros H; try discriminate H;
    try (now injection H as <-).
  - destruct (String.eqb shown "nan"); [now injection H as <-|].
    destruct (String.eqb shown "inf" || String.eqb shown "-inf");
      [now injection H as <- | discriminate H].
  - destruct (int_literal s); [discriminate H | now injection H as <-].
Qed.

Lemma getattr_winreg_is_tame (root : pyval) (e : exn) :
  Installer.getattr_winreg env root = Raise e -> Installer.Exception e = true.
Proof. destruct root; simpl; intros H; try discriminate H; now injection H as <-. Qed.

Lemma join_value_is_tame (a : string) (b : pyval) (e : exn) :
  Installer.join_value env a b = Raise e -> Installer.Exception e = true.
Proof. destruct b; simpl; intros H; try discriminate H; now injection H as <-. Qed.

End Tame.

Ltac tame_step :=
  first
    [ apply tame_ret
    | apply tame_emit
    | apply tame_perform; reflexivity
    | apply tame_lift; first [ apply py_get_is_tame | apply py_int_is_tame
                             | apply getattr_winreg_is_tame
                             | apply join_value_is_tame
                             | intros ? H; now injection H as <- ]
    | apply tame_for_each; intros ?
    | apply tame_try_except; [| intros ?]
    | apply tame_bind; [| intros ?]
    | match goal with
      | |- Installer.tame (if ?b then _ else _) => destruct b
      | |- Installer.tame (match ?x with _ => _ end) => destruct x
      end ].

Ltac tame_tac := repeat tame_step.

Lemma tame_apply_registry_body (env : Installer.InstallEnv)
    (reg_entry : pyval) :
  Installer.tame (Installer._apply_registry env reg_entry).
Proof. unfold Installer._apply_registry. tame_tac. Qed.

Lemma apply_registry_never_raises (env : Installer.InstallEnv)
    (reg_entry : pyval) (t : list Installer.item) :
  snd (Installer._apply_registry env reg_entry t) = Ok tt.
Proof.
  pose proof (tame_apply_registry_body env reg_entry t) as T.
  unfold Installer._apply_registry, Installer.try_except in *.
  match goal with
  | |- snd (match ?b with _ => _ end) = _ =>
      destruct b as [t' [[]|e]] eqn:B
  end; [reflexivity|].
  destruct (Installer.Exception e) eqn:X; [reflexivity|].
  simpl in T. specialize (T e eq_refl). congruence.
Qed.

(** C4.  The code does not do what the claim says.  [_apply_registry] reads
    the keys [root], [name], [value] and [type]; the dict made by
    [RegistryEntry.to_dict] has [hive], [value_name], [value_data] and
    [value_type].  For every registry entry the emitted installer therefore
    opens the entry's key path under [HKEY_CURRENT_USER] and writes an empty
    string under the empty value name, whatever hive, value name, type and
    data the entry declares; on [Scenario.demo_registry], a [REG_DWORD] under
    [HKEY_LOCAL_MACHINE], this is what the run does.  No exception leaves
    [_apply_registry]. *)
Theorem C4_registry_entry_fields_ignored :
  (forall (env : Installer.InstallEnv) (r : RegistryEntry.t)
          (t : list Installer.item),
      Installer._apply_registry env (RegistryEntry.to_dict r) t
      = Installer.default_registry_write env (PStr (RegistryEntry.key r)) t)
  /\ (forall (env : Installer.InstallEnv) (reg_entry : pyval)
             (t : list Installer.item),
        snd (Installer._apply_registry env reg_entry t) = Ok tt)
  /\ Installer.done
       (fst (Installer._apply_registry
               Scenario.willing_machine
               (RegistryEntry.to_dict Scenario.demo_registry) []))
     = [ Installer.winreg_CreateKey "HKEY_CURRENT_USER" (PStr "Software\Demo");
         Installer.winreg_SetValueEx "HKEY_CURRENT_USER" (PStr "Software\Demo")
           (PStr EmptyString) (Installer.REG_SZ_str (PStr EmptyString));
         Installer.winreg_CloseKey "HKEY_CURRENT_USER" (PStr "Software\Demo") ].
Proof.
  split; [|split].
  - intros env r t.
    unfold Installer._apply_registry, Installer.default_registry_write.
    simpl. unfold Installer.try_except, Installer.bind at 1 2 3 4 5 6. simpl.
    destruct (Installer.winreg_hasattr env "HKEY_CURRENT_USER"); reflexivity.
  - apply apply_registry_never_raises.
  - vm_compute. reflexivity.
Qed.

(** The three routines do their work on dicts that carry the keys they
    read; the keys are what the embedded data lacks. *)
Lemma copy_file_on_the_keys_it_reads :
  Installer.done
    (fst (Installer._copy_file
            Scenario.willing_machine "C:\Apps\Demo"
            (PDict [ ("source", PStr "C:\src\data.txt");
                     ("destination", PStr "app\data.txt") ]) []))
  = [ Installer.os_makedirs "C:\Apps\Demo\app";
      Installer.shutil_copy2 (PStr "C:\src\data.txt")
                             "C:\Apps\Demo\app\data.txt" ].
Proof. vm_compute. reflexivity. Qed.

Lemma post_install_script_on_the_keys_it_reads :
  Installer.done
    (fst (Installer.run_post_install_scripts
            Scenario.willing_machine
            (mkInstallerData [] [] []
               [ PDict [ ("event", PStr "post_install");
                         ("type", PStr "python");
                         ("content", PStr "print(1)") ];
                 PDict [ ("event", PStr "pre_install");
                         ("type", PStr "python");
                         ("content", PStr "print(2)") ];
                 PDict [ ("event", PStr "post_install");
                         ("type", PStr "cmd");
                         ("content", PStr "echo done") ] ]
               [] "Demo" "1.0.0" EmptyString true)
            "C:\Apps\Demo" []))
  = [ Installer.exec (PStr "print(1)");
      Installer.subprocess_run_shell (PStr "echo done") "C:\Apps\Demo" ].
Proof. vm_compute. reflexivity. Qed.

Lemma apply_registry_on_the_keys_it_reads :
  Installer.done
    (fst (Installer._apply_registry
            Scenario.willing_machine
            (PDict [ ("root", PStr "HKEY_LOCAL_MACHINE");
                     ("key", PStr "Software\Demo");
                     ("name", PStr "Version");
                     ("value", PInt 5);
                     ("type", PStr "REG_DWORD") ]) []))
  = [ Installer.winreg_CreateKey "HKEY_LOCAL_MACHINE" (PStr "Software\Demo");
      Installer.winreg_SetValueEx "HKEY_LOCAL_MACHINE" (PStr "Software\Demo")
        (PStr "Version") (Installer.REG_DWORD_int (PInt 5));
      Installer.winreg_CloseKey "HKEY_LOCAL_MACHINE" (PStr "Software\Demo") ].
Proof. vm_compute. reflexivity. Qed.

(* ================================================================== *)
(** ** The build orchestrator: order of events, failure of the tool *)
(* ================================================================== *)

Lemma prefix_app (s t : string) : String.prefix s (s ++ t) = true.
Proof.
  induction s as [|c s IH]; simpl.
  - destruct t; reflexivity.
  - destruct (ascii_dec c c) as [_|n]; [exact IH | now elim n].
Qed.

Lemma prefix_refl (s : string) : String.prefix s s = true.
Proof.
  induction s as [|c s IH]; simpl; [reflexivity|].
  destruct (ascii_dec c c) as [_|n]; [exact IH | now elim n].
Qed.

Lemma contains_refl (s : string) : contains s s = true.
Proof.
  destruct s as [|c s]; [reflexivity|].
  unfold contains; fold contains. now rewrite prefix_refl.
Qed.

Lemma contains_app (p s : string) : contains s (p ++ s) = true.
Proof.
  induction p as [|c p IH].
  - apply contains_refl.
  - change (String c p ++ s) with (String c (p ++ s)).
    unfold contains; fold contains. rewrite IH. apply orb_true_r.
Qed.

(** Case analysis on the answers of the build environment. *)
Ltac oracle_case :=
  match goal with
  | |- context [Generator.mkdtemp ?env] =>
      destruct (Generator.mkdtemp env) as [?td|?e] eqn:?
  | |- context [Generator.write_text ?env ?a ?b] =>
      destruct (Generator.write_text env a b) as [[]|?e] eqn:?
  | |- context [Generator.subprocess_run ?env ?a ?b] =>
      destruct (Generator.subprocess_run env a b) as [[?rc ?stderr]|?e] eqn:?
  | |- context [(?rc =? 0)%Z] => destruct (rc =? 0)%Z eqn:?
  | |- context [Generator.dist_exists ?env ?a] =>
      destruct (Generator.dist_exists env a) eqn:?
  | |- context [Generator.os_listdir ?env ?a] =>
      destruct (Generator.os_listdir env a) as [?files|?e] eqn:?
  | |- context [filter ?f ?l] => destruct (filter f l) as [|?exe ?rest] eqn:?
  | |- context [Generator.output_dir_exists ?env ?a] =>
      destruct (Generator.output_dir_exists env a) eqn:?
  | |- context [Generator.os_makedirs ?env ?a] =>
      destruct (Generator.os_makedirs env a) as [[]|?e] eqn:?
  | |- context [Generator.shutil_move ?env ?a ?b] =>
      destruct (Generator.shutil_move env a b) as [[]|?e] eqn:?
  | |- context [Generator.temp_dir_exists ?env ?a] =>
      destruct (Generator.temp_dir_exists env a) eqn:?
  | |- context [Generator.shutil_rmtree ?env ?a] =>
      destruct (Generator.shutil_rmtree env a) as [[]|?e] eqn:?
  | |- context [is_empty ?a] => destruct (is_empty a) eqn:?
  end.

Ltac run_cases := repeat (oracle_case; simpl).

Ltac unfold_monad :=
  unfold Generator.bind, Generator.lift, Generator.emit, Generator.ret,
    Generator.raise, Generator.get_temp_dir, Generator.set_temp_dir,
    Generator.set_scratch, Generator.set_installer_at, Generator.initial;
  simpl.

Lemma fst_try_finally (body fin : Generator.M unit) (s : Generator.state) :
  fst (Generator.try_finally body fin s) = fst (fin (fst (body s))).
Proof.
  unfold Generator.try_finally.
  destruct (body s) as [s' r]; simpl.
  destruct (fin s') as [s'' [[]|e]]; reflexivity.
Qed.

Lemma outcomes_app (a b : list Generator.event) :
  Generator.outcomes (a ++ b)%list
  = (Generator.outcomes a ++ Generator.outcomes b)%list.
Proof. apply filter_app. Qed.

Lemma after_outcome_app (a b : list Generator.event) :
  Generator.outcomes a <> [] ->
  Generator.after_outcome (a ++ b)%list = (Generator.after_outcome a ++ b)%list.
Proof.
  induction a as [|e a IH]; simpl; intros H.
  - now elim H.
  - destruct (Generator.is_finished e); [reflexivity|]. now apply IH.
Qed.

Section OrchestratorRun.

Variable env : Generator.BuildEnv.
Variable project : ProjectConfig.t.
Variable output_path : string.

(** The [try] block with its [except] clause: one outcome, emitted last. *)
Lemma body_reports_once :
  let s1 := fst (Generator.try_except
                   (Generator.body env project output_path)
                   Generator.handler Generator.initial) in
  length (Generator.outcomes (Generator.emitted s1)) = 1%nat
  /\ Generator.after_outcome (Generator.emitted s1) = []
  /\ Generator.temp_dir s1
     = match Generator.mkdtemp env with
       | Ok td => Some td
       | Raise _ => None
       end.
Proof.
  unfold Generator.try_except, Generator.body, Generator._run_pyinstaller,
    Generator.collect, Generator.relocate, Generator.handler.
  unfold_monad. run_cases; repeat split; reflexivity.
Qed.

(** The [finally] block appends its report and nothing else. *)
Lemma cleanup_appends_report (s : Generator.state) :
  Generator.emitted (fst (Generator.cleanup env s))
  = (Generator.emitted s
     ++ match Generator.temp_dir s with
        | Some td => Generator.cleanup_report env td
        | None => []
        end)%list.
Proof.
  destruct s as [evs [td|] sc out];
    unfold Generator.cleanup, Generator.cleanup_report, Generator.try_except;
    unfold_monad; [|now rewrite app_nil_r].
  run_cases; try reflexivity; now rewrite app_nil_r.
Qed.

Lemma run_events :
  Generator.emitted (Generator.run env project output_path)
  = (Generator.emitted
       (fst (Generator.try_except (Generator.body env project output_path)
                                  Generator.handler Generator.initial))
     ++ Generator.cleanup_tail env)%list.
Proof.
  unfold Generator.run, Generator.run_M. rewrite fst_try_finally.
  rewrite cleanup_appends_report.
  destruct body_reports_once as (_ & _ & ->).
  unfold Generator.cleanup_tail. destruct (Generator.mkdtemp env); reflexivity.
Qed.

End OrchestratorRun.

Lemma cleanup_tail_short (env : Generator.BuildEnv) :
  (length (Generator.cleanup_tail env) <= 1)%nat
  /\ forallb (fun e => negb (Generator.is_progress e)
                        && negb (Generator.is_finished e))
             (Generator.cleanup_tail env) = true.
Proof.
  unfold Generator.cleanup_tail, Generator.cleanup_report.
  run_cases; split; simpl; try reflexivity; lia.
Qed.

(** C3, as amended.  Every run emits exactly one terminal outcome event.
    No progress event and no second outcome follow it; what follows it is
    the log line of the cleanup step, which is emitted whenever a scratch
    workspace was made and is still on disk when the run ends, and nothing
    else. *)
Theorem C3_outcome_then_cleanup_report (env : Generator.BuildEnv)
    (project : ProjectConfig.t) (output_path : string) :
  let evs := Generator.emitted (Generator.run env project output_path) in
  length (Generator.outcomes evs) = 1%nat
  /\ Generator.after_outcome evs = Generator.cleanup_tail env
  /\ (length (Generator.after_outcome evs) <= 1)%nat
  /\ forallb (fun e => negb (Generator.is_progress e)
                        && negb (Generator.is_finished e))
             (Generator.after_outcome evs) = true.
Proof.
  cbv zeta. rewrite run_events.
  destruct (body_reports_once env project output_path) as (H1 & H2 & _).
  destruct (cleanup_tail_short env) as (H3 & H4).
  assert (Hne : Generator.outcomes
                  (Generator.emitted
                     (fst (Generator.try_except
                             (Generator.body env project output_path)
                             Generator.handler Generator.initial))) <> []).
  { intros E. rewrite E in H1. discriminate. }
  rewrite after_outcome_app, H2 by exact Hne. simpl.
  repeat split; try assumption.
  rewrite outcomes_app, length_app, H1.
  assert (E : Generator.outcomes (Generator.cleanup_tail env) = []).
  { unfold Generator.cleanup_tail, Generator.cleanup_report.
    run_cases; reflexivity. }
  now rewrite E.
Qed.

Lemma outcome_is_last_last (evs : list Generator.event) (d : Generator.event) :
  Generator.outcome_is_last evs -> Generator.is_finished (last evs d) = true.
Proof.
  intros (pre & m & b & ->). now rewrite last_last.
Qed.

(** C3, the claim as worded fails: on a build in which every step succeeds
    the last event of the run is the log line of the cleanup step, emitted
    after the outcome. *)
Lemma C3_counterexample :
  ~ Generator.outcome_is_last
      (Generator.emitted
         (Generator.run Scenario.build_ok Scenario.demo "C:\out\Demo_Setup.exe")).
Proof.
  intros H.
  apply (outcome_is_last_last _ (Generator.log_message EmptyString)) in H.
  vm_compute in H. discriminate.
Qed.

(** C8, the claim as worded fails: when the packaging tool exits with code 1
    and the removal of the scratch workspace raises, the run reports the
    failure once but the workspace is still on disk when the run ends. *)
Lemma C8_counterexample :
  ~ Generator.failure_reported_and_cleaned
      "boom"
      (Generator.run Scenario.build_tool_fails_locked Scenario.demo
                     "C:\out\Demo_Setup.exe").
Proof.
  intros [_ H]. vm_compute in H. discriminate.
Qed.

(** C8, as amended.  When the packaging subprocess exits with a non-zero
    code, the run goes straight to failure: after the progress event at 80
    it logs the captured stderr and the error, emits one terminal outcome
    with [success = false] whose message ends with the captured stderr, and
    emits nothing but the cleanup report afterwards; no installer is moved to
    the output path.  The run then attempts to remove the scratch workspace:
    the workspace is left on disk exactly when it still exists and its
    removal raises, which is only logged as a warning. *)
Theorem C8_packaging_failure (env : Generator.BuildEnv)
    (project : ProjectConfig.t) (output_path td : string) (rc : Z)
    (stderr : string) :
  Generator.mkdtemp env = Ok td ->
  is_empty td = false ->
  Generator.write_text env (Generator.os_path_join env td "installer.py")
                       (Synth._generate_installer_script project) = Ok tt ->
  Generator.write_text env (Generator.os_path_join env td "installer.spec")
                       (Synth._generate_spec_file project) = Ok tt ->
  Generator.subprocess_run env (Generator.pyinstaller_cmd env) (Some td)
  = Ok (rc, stderr) ->
  rc <> 0%Z ->
  let s := Generator.run env project output_path in
  let message := "Installer generation failed: PyInstaller failed: " ++ stderr in
  Generator.emitted s
  = (Generator.packaging_failure_events td stderr
     ++ Generator.cleanup_report env td)%list
  /\ Generator.outcomes (Generator.emitted s)
     = [ Generator.finished message false ]
  /\ contains stderr message = true
  /\ Generator.installer_at s = None
  /\ Generator.scratch_on_disk s
     = Generator.temp_dir_exists env td && Generator.removal_raises env td.
Proof.
  intros Hmk Htd Hw1 Hw2 Hsub Hrc. cbv zeta.
  apply Z.eqb_neq in Hrc.
  assert (Hrun : Generator.run env project output_path
                 = fst (Generator.cleanup env
                          (Generator.mkState
                             (Generator.packaging_failure_events td stderr)
                             (Some td) true None))).
  { unfold Generator.run, Generator.run_M. rewrite fst_try_finally. f_equal.
    unfold Generator.try_except, Generator.body, Generator._run_pyinstaller,
      Generator.handler, Generator.pyinstaller_cmd in *.
    unfold_monad. rewrite Hmk. simpl. rewrite Hw1. simpl. rewrite Hw2. simpl.
    rewrite Hsub. simpl. rewrite Hrc. reflexivity. }
  rewrite Hrun. rewrite cleanup_appends_report.
  cbn [Generator.emitted Generator.temp_dir].
  split; [reflexivity|]. split; [|split; [|split]].
  - rewrite outcomes_app.
    assert (E : Generator.outcomes (Generator.cleanup_report env td) = []).
    { unfold Generator.cleanup_report. run_cases; reflexivity. }
    rewrite E. reflexivity.
  - apply contains_app.
  - unfold Generator.cleanup, Generator.try_except. unfold_monad.
    rewrite Htd. simpl. run_cases; reflexivity.
  - unfold Generator.cleanup, Generator.try_except, Generator.removal_raises.
    unfold_monad. rewrite Htd. simpl. run_cases; reflexivity.
Qed.

(** The amended C8 at work: the tool exits with code 1 and the workspace can
    be removed. *)
Lemma C8_packaging_failure_witness :
  let s := Generator.run Scenario.build_tool_fails Scenario.demo
                         "C:\out\Demo_Setup.exe" in
  Generator.emitted s
  = (Generator.packaging_failure_events "C:\tmp\instgen_x" "boom"
     ++ Generator.cleanup_report Scenario.build_tool_fails "C:\tmp\instgen_x")%list
  /\ Generator.outcomes (Generator.emitted s)
     = [ Generator.finished
           ("Installer generation failed: PyInstaller failed: " ++ "boom")
           false ]
  /\ contains "boom"
       ("Installer generation failed: PyInstaller failed: " ++ "boom") = true
  /\ Generator.installer_at s = None
  /\ Generator.scratch_on_disk s
     = Generator.temp_dir_exists Scenario.build_tool_fails "C:\tmp\instgen_x"
       && Generator.removal_raises Scenario.build_tool_fails "C:\tmp\instgen_x".
Proof.
  apply (C8_packaging_failure Scenario.build_tool_fails Scenario.demo
           "C:\out\Demo_Setup.exe" "C:\tmp\instgen_x" 1%Z "boom");
    try reflexivity.
  discriminate.
Defined.

(* ================================================================== *)
(** ** The validator *)
(* ================================================================== *)

Lemma file_warnings_none (w : World) (files : list FileEntry.t)
    (warnings : list string) :
  forallb (fun f => FileEntry.is_directory f
                    || path_exists w (FileEntry.source_path f)) files = true ->
  fold_left
    (fun warnings file_entry =>
       Helpers.append_if
         (negb (FileEntry.is_directory file_entry)
          && negb (path_exists w (FileEntry.source_path file_entry)))
         warnings
         ("File not found: " ++ FileEntry.source_path file_entry))
    files warnings
  = warnings.
Proof.
  induction files as [|f files IH]; simpl; intros H.
  - reflexivity.
  - apply andb_true_iff in H. destruct H as [Hf Hrest].
    rewrite <- negb_orb, Hf. simpl. now apply IH.
Qed.

(** C6, the second half as worded fails: the project [demo_missing_icon] has
    every required field set, version 1.0.0, an existing writable output
    directory and the placeholder in its install directory, and the
    validator returns a warning on it, because its icon is not on disk. *)
Lemma C6_counterexample :
  ~ Helpers.clean_verdict_claim Scenario.disk Scenario.demo_missing_icon.
Proof.
  intros H.
  assert (P : Helpers.required_fields_set Scenario.disk
                                          Scenario.demo_missing_icon).
  { repeat split. }
  specialize (H P). vm_compute in H. discriminate.
Qed.

(** C6, as amended.  On a project with empty name, empty version and empty
    output directory the validator returns exactly three errors and
    [is_valid = false], on every machine.  On a project with every required
    field set, version 1.0.0, an existing writable output directory, an
    install directory that contains the placeholder, and no referenced file
    missing from disk (icon, enabled license file, enabled signing
    certificate, source of a non-directory file entry) it returns no error,
    no warning and [is_valid = true]. *)
Theorem C6_validate (w : World) (p q : ProjectConfig.t) :
  (ProjectConfig.name p = EmptyString ->
   ProjectConfig.version p = EmptyString ->
   ProjectConfig.output_dir p = EmptyString ->
   fst (fst (Helpers.validate_project w p)) = false
   /\ snd (fst (Helpers.validate_project w p))
      = [ "Project name is required"; "Version is required";
          "Output directory is required" ]
   /\ length (snd (fst (Helpers.validate_project w p))) = 3%nat)
  /\ (Helpers.required_fields_set w q ->
      Helpers.references_present w q = true ->
      Helpers.validate_project w q = (true, [], [])).
Proof.
  split.
  - intros Hn Hv Ho.
    unfold Helpers.validate_project. rewrite Hn, Hv, Ho. simpl. auto.
  - intros (Qn & Qv & Qo & Qe & Qw & Qd) Qr.
    unfold Helpers.references_present in Qr.
    apply andb_true_iff in Qr. destruct Qr as [Qr Qf].
    apply andb_true_iff in Qr. destruct Qr as [Qr Qc].
    apply andb_true_iff in Qr. destruct Qr as [Qi Ql].
    unfold Helpers.field_set in Qn.
    apply andb_true_iff in Qn. destruct Qn as [Qn1 Qn2].
    apply negb_true_iff in Qn1, Qn2.
    unfold Helpers.validate_project.
    rewrite Qn1, Qn2, Qv, Qo, Qe, Qw, Qd. simpl.
    destruct (is_empty (ProjectConfig.icon_path q)),
             (path_exists w (ProjectConfig.icon_path q));
      try discriminate Qi;
      destruct (ProjectConfig.license_enabled q),
               (is_empty (ProjectConfig.license_file q)),
               (path_exists w (ProjectConfig.license_file q));
      try discriminate Ql;
      destruct (ProjectConfig.sign_installer q),
               (is_empty (ProjectConfig.certificate_path q)),
               (path_exists w (ProjectConfig.certificate_path q));
      try discriminate Qc;
      simpl; rewrite file_warnings_none by exact Qf;
      destruct (is_empty (ProjectConfig.default_install_dir q)); reflexivity.
Qed.

(** The amended C6 at work: the empty project on a machine on which
    nothing exists, where no project is clean, and [Scenario.demo] on
    [Scenario.disk]. *)
Lemma C6_validate_witness :
  (fst (fst (Helpers.validate_project Scenario.blank_disk
                                      Scenario.empty_project))
   = false
   /\ snd (fst (Helpers.validate_project Scenario.blank_disk
                                         Scenario.empty_project))
      = [ "Project name is required"; "Version is required";
          "Output directory is required" ]
   /\ length (snd (fst (Helpers.validate_project Scenario.blank_disk
                                                 Scenario.empty_project)))
      = 3%nat)
  /\ Helpers.validate_project Scenario.disk Scenario.demo = (true, [], []).
Proof.
  split.
  - apply (proj1 (C6_validate Scenario.blank_disk Scenario.empty_project
                              Scenario.demo)); reflexivity.
  - apply (proj2 (C6_validate Scenario.disk Scenario.empty_project
                              Scenario.demo)); [repeat split | reflexivity].
Defined.

(* ================================================================== *)
(** ** The emitted installer: the uninstaller is always written *)
(* ================================================================== *)

Section Quiet.

Variable env : Installer.InstallEnv.

Lemma succeeded_app (a b : list Installer.item) :
  Installer.succeeded (a ++ b)%list
  = Installer.succeeded a || Installer.succeeded b.
Proof. apply existsb_app. Qed.

Lemma quiet_ret {A} (a : A) : Installer.quiet (Installer.ret a).
Proof. intros t. exists []. now rewrite app_nil_r. Qed.

Lemma quiet_lift {A} (r : result A) : Installer.quiet (Installer.lift r).
Proof. intros t. exists []. now rewrite app_nil_r. Qed.

Lemma quiet_perform (o : Installer.sysop) : Installer.quiet (Installer.perform env o).
Proof.
  intros t. unfold Installer.perform.
  destruct (Installer.raised env (length t) o) as [e|].
  - now exists [Installer.failed o e].
  - now exists [Installer.did o].
Qed.

Lemma quiet_progress (n : Z) (msg : string) :
  Installer.quiet (Installer.emit (Installer.progress n msg)).
Proof. intros t. now exists [Installer.sig (Installer.progress n msg)]. Qed.

Lemma quiet_bind {A B} (m : Installer.M A) (k : A -> Installer.M B) :
  Installer.quiet m -> (forall a, Installer.quiet (k a)) -> Installer.quiet (Installer.bind m k).
Proof.
  intros Hm Hk t. unfold Installer.bind.
  destruct (Hm t) as (e1 & E1 & S1).
  destruct (m t) as [t1 [a|e]]; simpl in E1; subst t1.
  - destruct (Hk a (t ++ e1)%list) as (e2 & E2 & S2).
    exists (e1 ++ e2)%list. rewrite E2, app_assoc, succeeded_app, S1, S2.
    now split.
  - now exists e1.
Qed.

Lemma quiet_try_except (catches : exn -> bool) (body : Installer.M unit)
    (handler : exn -> Installer.M unit) :
  Installer.quiet body -> (forall e, Installer.quiet (handler e)) ->
  Installer.quiet (Installer.try_except catches body handler).
Proof.
  intros Hb Hh t. unfold Installer.try_except.
  destruct (Hb t) as (e1 & E1 & S1).
  destruct (body t) as [t1 [[]|e]]; simpl in E1; subst t1.
  - now exists e1.
  - destruct (catches e).
    + destruct (Hh e (t ++ e1)%list) as (e2 & E2 & S2).
      exists (e1 ++ e2)%list. rewrite E2, app_assoc, succeeded_app, S1, S2.
      now split.
    + now exists e1.
Qed.

Lemma quiet_for_each {A} (l : list A) (f : A -> Installer.M unit) :
  (forall a, Installer.quiet (f a)) -> Installer.quiet (Installer.for_each l f).
Proof.
  intros Hf. induction l as [|x l IH]; simpl.
  - apply quiet_ret.
  - apply quiet_bind; [apply Hf | intros _; exact IH].
Qed.

End Quiet.

Ltac quiet_step :=
  first
    [ apply quiet_ret
    | apply quiet_lift
    | apply quiet_perform
    | apply quiet_progress
    | apply quiet_for_each; intros ?
    | apply quiet_try_except; [| intros ?]
    | apply quiet_bind; [| intros ?]
    | match goal with
      | |- Installer.quiet (if ?b then _ else _) => destruct b
      | |- Installer.quiet (match ?x with _ => _ end) => destruct x
      end ].

Ltac quiet_tac := repeat quiet_step.

Section UninstallerWritten.

Variable env : Installer.InstallEnv.
Variable data : InstallerData.
Variable install_path : string.

Lemma quiet_install_dependency (dep : pyval) :
  Installer.quiet (Installer._install_dependency env dep).
Proof. unfold Installer._install_dependency. quiet_tac. Qed.

Lemma quiet_copy_file (file_info : pyval) :
  Installer.quiet (Installer._copy_file env install_path file_info).
Proof. unfold Installer._copy_file. quiet_tac. Qed.

Lemma quiet_create_shortcut (shortcut : pyval) :
  Installer.quiet (Installer._create_shortcut env install_path shortcut).
Proof. unfold Installer._create_shortcut. quiet_tac. Qed.

Lemma quiet_apply_registry (reg_entry : pyval) :
  Installer.quiet (Installer._apply_registry env reg_entry).
Proof. unfold Installer._apply_registry. quiet_tac. Qed.

Lemma quiet_run_script (script : pyval) :
  Installer.quiet (Installer._run_script env install_path script).
Proof. unfold Installer._run_script. quiet_tac. Qed.

Lemma quiet_post_install :
  Installer.quiet (Installer.run_post_install_scripts env data install_path).
Proof.
  unfold Installer.run_post_install_scripts.
  apply quiet_for_each. intros script.
  apply quiet_bind; [apply quiet_lift | intros event].
  destruct (eq_str event "post_install");
    [apply quiet_run_script | apply quiet_ret].
Qed.

Lemma quiet_then_good {A} (m : Installer.M A) (k : Installer.M unit) :
  Installer.quiet m -> Installer.good env data install_path k -> Installer.good env data install_path (Installer.bind m (fun _ => k)).
Proof.
  intros Hm Hk t Ht. unfold Installer.bind.
  destruct (Hm t) as (e1 & E1 & S1).
  destruct (m t) as [t1 [a|e]]; simpl in E1; subst t1.
  - apply Hk. now rewrite succeeded_app, Ht, S1.
  - now rewrite succeeded_app, Ht, S1.
Qed.

Lemma good_tail :
  CREATE_UNINSTALLER data = true ->
  Installer.good env data install_path (Installer.bind
          (if CREATE_UNINSTALLER data then
             Installer.bind
               (Installer.emit (Installer.progress 90 "Creating uninstaller..."))
               (fun _ => Installer._create_uninstaller env data install_path)
           else Installer.ret tt)
          (fun _ =>
             Installer.bind
               (Installer.emit (Installer.progress 100 "Installation complete!"))
               (fun _ =>
                  Installer.emit
                    (Installer.finished_signal
                       true "Installation completed successfully!")))).
Proof.
  intros -> t Ht.
  unfold Installer.bind, Installer.emit, Installer._create_uninstaller,
    Installer.perform.
  fold (Installer.the_uninstaller env data install_path).
  destruct (Installer.raised env _ (Installer.the_uninstaller env data install_path)) as [e|].
  - rewrite !succeeded_app, Ht. reflexivity.
  - rewrite !in_app_iff. left. left. right. now left.
Qed.

Lemma quiet_dependencies :
  Installer.quiet (if truthy (PList (DEPENDENCIES data)) then
           Installer.bind
             (Installer.emit
                (Installer.progress 20 "Installing dependencies..."))
             (fun _ => Installer.for_each (DEPENDENCIES data)
                                          (Installer._install_dependency env))
         else Installer.ret tt).
Proof.
  destruct (truthy (PList (DEPENDENCIES data))); [|apply quiet_ret].
  apply quiet_bind; [apply quiet_progress | intros _].
  apply quiet_for_each. intros dep. apply quiet_install_dependency.
Qed.

Lemma good_run_body :
  CREATE_UNINSTALLER data = true ->
  Installer.good env data install_path (Installer.run_body env data install_path).
Proof.
  intros Hcu. unfold Installer.run_body.
  do 11 (apply quiet_then_good;
         [ first [ apply quiet_perform | apply quiet_progress
                 | apply quiet_post_install | apply quiet_dependencies
                 | apply quiet_for_each; intros ?;
                   first [ apply quiet_copy_file | apply quiet_create_shortcut
                         | apply quiet_apply_registry ] ]
         | ]).
  now apply good_tail.
Qed.

Lemma success_writes_uninstaller :
  CREATE_UNINSTALLER data = true ->
  Installer.succeeded (Installer.run env data install_path) = true ->
  In (Installer.the_uninstaller env data install_path) (Installer.done (Installer.run env data install_path)).
Proof.
  intros Hcu. unfold Installer.run, Installer.run_M, Installer.try_except.
  pose proof (good_run_body Hcu [] eq_refl) as G.
  destruct (Installer.run_body env data install_path []) as [t' [[]|e]];
    simpl; intros Hs.
  - unfold Installer.done. apply in_flat_map.
    exists (Installer.did (Installer.the_uninstaller env data install_path)). split; [exact G | now left].
  - destruct (Installer.Exception e); simpl in Hs.
    + unfold Installer.emit in Hs. simpl in Hs.
      rewrite succeeded_app, G in Hs. discriminate.
    + rewrite G in Hs. discriminate.
Qed.

End UninstallerWritten.

Lemma installer_script_shape (project : ProjectConfig.t) :
  Synth._generate_installer_script project
  = unlines (Synth.installer_head
             ++ Synth.embedded_data_lines (Synth.installer_data project))%list
    ++ Synth.uninstaller_line ++ nl ++ unlines Synth.installer_body.
Proof.
  unfold Synth._generate_installer_script, Synth.installer_constants.
  rewrite !unlines_app, (unlines_cons Synth.uninstaller_line []).
  change (unlines []) with EmptyString.
  rewrite sapp_nil_r, !sapp_assoc. reflexivity.
Qed.

(** C9.  For every project, whatever its [create_uninstaller] flag, the
    synthesized installer source has the line [CREATE_UNINSTALLER = True]
    between the embedded data and the fixed text of the install routine, and
    the source does not change when the flag is changed.  The fixed text
    holds the method [run], which calls [_create_uninstaller] under that
    switch before it signals success, and the method [_create_uninstaller],
    which writes the companion program to [uninstall.py] in the install
    directory.  The emitted program therefore has the switch on, and every
    install run that signals success has written [uninstall.py], with the
    text of the companion program for this project and this directory. *)
Theorem C9_uninstaller_always_written (project : ProjectConfig.t) :
  Synth._generate_installer_script project
  = unlines (Synth.installer_head
             ++ Synth.embedded_data_lines (Synth.installer_data project))%list
    ++ "CREATE_UNINSTALLER = True" ++ nl ++ unlines Synth.installer_body
  /\ (exists before between after : list string,
        Synth.installer_body
        = app before (app
             [ "    def run(self):";
              "        try:";
              "            # Create install directory";
              "            os.makedirs(self.install_path, exist_ok=True)";
              "            self.progress.emit(10, " ++ dq ++ "Created installation directory" ++ dq ++ ")";
              EmptyString;
              "            # Install dependencies";
              "            if DEPENDENCIES:";
              "                self.progress.emit(20, " ++ dq ++ "Installing dependencies..." ++ dq ++ ")";
              "                for dep in DEPENDENCIES:";
              "                    self._install_dependency(dep)";
              EmptyString;
              "            # Copy files";
              "            self.progress.emit(40, " ++ dq ++ "Copying files..." ++ dq ++ ")";
              "            for file_info in FILES_DATA:";
              "                self._copy_file(file_info)";
              EmptyString;
              "            # Create shortcuts";
              "            self.progress.emit(60, " ++ dq ++ "Creating shortcuts..." ++ dq ++ ")";
              "            for shortcut in SHORTCUTS:";
              "                self._create_shortcut(shortcut)";
              EmptyString;
              "            # Apply registry entries";
              "            self.progress.emit(70, " ++ dq ++ "Applying registry entries..." ++ dq ++ ")";
              "            for reg_entry in REGISTRY_ENTRIES:";
              "                self._apply_registry(reg_entry)";
              EmptyString;
              "            # Run post-install scripts";
              "            self.progress.emit(80, " ++ dq ++ "Running post-install scripts..." ++ dq ++ ")";
              "            for script in SCRIPT_ELEMENTS:";
              "                if script.get('event') == 'post_install':";
              "                    self._run_script(script)";
              EmptyString;
              "            # Create uninstaller";
              "            if CREATE_UNINSTALLER:";
              "                self.progress.emit(90, " ++ dq ++ "Creating uninstaller..." ++ dq ++ ")";
              "                self._create_uninstaller()";
              EmptyString;
              "            self.progress.emit(100, " ++ dq ++ "Installation complete!" ++ dq ++ ")";
              "            self.finished_signal.emit(True, " ++ dq ++ "Installation completed successfully!" ++ dq ++ ")";
              EmptyString;
              "        except Exception as e:";
              "            self.finished_signal.emit(False, f" ++ dq ++ "Installation failed: {str(e)}" ++ dq ++ ")" ]
             (app between (app
             [ "    def _create_uninstaller(self):";
              "        " ++ dq ++ dq ++ dq ++ "Create an uninstaller executable" ++ dq ++ dq ++ dq;
              "        uninstall_script = f'''";
              "import os";
              "import sys";
              "import shutil";
              "from PyQt6.QtWidgets import QApplication, QMessageBox";
              EmptyString;
              "def uninstall():";
              "    reply = QMessageBox.question(None, " ++ dq ++ "Uninstall" ++ dq ++ ", ";
              "                                " ++ dq ++ "Are you sure you want to uninstall {PROJECT_NAME}?" ++ dq ++ ",";
              "                                QMessageBox.StandardButton.Yes | QMessageBox.StandardButton.No)";
              "    ";
              "    if reply == QMessageBox.StandardButton.Yes:";
              "        try:";
              "            install_dir = r" ++ dq ++ "{self.install_path}" ++ dq;
              "            if os.path.exists(install_dir):";
              "                shutil.rmtree(install_dir)";
              "            QMessageBox.information(None, " ++ dq ++ "Success" ++ dq ++ ", " ++ dq ++ "Uninstallation complete!" ++ dq ++ ")";
              "        except Exception as ex:";
              "            QMessageBox.critical(None, " ++ dq ++ "Error" ++ dq ++ ", f" ++ dq ++ "Uninstallation failed: {{ex}}" ++ dq ++ ")";
              EmptyString;
              "if __name__ == " ++ dq ++ "__main__" ++ dq ++ ":";
              "    app = QApplication(sys.argv)";
              "    uninstall()";
              "'''";
              "        uninstall_path = os.path.join(self.install_path, " ++ dq ++ "uninstall.py" ++ dq ++ ")";
              "        with open(uninstall_path, 'w') as f:";
              "            f.write(uninstall_script)" ]
             after))))
  /\ (forall b : bool,
        Synth._generate_installer_script
          (ProjectConfig.set_create_uninstaller project b)
        = Synth._generate_installer_script project)
  /\ CREATE_UNINSTALLER (Synth.installer_data project) = true
  /\ (forall (env : Installer.InstallEnv) (install_path : string),
        Installer.succeeded
          (Installer.run env (Synth.installer_data project) install_path)
        = true ->
        In (Installer.write_file
              (Installer.os_path_join env install_path "uninstall.py")
              (nl ++ unlines
                [ "import os";
                  "import sys";
                  "import shutil";
                  "from PyQt6.QtWidgets import QApplication, QMessageBox";
                  EmptyString;
                  "def uninstall():";
                  "    reply = QMessageBox.question(None, " ++ dq ++ "Uninstall" ++ dq ++ ", ";
                  "                                " ++ dq ++ "Are you sure you want to uninstall " ++ (if is_empty (ProjectConfig.name project)
                         then "My Application"
                         else ProjectConfig.name project) ++ "?" ++ dq ++ ",";
                  "                                QMessageBox.StandardButton.Yes | QMessageBox.StandardButton.No)";
                  "    ";
                  "    if reply == QMessageBox.StandardButton.Yes:";
                  "        try:";
                  "            install_dir = r" ++ dq ++ install_path ++ dq;
                  "            if os.path.exists(install_dir):";
                  "                shutil.rmtree(install_dir)";
                  "            QMessageBox.information(None, " ++ dq ++ "Success" ++ dq ++ ", " ++ dq ++ "Uninstallation complete!" ++ dq ++ ")";
                  "        except Exception as ex:";
                  "            QMessageBox.critical(None, " ++ dq ++ "Error" ++ dq ++ ", f" ++ dq ++ "Uninstallation failed: {ex}" ++ dq ++ ")";
                  EmptyString;
                  "if __name__ == " ++ dq ++ "__main__" ++ dq ++ ":";
                  "    app = QApplication(sys.argv)";
                  "    uninstall()" ]))
           (Installer.done
              (Installer.run env (Synth.installer_data project)
                             install_path))).
Proof.
  split; [apply installer_script_shape|].
  split.
  { exists (firstn 11 Synth.installer_body),
           (firstn 87 (skipn 54 Synth.installer_body)),
           (skipn 170 Synth.installer_body).
    vm_compute. reflexivity. }
  split; [intros b; reflexivity|].
  split; [reflexivity|].
  intros env install_path Hs.
  exact (success_writes_uninstaller env (Synth.installer_data project)
                                    install_path eq_refl Hs).
Qed.

(** C9 at work: the project [demo_no_uninstaller] has the flag off, and a
    successful install of it has written [uninstall.py]. *)
Lemma C9_uninstaller_always_written_witness :
  ProjectConfig.create_uninstaller Scenario.demo_no_uninstaller = false
  /\ In (Installer.write_file
           "C:\Apps\Demo\uninstall.py"
           (Installer.uninstall_script "Demo" "C:\Apps\Demo"))
        (Installer.done
           (Installer.run Scenario.willing_machine
                          (Synth.installer_data Scenario.demo_no_uninstaller)
                          "C:\Apps\Demo")).
Proof.
  split; [reflexivity|].
  apply (proj2 (proj2 (proj2 (proj2
           (C9_uninstaller_always_written Scenario.demo_no_uninstaller))))
           Scenario.willing_machine "C:\Apps\Demo").
  reflexivity.
Defined.

(* ================================================================== *)
(** ** The synthesizers are functions of the project content *)
(* ================================================================== *)

Lemma map_injective {A B} (f : A -> B) :
  (forall x y, f x = f y -> x = y) ->
  forall l1 l2, map f l1 = map f l2 -> l1 = l2.
Proof.
  intros Hf l1. induction l1 as [|x l1 IH]; intros [|y l2] H;
    try discriminate; [reflexivity|].
  simpl in H. injection H as Hxy Hrest. f_equal; auto.
Qed.

Lemma FileEntry_to_dict_inj (x y : FileEntry.t) :
  FileEntry.to_dict x = FileEntry.to_dict y -> x = y.
Proof. destruct x, y; simpl; intros H; injection H; intros; subst; reflexivity. Qed.

Lemma ShortcutConfig_to_dict_inj (x y : ShortcutConfig.t) :
  ShortcutConfig.to_dict x = ShortcutConfig.to_dict y -> x = y.
Proof. destruct x, y; simpl; intros H; injection H; intros; subst; reflexivity. Qed.

Lemma RegistryEntry_to_dict_inj (x y : RegistryEntry.t) :
  RegistryEntry.to_dict x = RegistryEntry.to_dict y -> x = y.
Proof. destruct x, y; simpl; intros H; injection H; intros; subst; reflexivity. Qed.

Lemma Dependency_to_dict_inj (x y : Dependency.t) :
  Dependency.to_dict x = Dependency.to_dict y -> x = y.
Proof. destruct x, y; simpl; intros H; injection H; intros; subst; reflexivity. Qed.

Lemma ScriptElementType_value_inj (a b : ScriptElementType.t) :
  ScriptElementType.value a = ScriptElementType.value b -> a = b.
Proof. destruct a, b; simpl; intros H; solve [reflexivity | discriminate H]. Qed.

Lemma ScriptElement_to_dict_inj (x y : ScriptElement.t) :
  ScriptElement.to_dict x = ScriptElement.to_dict y -> x = y.
Proof.
  destruct x, y; simpl; intros H; injection H; intros; subst.
  f_equal. now apply ScriptElementType_value_inj.
Qed.

(** C5.  The two synthesizers are functions of the project content alone:
    two projects that agree on the name, the version, the description and
    the five sequences give the same installer source and the same build
    spec, character for character, whatever their other fields (time stamps
    included) hold.  The installer source is the fixed head of the template,
    the five data lines, the three identity lines, the uninstaller switch
    and the fixed body; each data line is the list literal of the [repr] of
    the entries' dicts, in the order of the project's list.  The build spec
    is its fixed head, the line of the executable name and its fixed tail.
    The embedded sequences are the project's sequences mapped in order, and
    the embedded sequence determines the project's list, order included. *)
Theorem C5_synthesis_depends_on_content_only (p q : ProjectConfig.t) :
  (Synth.same_content p q ->
   Synth._generate_installer_script p = Synth._generate_installer_script q
   /\ Synth._generate_spec_file p = Synth._generate_spec_file q)
  /\ Synth._generate_installer_script p
  = unlines Synth.installer_head
    ++ "FILES_DATA = ["
    ++ join ", " (map (fun x => py_repr (FileEntry.to_dict x))
                      (ProjectConfig.files p))
    ++ "]" ++ nl
    ++ "SHORTCUTS = ["
    ++ join ", " (map (fun x => py_repr (ShortcutConfig.to_dict x))
                      (ProjectConfig.shortcuts p))
    ++ "]" ++ nl
    ++ "REGISTRY_ENTRIES = ["
    ++ join ", " (map (fun x => py_repr (RegistryEntry.to_dict x))
                      (ProjectConfig.registry_entries p))
    ++ "]" ++ nl
    ++ "SCRIPT_ELEMENTS = ["
    ++ join ", " (map (fun x => py_repr (ScriptElement.to_dict x))
                      (ProjectConfig.script_elements p))
    ++ "]" ++ nl
    ++ "DEPENDENCIES = ["
    ++ join ", " (map (fun x => py_repr (Dependency.to_dict x))
                      (ProjectConfig.dependencies p))
    ++ "]" ++ nl
    ++ nl
    ++ "PROJECT_NAME = "
    ++ json_dumps_str (if is_empty (ProjectConfig.name p)
                       then "My Application" else ProjectConfig.name p)
    ++ nl
    ++ "PROJECT_VERSION = " ++ json_dumps_str (ProjectConfig.version p) ++ nl
    ++ "PROJECT_DESCRIPTION = "
    ++ json_dumps_str (ProjectConfig.description p) ++ nl
    ++ nl
    ++ "CREATE_UNINSTALLER = True" ++ nl
    ++ unlines Synth.installer_body
  /\ Synth._generate_spec_file p
  = unlines Synth.spec_head
    ++ "    name='"
    ++ replace_char "-" "_" (replace_char " " "_" (ProjectConfig.name p))
    ++ "_Setup'," ++ nl
    ++ unlines Synth.spec_tail
  /\ firstn 5 (Synth.embedded_data_lines (Synth.installer_data p))
     = [ "FILES_DATA = "
         ++ Synth.list_literal
              (map (fun x => py_repr (FileEntry.to_dict x))
                   (ProjectConfig.files p));
         "SHORTCUTS = "
         ++ Synth.list_literal
              (map (fun x => py_repr (ShortcutConfig.to_dict x))
                   (ProjectConfig.shortcuts p));
         "REGISTRY_ENTRIES = "
         ++ Synth.list_literal
              (map (fun x => py_repr (RegistryEntry.to_dict x))
                   (ProjectConfig.registry_entries p));
         "SCRIPT_ELEMENTS = "
         ++ Synth.list_literal
              (map (fun x => py_repr (ScriptElement.to_dict x))
                   (ProjectConfig.script_elements p));
         "DEPENDENCIES = "
         ++ Synth.list_literal
              (map (fun x => py_repr (Dependency.to_dict x))
                   (ProjectConfig.dependencies p)) ]
  /\ (forall i : nat,
        nth_error (FILES_DATA (Synth.installer_data p)) i
        = option_map FileEntry.to_dict (nth_error (ProjectConfig.files p) i))
  /\ (forall i : nat,
        nth_error (SCRIPT_ELEMENTS (Synth.installer_data p)) i
        = option_map ScriptElement.to_dict
                     (nth_error (ProjectConfig.script_elements p) i))
  /\ (forall r : ProjectConfig.t,
        FILES_DATA (Synth.installer_data r) = FILES_DATA (Synth.installer_data p)
        /\ SHORTCUTS (Synth.installer_data r)
           = SHORTCUTS (Synth.installer_data p)
        /\ REGISTRY_ENTRIES (Synth.installer_data r)
           = REGISTRY_ENTRIES (Synth.installer_data p)
        /\ SCRIPT_ELEMENTS (Synth.installer_data r)
           = SCRIPT_ELEMENTS (Synth.installer_data p)
        /\ DEPENDENCIES (Synth.installer_data r)
           = DEPENDENCIES (Synth.installer_data p)
        <-> ProjectConfig.files r = ProjectConfig.files p
            /\ ProjectConfig.shortcuts r = ProjectConfig.shortcuts p
            /\ ProjectConfig.registry_entries r
               = ProjectConfig.registry_entries p
            /\ ProjectConfig.script_elements r
               = ProjectConfig.script_elements p
            /\ ProjectConfig.dependencies r = ProjectConfig.dependencies p).
Proof.
  split; [|split; [|split; [|split; [|split; [|split]]]]].
  - intros (Hn & Hv & Hd & Hf & Hs & Hr & He & Hp). split.
    + unfold Synth._generate_installer_script, Synth.installer_data.
      now rewrite Hn, Hv, Hd, Hf, Hs, Hr, He, Hp.
    + unfold Synth._generate_spec_file, Synth.name_safe. now rewrite Hn.
  - rewrite installer_script_shape, unlines_app.
    unfold Synth.embedded_data_lines, Synth.installer_data, Synth.str_or.
    cbn [FILES_DATA SHORTCUTS REGISTRY_ENTRIES SCRIPT_ELEMENTS DEPENDENCIES
         PROJECT_NAME PROJECT_VERSION PROJECT_DESCRIPTION py_repr].
    rewrite !map_map, !unlines_cons.
    change (unlines []) with EmptyString.
    replace (if is_empty (ProjectConfig.description p)
             then EmptyString else ProjectConfig.description p)
      with (ProjectConfig.description p)
      by (now destruct (ProjectConfig.description p)).
    unfold Synth.uninstaller_line.
    rewrite !sapp_assoc. reflexivity.
  - unfold Synth._generate_spec_file, Synth.name_safe.
    rewrite unlines_app, unlines_app.
    f_equal. unfold unlines at 1. simpl. rewrite !sapp_assoc. reflexivity.
  - unfold Synth.embedded_data_lines, Synth.list_literal, Synth.installer_data.
    cbn [firstn FILES_DATA SHORTCUTS REGISTRY_ENTRIES SCRIPT_ELEMENTS
         DEPENDENCIES py_repr].
    now rewrite !map_map.
  - intros i. apply nth_error_map.
  - intros i. apply nth_error_map.
  - intros r. simpl. split.
    + intros (A & B & C & D & E). repeat split.
      * now apply (map_injective _ FileEntry_to_dict_inj).
      * now apply (map_injective _ ShortcutConfig_to_dict_inj).
      * now apply (map_injective _ RegistryEntry_to_dict_inj).
      * now apply (map_injective _ ScriptElement_to_dict_inj).
      * now apply (map_injective _ Dependency_to_dict_inj).
    + intros (A & B & C & D & E). now rewrite A, B, C, D, E.
Qed.

(** C5 at work: [demo] and [demo_no_uninstaller] differ in the uninstaller
    flag and in the modification stamp only. *)
Lemma C5_synthesis_depends_on_content_only_witness :
  Synth._generate_installer_script Scenario.demo
  = Synth._generate_installer_script Scenario.demo_no_uninstaller
  /\ Synth._generate_spec_file Scenario.demo
     = Synth._generate_spec_file Scenario.demo_no_uninstaller.
Proof.
  apply (proj1 (C5_synthesis_depends_on_content_only
                  Scenario.demo Scenario.demo_no_uninstaller)).
  repeat split.
Defined.

(* ================================================================== *)
(** ** The persisted document: reading back what was written *)
(* ================================================================== *)

Section ReadBack.

Variable w : World.

Lemma FileEntry_read_back (f : FileEntry.t) :
  FileEntry.from_dict w (FileEntry.to_dict f) = Ok (FileEntry.post_init w f).
Proof. destruct f; reflexivity. Qed.

Lemma FileEntry_settled (f : FileEntry.t) :
  ProjectConfig.hash_settled w f = true -> FileEntry.post_init w f = f.
Proof.
  destruct f as [src dst bin dir cmp h ver descr].
  unfold ProjectConfig.hash_settled, FileEntry.post_init,
    FileEntry.calculate_hash, FileEntry.set_hash; simpl.
  destruct h as [|c h]; simpl; [|reflexivity].
  destruct dir; simpl; [now rewrite andb_false_r|].
  destruct (path_exists w src); simpl; [|reflexivity].
  destruct (sha256_hexdigest w src) as [[|c d]|]; simpl;
    solve [reflexivity | discriminate].
Qed.

Lemma files_reread (l : list FileEntry.t) :
  rmapM (FileEntry.from_dict w) (map FileEntry.to_dict l)
  = Ok (map (FileEntry.post_init w) l).
Proof.
  induction l as [|f l IH]; cbn [map rmapM]; [reflexivity|].
  rewrite FileEntry_read_back, IH. reflexivity.
Qed.

Lemma files_settled (l : list FileEntry.t) :
  forallb (ProjectConfig.hash_settled w) l = true ->
  map (FileEntry.post_init w) l = l.
Proof.
  induction l as [|f l IH]; cbn [map forallb]; intros H; [reflexivity|].
  apply andb_true_iff in H. destruct H as [Hf Hl].
  now rewrite (FileEntry_settled f Hf), (IH Hl).
Qed.

Lemma FileEntry_fresh_hash (f : FileEntry.t) (digest : string) :
  FileEntry.hash f = EmptyString ->
  FileEntry.is_directory f = false ->
  path_exists w (FileEntry.source_path f) = true ->
  sha256_hexdigest w (FileEntry.source_path f) = Some digest ->
  FileEntry.post_init w f = FileEntry.set_hash f digest.
Proof.
  intros Hh Hd He Hs.
  unfold FileEntry.post_init, FileEntry.calculate_hash.
  rewrite Hh, Hd, He, Hs. reflexivity.
Qed.

Lemma ScriptElementType_read_back (ty : ScriptElementType.t) :
  ScriptElementType.of_value (PStr (ScriptElementType.value ty)) = Ok ty.
Proof. destruct ty; reflexivity. Qed.

Lemma ScriptElement_read_back (i : nat) (e : ScriptElement.t) :
  is_empty (ScriptElement.id e) = false ->
  ScriptElement.from_dict w i (ScriptElement.to_dict e) = Ok e.
Proof.
  destruct e as [ty nm ps ident en cr]; simpl; intros H.
  destruct ty; unfold ScriptElement.from_dict, ScriptElement.post_init; simpl;
    rewrite H; reflexivity.
Qed.

Lemma script_elements_read_back (l : list ScriptElement.t) (i : nat) :
  forallb (fun e => negb (is_empty (ScriptElement.id e))) l = true ->
  rmapMi (ScriptElement.from_dict w) i (map ScriptElement.to_dict l) = Ok l.
Proof.
  revert i.
  induction l as [|e l IH]; cbn [map rmapMi forallb]; intros i H;
    [reflexivity|].
  apply andb_true_iff in H. destruct H as [He Hl].
  apply negb_true_iff in He.
  rewrite (ScriptElement_read_back i e He), (IH _ Hl). reflexivity.
Qed.

Lemma ShortcutConfig_read_back (x : ShortcutConfig.t) :
  ShortcutConfig.from_dict (ShortcutConfig.to_dict x) = Ok x.
Proof. destruct x; reflexivity. Qed.

Lemma RegistryEntry_read_back (x : RegistryEntry.t) :
  RegistryEntry.from_dict (RegistryEntry.to_dict x) = Ok x.
Proof. destruct x; reflexivity. Qed.

Lemma Dependency_read_back (x : Dependency.t) :
  Dependency.from_dict (Dependency.to_dict x) = Ok x.
Proof. destruct x; reflexivity. Qed.

Lemma rmapM_read_back {A} (to_dict : A -> pyval)
    (from_dict : pyval -> result A) (l : list A) :
  (forall x, from_dict (to_dict x) = Ok x) ->
  rmapM from_dict (map to_dict l) = Ok l.
Proof.
  intros H. induction l as [|x l IH]; cbn [map rmapM]; [reflexivity|].
  rewrite H, IH. reflexivity.
Qed.

Lemma shortcuts_read_back (l : list ShortcutConfig.t) :
  rmapM ShortcutConfig.from_dict (map ShortcutConfig.to_dict l) = Ok l.
Proof. apply rmapM_read_back, ShortcutConfig_read_back. Qed.

Lemma registry_entries_read_back (l : list RegistryEntry.t) :
  rmapM RegistryEntry.from_dict (map RegistryEntry.to_dict l) = Ok l.
Proof. apply rmapM_read_back, RegistryEntry_read_back. Qed.

Lemma dependencies_read_back (l : list Dependency.t) :
  rmapM Dependency.from_dict (map Dependency.to_dict l) = Ok l.
Proof. apply rmapM_read_back, Dependency_read_back. Qed.

Lemma strs_read_back (k : string) (l : list string) :
  rmapM (as_str k) (map PStr l) = Ok l.
Proof.
  induction l as [|x l IH]; simpl; [reflexivity|]. now rewrite IH.
Qed.

Lemma from_dict_of_lists (d : dict) (fl : list FileEntry.t)
    (el : list ScriptElement.t) (sl : list ShortcutConfig.t)
    (rl : list RegistryEntry.t) (dl : list Dependency.t) :
  forallb (fun e => negb (is_empty (ScriptElement.id e))) el = true ->
  dict_get d "files" (PList []) = PList (map FileEntry.to_dict fl) ->
  dict_get d "script_elements" (PList [])
  = PList (map ScriptElement.to_dict el) ->
  dict_get d "shortcuts" (PList []) = PList (map ShortcutConfig.to_dict sl) ->
  dict_get d "registry_entries" (PList [])
  = PList (map RegistryEntry.to_dict rl) ->
  dict_get d "dependencies" (PList []) = PList (map Dependency.to_dict dl) ->
  ProjectConfig.from_dict w (PDict d)
  = ProjectConfig.init w (map (FileEntry.post_init w) fl) el sl rl dl
      (ProjectConfig.backfill w
         (fold_left dict_del ProjectConfig.sequence_keys d)).
Proof.
  intros He H1 H2 H3 H4 H5. unfold ProjectConfig.from_dict.
  rewrite H1, H2, H3, H4, H5. cbn [py_iter rbind].
  rewrite files_reread. cbn [rbind].
  rewrite (script_elements_read_back _ 0 He). cbn [rbind].
  rewrite shortcuts_read_back. cbn [rbind].
  rewrite registry_entries_read_back. cbn [rbind].
  rewrite dependencies_read_back. reflexivity.
Qed.

Lemma older_document_reads (m : ProjectConfig.Missing)
    (p : ProjectConfig.t) :
  forallb (fun e => negb (is_empty (ScriptElement.id e)))
          (ProjectConfig.script_elements p) = true ->
  ProjectConfig.from_dict w (ProjectConfig.older_document m p)
  = Ok (ProjectConfig.backfilled
          w m (ProjectConfig.set_files
                 p (map (FileEntry.post_init w) (ProjectConfig.files p)))).
Proof.
  intros He. destruct p; simpl in He.
  unfold ProjectConfig.older_document, ProjectConfig.to_dict.
  destruct m as [[] [] [] [] [] [] []];
    (rewrite (from_dict_of_lists _ files script_elements shortcuts
                                 registry_entries dependencies He);
     [| vm_compute; reflexivity ..]);
    cbv -[rmapM map as_str ProjectConfig.copyright_default
          FileEntry.post_init];
    rewrite !strs_read_back; reflexivity.
Qed.

Lemma older_document_read_back (m : ProjectConfig.Missing)
    (p : ProjectConfig.t) :
  ProjectConfig.reads_back w p = true ->
  ProjectConfig.from_dict w (ProjectConfig.older_document m p)
  = Ok (ProjectConfig.backfilled w m p).
Proof.
  unfold ProjectConfig.reads_back. intros H.
  apply andb_true_iff in H. destruct H as [Hf He].
  rewrite (older_document_reads m p He), (files_settled _ Hf).
  destruct p; reflexivity.
Qed.

Lemma dict_lookup_del (d : dict) (k k' : string) :
  dict_lookup (dict_del d k') k
  = if String.eqb k k' then None else dict_lookup d k.
Proof.
  induction d as [|[k0 v] d IH]; simpl.
  - now destruct (String.eqb k k').
  - destruct (String.eqb k' k0) eqn:E1.
    + rewrite IH. destruct (String.eqb k k') eqn:E2; [reflexivity|].
      destruct (String.eqb k k0) eqn:E3; [|reflexivity].
      apply String.eqb_eq in E1, E3. subst.
      now rewrite String.eqb_refl in E2.
    + simpl. destruct (String.eqb k k0) eqn:E3; [|exact IH].
      destruct (String.eqb k k') eqn:E2; [|reflexivity].
      apply String.eqb_eq in E2, E3. subst.
      now rewrite String.eqb_refl in E1.
Qed.

Lemma dict_lookup_setdefault (d : dict) (k k' : string) (v : pyval) :
  dict_lookup (dict_setdefault d k' v) k
  = match dict_lookup d k with
    | Some x => Some x
    | None => if String.eqb k k' then Some v else None
    end.
Proof.
  assert (A : dict_lookup (app d [(k', v)]) k
              = match dict_lookup d k with
                | Some x => Some x
                | None => if String.eqb k k' then Some v else None
                end).
  { induction d as [|[k0 x] d IH]; simpl; [reflexivity|].
    destruct (String.eqb k k0); [reflexivity | exact IH]. }
  unfold dict_setdefault, dict_has.
  destruct (dict_lookup d k') eqn:E; [|exact A].
  destruct (dict_lookup d k) eqn:E2; [reflexivity|].
  destruct (String.eqb k k') eqn:E3; [|reflexivity].
  apply String.eqb_eq in E3. subst. congruence.
Qed.

(** What [cls] receives under a backfilled key: the value of the document,
    or the default. *)
Lemma backfill_lookup (d : dict) (k : string) (default : pyval) :
  In (k, default)
     [ ("company", PStr EmptyString);
       ("copyright", PStr (ProjectConfig.copyright_default w));
       ("create_uninstaller", PBool true);
       ("silent_mode", PBool false);
       ("overwrite_existing", PBool true);
       ("installer_title", PStr "{name} Setup");
       ("installer_style", PStr "default") ] ->
  dict_lookup
    (ProjectConfig.backfill
       w (fold_left dict_del ProjectConfig.sequence_keys d)) k
  = Some (dict_get d k default).
Proof.
  intros H. unfold ProjectConfig.backfill, ProjectConfig.sequence_keys, dict_get.
  cbn [fold_left]. cbv zeta.
  rewrite !dict_lookup_setdefault, !dict_lookup_del.
  repeat (destruct H as [H|H]; [injection H as <- <-; cbn;
                                now destruct (dict_lookup d _)|]).
  contradiction.
Qed.

Ltac first_bind H :=
  match type of H with
  | rbind ?m _ = Ok _ =>
      let E := fresh "E" in
      destruct m eqn:E; [cbn [rbind] in H | discriminate H]
  end.

Lemma init_backfilled_fields (fl : list FileEntry.t)
    (el : list ScriptElement.t) (sl : list ShortcutConfig.t)
    (rl : list RegistryEntry.t) (dl : list Dependency.t) (kw : dict)
    (q : ProjectConfig.t) :
  ProjectConfig.init w fl el sl rl dl kw = Ok q ->
  kw_str kw "company" (Some EmptyString) = Ok (ProjectConfig.company q)
  /\ kw_str kw "copyright" (Some EmptyString)
     = Ok (ProjectConfig.copyright q)
  /\ kw_bool kw "create_uninstaller" true
     = Ok (ProjectConfig.create_uninstaller q)
  /\ kw_bool kw "silent_mode" false = Ok (ProjectConfig.silent_mode q)
  /\ kw_bool kw "overwrite_existing" true
     = Ok (ProjectConfig.overwrite_existing q)
  /\ kw_str kw "installer_title" (Some "{name} Setup")
     = Ok (ProjectConfig.installer_title q)
  /\ kw_str kw "installer_style" (Some "default")
     = Ok (ProjectConfig.installer_style q).
Proof.
  unfold ProjectConfig.init. intros H.
  repeat first_bind H.
  injection H as <-. repeat split; reflexivity.
Qed.

Lemma from_dict_calls_init (d : dict) (q : ProjectConfig.t) :
  ProjectConfig.from_dict w (PDict d) = Ok q ->
  exists fl el sl rl dl,
    ProjectConfig.init
      w fl el sl rl dl
      (ProjectConfig.backfill
         w (fold_left dict_del ProjectConfig.sequence_keys d))
    = Ok q.
Proof.
  unfold ProjectConfig.from_dict. intros H.
  do 10 first_bind H.
  eauto 6.
Qed.

Lemma kw_str_of (kw : dict) (k : string) (v : pyval) (s s' : string) :
  dict_lookup kw k = Some v -> kw_str kw k (Some s') = Ok s -> v = PStr s.
Proof.
  unfold kw_str. intros ->. destruct v; intros H; try discriminate H.
  now injection H as ->.
Qed.

Lemma kw_bool_of (kw : dict) (k : string) (v : pyval) (b b' : bool) :
  dict_lookup kw k = Some v -> kw_bool kw k b' = Ok b -> v = PBool b.
Proof.
  unfold kw_bool. intros ->. destruct v; intros H; try discriminate H.
  now injection H as ->.
Qed.

(** Reading any document: a backfilled key that the document lacks gives
    the default, one that it has gives the value of the document. *)
Lemma from_dict_backfills (d : dict) (q : ProjectConfig.t) :
  ProjectConfig.from_dict w (PDict d) = Ok q ->
  dict_get d "company" (PStr EmptyString) = PStr (ProjectConfig.company q)
  /\ dict_get d "copyright" (PStr (ProjectConfig.copyright_default w))
     = PStr (ProjectConfig.copyright q)
  /\ dict_get d "create_uninstaller" (PBool true)
     = PBool (ProjectConfig.create_uninstaller q)
  /\ dict_get d "silent_mode" (PBool false)
     = PBool (ProjectConfig.silent_mode q)
  /\ dict_get d "overwrite_existing" (PBool true)
     = PBool (ProjectConfig.overwrite_existing q)
  /\ dict_get d "installer_title" (PStr "{name} Setup")
     = PStr (ProjectConfig.installer_title q)
  /\ dict_get d "installer_style" (PStr "default")
     = PStr (ProjectConfig.installer_style q).
Proof.
  intros H. apply from_dict_calls_init in H.
  destruct H as (fl & el & sl & rl & dl & H).
  apply init_backfilled_fields in H.
  destruct H as (A & B & C & D & E & F & G).
  repeat split;
    first [ eapply kw_str_of; [apply backfill_lookup | eassumption]
          | eapply kw_bool_of; [apply backfill_lookup | eassumption] ];
    simpl; tauto.
Qed.

End ReadBack.

(** C7, the round trip as worded fails: the first file entry of
    [Scenario.demo] has no hash, its source is on [Scenario.disk], and
    reading the document back computes a hash for it. *)
Lemma C7_counterexample :
  ProjectConfig.from_dict Scenario.disk (ProjectConfig.to_dict Scenario.demo)
  <> Ok Scenario.demo.
Proof.
  intros H.
  assert (E : match ProjectConfig.from_dict
                      Scenario.disk (ProjectConfig.to_dict Scenario.demo) with
              | Ok q => map FileEntry.hash (ProjectConfig.files q)
              | Raise _ => []
              end
              = map FileEntry.hash (ProjectConfig.files Scenario.demo)).
  { now rewrite H. }
  vm_compute in E. discriminate.
Qed.

(** C7, as amended.  Let [p] be a project in which every script element has
    an id, as its constructor guarantees.  Reading the document of [p] gives
    [p] back field for field, except that every file entry has gone through
    [__post_init__]: an entry without hash whose source is a file on the
    reading machine comes back with the freshly computed hash, and an entry
    that is settled for the reading machine (it has a hash, or is a
    directory, or its source is not on disk or cannot be hashed) comes back
    as it was.  So when every file entry is settled, the document that
    [save_project] writes reads back as the project that [save_project]
    leaves, and [to_dict] followed by [from_dict] gives [p] back.  A
    document of [p] that lacks any of the backfilled keys reads back with
    the documented default in the fields of the lacking keys, and whenever
    a document, of whatever origin, is read, a backfilled key that it lacks
    gives the documented default: the empty string for [company], the
    computed string for [copyright], [True], [False], [True] for
    [create_uninstaller], [silent_mode], [overwrite_existing], and the two
    installer texts; a key that the document has keeps its value. *)
Theorem C7_document_round_trip (w_save w_load : World) (p : ProjectConfig.t)
    (m : ProjectConfig.Missing) :
  (ProjectConfig.reads_back w_load p = true ->
   ProjectManager.load_project w_load
     (snd (ProjectManager.save_project w_save p))
   = Ok (fst (ProjectManager.save_project w_save p))
   /\ ProjectConfig.from_dict w_load (ProjectConfig.to_dict p) = Ok p)
  /\ (forallb (fun e => negb (is_empty (ScriptElement.id e)))
              (ProjectConfig.script_elements p) = true ->
      ProjectConfig.from_dict w_load (ProjectConfig.to_dict p)
      = Ok (ProjectConfig.set_files
              p (map (FileEntry.post_init w_load) (ProjectConfig.files p)))
      /\ ProjectConfig.from_dict w_load (ProjectConfig.older_document m p)
         = Ok (ProjectConfig.backfilled
                 w_load m
                 (ProjectConfig.set_files
                    p (map (FileEntry.post_init w_load)
                           (ProjectConfig.files p)))))
  /\ (forall (f : FileEntry.t) (digest : string),
        FileEntry.hash f = EmptyString ->
        FileEntry.is_directory f = false ->
        path_exists w_load (FileEntry.source_path f) = true ->
        sha256_hexdigest w_load (FileEntry.source_path f) = Some digest ->
        FileEntry.post_init w_load f
        = FileEntry.mk (FileEntry.source_path f) (FileEntry.install_path f)
                       (FileEntry.is_binary f) false (FileEntry.compress f)
                       digest (FileEntry.version f)
                       (FileEntry.description f)
        /\ FileEntry.from_dict w_load (FileEntry.to_dict f)
           = Ok (FileEntry.post_init w_load f))
  /\ (forall f : FileEntry.t,
        ProjectConfig.hash_settled w_load f = true ->
        FileEntry.post_init w_load f = f)
  /\ (forall (d : dict) (q : ProjectConfig.t),
        ProjectConfig.from_dict w_load (PDict d) = Ok q ->
        (dict_has d "company" = false ->
         ProjectConfig.company q = EmptyString)
        /\ (dict_has d "copyright" = false ->
            ProjectConfig.copyright q
            = "Copyright " ++ chr "169"%char ++ " "
              ++ repr_int (now_year w_load))
        /\ (dict_has d "create_uninstaller" = false ->
            ProjectConfig.create_uninstaller q = true)
        /\ (dict_has d "silent_mode" = false ->
            ProjectConfig.silent_mode q = false)
        /\ (dict_has d "overwrite_existing" = false ->
            ProjectConfig.overwrite_existing q = true)
        /\ (dict_has d "installer_title" = false ->
            ProjectConfig.installer_title q = "{name} Setup")
        /\ (dict_has d "installer_style" = false ->
            ProjectConfig.installer_style q = "default")
        /\ (forall v, dict_lookup d "company" = Some v ->
                      v = PStr (ProjectConfig.company q))
        /\ (forall v, dict_lookup d "copyright" = Some v ->
                      v = PStr (ProjectConfig.copyright q))
        /\ (forall v, dict_lookup d "create_uninstaller" = Some v ->
                      v = PBool (ProjectConfig.create_uninstaller q))
        /\ (forall v, dict_lookup d "silent_mode" = Some v ->
                      v = PBool (ProjectConfig.silent_mode q))
        /\ (forall v, dict_lookup d "overwrite_existing" = Some v ->
                      v = PBool (ProjectConfig.overwrite_existing q))
        /\ (forall v, dict_lookup d "installer_title" = Some v ->
                      v = PStr (ProjectConfig.installer_title q))
        /\ (forall v, dict_lookup d "installer_style" = Some v ->
                      v = PStr (ProjectConfig.installer_style q))).
Proof.
  assert (R : forall q, ProjectConfig.reads_back w_load q = true ->
                        ProjectConfig.from_dict w_load (ProjectConfig.to_dict q)
                        = Ok q).
  { intros q Hq.
    pose proof (older_document_read_back
                  w_load ProjectConfig.nothing_missing q Hq) as E.
    destruct q; exact E. }
  split; [|split; [|split; [|split]]].
  - intros H. split.
    + unfold ProjectManager.load_project, ProjectManager.save_project.
      cbn [fst snd]. apply R. destruct p; exact H.
    + apply R, H.
  - intros He. split; [|apply older_document_reads, He].
    pose proof (older_document_reads
                  w_load ProjectConfig.nothing_missing p He) as E.
    destruct p; exact E.
  - intros f digest Hh Hd He Hs. split; [|apply FileEntry_read_back].
    rewrite (FileEntry_fresh_hash w_load f digest Hh Hd He Hs).
    unfold FileEntry.set_hash. now rewrite Hd.
  - apply FileEntry_settled.
  - intros d q H. apply from_dict_backfills in H.
    destruct H as (A & B & C & D & E & F & G).
    unfold dict_has, dict_get in *.
    repeat split;
      try (intros v Hv;
           first [ now rewrite Hv in A | now rewrite Hv in B
                 | now rewrite Hv in C | now rewrite Hv in D
                 | now rewrite Hv in E | now rewrite Hv in F
                 | now rewrite Hv in G ]);
      intros Hn.
    + destruct (dict_lookup d "company"); [discriminate|].
      now injection A as <-.
    + destruct (dict_lookup d "copyright"); [discriminate|].
      now injection B as <-.
    + destruct (dict_lookup d "create_uninstaller"); [discriminate|].
      now injection C as <-.
    + destruct (dict_lookup d "silent_mode"); [discriminate|].
      now injection D as <-.
    + destruct (dict_lookup d "overwrite_existing"); [discriminate|].
      now injection E as <-.
    + destruct (dict_lookup d "installer_title"); [discriminate|].
      now injection F as <-.
    + destruct (dict_lookup d "installer_style"); [discriminate|].
      now injection G as <-.
Qed.

(** The amended C7 at work: [Scenario.demo] read back on a machine where no
    source file exists; its first file entry read back on a machine where
    the source exists; and the oldest shape of its document read on that
    machine. *)
Lemma C7_document_round_trip_witness :
  ProjectConfig.from_dict Scenario.blank_disk
                          (ProjectConfig.to_dict Scenario.demo)
  = Ok Scenario.demo
  /\ FileEntry.from_dict Scenario.disk (FileEntry.to_dict Scenario.demo_file)
     = Ok (FileEntry.mk "C:\src\data.txt" "app\data.txt" false false true
                        "9f86d081884c7d65" EmptyString EmptyString)
  /\ exists q,
       ProjectConfig.from_dict
         Scenario.disk
         (ProjectConfig.older_document
            (ProjectConfig.mkMissing true true true true true true true)
            Scenario.demo)
       = Ok q
       /\ ProjectConfig.company q = EmptyString
       /\ ProjectConfig.copyright q = "Copyright " ++ chr "169"%char ++ " 2025"
       /\ ProjectConfig.create_uninstaller q = true.
Proof.
  split; [|split].
  - apply (proj1 (C7_document_round_trip
                    Scenario.disk Scenario.blank_disk Scenario.demo
                    ProjectConfig.nothing_missing)).
    reflexivity.
  - destruct (C7_document_round_trip
                Scenario.disk Scenario.disk Scenario.demo
                ProjectConfig.nothing_missing) as (_ & _ & C & _).
    destruct (C Scenario.demo_file "9f86d081884c7d65"
                eq_refl eq_refl eq_refl eq_refl) as [C1 C2].
    rewrite C2, C1. reflexivity.
  - destruct (C7_document_round_trip
                Scenario.disk Scenario.disk Scenario.demo
                (ProjectConfig.mkMissing true true true true true true true))
      as (_ & B & _ & _ & E).
    destruct (B eq_refl) as [_ B2].
    eexists. split; [exact B2|].
    destruct (E _ _ B2) as (E1 & E2 & E3 & _).
    split; [apply E1; reflexivity|].
    split; [apply E2; reflexivity | apply E3; reflexivity].
Defined.

(* ================================================================== *)
(** ** utils/helpers.py: [sanitize_filename] *)
(* ================================================================== *)

Lemma smap_ext (f g : ascii -> ascii) (s : string) :
  (forall c, f c = g c) -> smap f s = smap g s.
Proof. intros H. induction s as [|c s IH]; simpl; congruence. Qed.

Lemma smap_fixes (f : ascii -> ascii) (s : string) :
  (forall c, mem_char c s = true -> f c = c) -> smap f s = s.
Proof.
  induction s as [|d s IH]; simpl; intros H; [reflexivity|].
  rewrite (H d), IH; [reflexivity| |].
  - intros c Hc. apply H. rewrite Hc. apply orb_true_r.
  - now rewrite Ascii.eqb_refl.
Qed.

Lemma mem_smap (f : ascii -> ascii) (c : ascii) (s : string) :
  mem_char c (smap f s) = true -> exists d, f d = c.
Proof.
  induction s as [|d s IH]; simpl; [discriminate|].
  intros H. apply orb_true_iff in H. destruct H as [H|H]; [|now apply IH].
  exists d. symmetry. now apply Ascii.eqb_eq.
Qed.

Lemma sanitized_char_chain (c : ascii) :
  fold_left (fun ch bad => if Ascii.eqb ch bad then "_"%char else ch)
            (list_ascii_of_string Helpers.invalid_chars) c
  = HelpersMore.sanitized_char c.
Proof. destruct c as [[] [] [] [] [] [] [] []]; reflexivity. Qed.

Lemma sanitized_char_valid (c : ascii) :
  mem_char (HelpersMore.sanitized_char c) Helpers.invalid_chars = false.
Proof. destruct c as [[] [] [] [] [] [] [] []]; reflexivity. Qed.

Lemma sanitized_char_fixes (c : ascii) :
  mem_char c Helpers.invalid_chars = false -> HelpersMore.sanitized_char c = c.
Proof. unfold HelpersMore.sanitized_char. now intros ->. Qed.

Lemma replace_chain (bad : list ascii) (s : string) :
  fold_left (fun filename char => replace_char char "_" filename) bad s
  = smap (fun c => fold_left (fun ch b => if Ascii.eqb ch b then "_"%char else ch)
                             bad c) s.
Proof.
  revert s. induction bad as [|b bad IH]; intros s; simpl.
  - induction s as [|c s IHs]; simpl; congruence.
  - rewrite IH. unfold replace_char. now rewrite smap_smap.
Qed.

Lemma sanitize_replaces (filename : string) :
  fold_left (fun filename char => replace_char char "_" filename)
            (list_ascii_of_string Helpers.invalid_chars) filename
  = smap HelpersMore.sanitized_char filename.
Proof.
  rewrite replace_chain. apply smap_ext, sanitized_char_chain.
Qed.

Section Strip.

Variable drop : ascii -> bool.

Lemma lstrip_starts_kept (s : string) : HelpersMore.starts_kept drop (lstrip_by drop s).
Proof.
  induction s as [|c s IH]; simpl; [exact I|].
  destruct (drop c) eqn:E; [exact IH | exact E].
Qed.

Lemma lstrip_of_starts_kept (s : string) :
  HelpersMore.starts_kept drop s -> lstrip_by drop s = s.
Proof. destruct s as [|c s]; simpl; [reflexivity|]. now intros ->. Qed.

Lemma rstrip_starts_kept (s : string) :
  HelpersMore.starts_kept drop s -> HelpersMore.starts_kept drop (rstrip_by drop s).
Proof.
  destruct s as [|c s]; simpl; [exact id|]. intros E. now rewrite E.
Qed.

Lemma rstrip_idempotent (s : string) :
  rstrip_by drop (rstrip_by drop s) = rstrip_by drop s.
Proof.
  induction s as [|c s IH]; simpl; [reflexivity|].
  destruct (drop c && is_empty (rstrip_by drop s)) eqn:E; [reflexivity|].
  simpl. rewrite IH, E. reflexivity.
Qed.

Lemma strip_idempotent (s : string) :
  strip_by drop (strip_by drop s) = strip_by drop s.
Proof.
  unfold strip_by.
  rewrite (lstrip_of_starts_kept (rstrip_by drop (lstrip_by drop s))).
  - apply rstrip_idempotent.
  - apply rstrip_starts_kept, lstrip_starts_kept.
Qed.

Lemma mem_lstrip (c : ascii) (s : string) :
  mem_char c (lstrip_by drop s) = true -> mem_char c s = true.
Proof.
  induction s as [|d s IH]; simpl; [discriminate|].
  destruct (drop d); simpl; [|exact id].
  intros H. rewrite (IH H). apply orb_true_r.
Qed.

Lemma mem_rstrip (c : ascii) (s : string) :
  mem_char c (rstrip_by drop s) = true -> mem_char c s = true.
Proof.
  induction s as [|d s IH]; simpl; [discriminate|].
  destruct (drop d && is_empty (rstrip_by drop s)); simpl; [discriminate|].
  intros H. apply orb_true_iff in H. destruct H as [->|H]; [reflexivity|].
  rewrite (IH H). apply orb_true_r.
Qed.

Lemma mem_strip (c : ascii) (s : string) :
  mem_char c (strip_by drop s) = true -> mem_char c s = true.
Proof. intros H. now apply mem_lstrip, mem_rstrip. Qed.

End Strip.

Lemma invalid_not_in_unnamed (c : ascii) :
  mem_char c Helpers.invalid_chars = true -> mem_char c "unnamed" = false.
Proof. destruct c as [[] [] [] [] [] [] [] []]; simpl; congruence. Qed.

(** X1.  Whatever the file name, the result of [sanitize_filename] is not
    empty, contains none of the characters [< > : double-quote / \ | ? *],
    neither starts nor ends with a space or a dot (stripping it again
    changes nothing), and is a fixed point of [sanitize_filename]. *)
Theorem X1_sanitize_filename_is_safe_and_idempotent (filename : string) :
  let r := Helpers.sanitize_filename filename in
  is_empty r = false
  /\ (forall c, mem_char c Helpers.invalid_chars = true -> mem_char c r = false)
  /\ strip_chars ". " r = r
  /\ Helpers.sanitize_filename r = r.
Proof.
  cbv zeta.
  assert (A : forall f,
             is_empty (Helpers.sanitize_filename f) = false
             /\ (forall c, mem_char c Helpers.invalid_chars = true ->
                           mem_char c (Helpers.sanitize_filename f) = false)
             /\ strip_chars ". " (Helpers.sanitize_filename f)
                = Helpers.sanitize_filename f).
  { intros f. unfold Helpers.sanitize_filename. rewrite sanitize_replaces.
    destruct (is_empty (strip_chars ". " (smap HelpersMore.sanitized_char f)))
      eqn:E.
    - repeat split; [apply invalid_not_in_unnamed].
    - split; [exact E|]. split; [|apply strip_idempotent].
      intros c Hc. destruct (mem_char c (strip_chars ". " _)) eqn:M;
        [|reflexivity].
      apply mem_strip, mem_smap in M. destruct M as [d <-].
      now rewrite sanitized_char_valid in Hc. }
  destruct (A filename) as (E & V & S). repeat split; try assumption.
  unfold Helpers.sanitize_filename at 1. rewrite sanitize_replaces.
  rewrite smap_fixes.
  - rewrite S, E. reflexivity.
  - intros c Hc. apply sanitized_char_fixes.
    destruct (mem_char c Helpers.invalid_chars) eqn:I; [|reflexivity].
    now rewrite (V c I) in Hc.
Qed.

(* ================================================================== *)
(** ** utils/helpers.py: the version pattern and the validator *)
(* ================================================================== *)

Lemma join_dot (g : string) (rest : list string) :
  join "." (g :: rest) = g ++ HelpersMore.tail_groups rest.
Proof.
  revert g. induction rest as [|x rest IH]; intros g.
  - simpl. now rewrite sapp_nil_r.
  - change (join "." (g :: x :: rest)) with (g ++ "." ++ join "." (x :: rest)).
    rewrite IH. reflexivity.
Qed.

Lemma digit_not_dot (c : ascii) :
  Helpers.is_digit c = true -> Ascii.eqb c "." = false /\ Ascii.eqb c LF = false.
Proof. destruct c as [[] [] [] [] [] [] [] []]; simpl; intros H; now try discriminate H. Qed.

Lemma version_groups_digits (x rem : string) (b : bool) :
  forallb Helpers.is_digit (list_ascii_of_string x) = true ->
  Helpers.version_groups b (x ++ rem)
  = Helpers.version_groups (b || negb (is_empty x)) rem.
Proof.
  revert b. induction x as [|c x IH]; intros b; simpl.
  - intros _. now rewrite orb_false_r.
  - intros H. apply andb_true_iff in H. destruct H as [Hc Hx].
    rewrite Hc, (IH true Hx), orb_true_r. reflexivity.
Qed.

Lemma version_groups_tail (rest : list string) (tail : string) :
  forallb HelpersMore.all_digits rest = true ->
  tail = EmptyString \/ tail = nl ->
  Helpers.version_groups true (HelpersMore.tail_groups rest ++ tail) = true.
Proof.
  intros Hr Ht. induction rest as [|x rest IH]; simpl.
  - destruct Ht as [->| ->]; reflexivity.
  - simpl in Hr. apply andb_true_iff in Hr. destruct Hr as [Hx Hr].
    unfold HelpersMore.all_digits in Hx.
    apply andb_true_iff in Hx. destruct Hx as [Hne Hd].
    rewrite sapp_assoc, (version_groups_digits x _ false Hd), Hne.
    now apply IH.
Qed.

Lemma version_groups_shape (s : string) (b : bool) :
  Helpers.version_groups b s = true ->
  exists g rest tail,
    s = g ++ HelpersMore.tail_groups rest ++ tail
    /\ forallb Helpers.is_digit (list_ascii_of_string g) = true
    /\ (b = false -> is_empty g = false)
    /\ forallb HelpersMore.all_digits rest = true
    /\ (tail = EmptyString \/ tail = nl).
Proof.
  revert b. induction s as [|c s IH]; intros b; simpl.
  - intros ->. exists EmptyString, [], EmptyString.
    repeat split; auto; discriminate.
  - destruct (Helpers.is_digit c) eqn:Hd.
    + intros H. destruct (IH true H) as (g & rest & tail & E & Dg & _ & Dr & T).
      exists (String c g), rest, tail.
      split; [simpl; f_equal; exact E|].
      split; [simpl; now rewrite Hd|].
      split; [reflexivity|]. now split.
    + destruct (Ascii.eqb_spec c ".") as [->|Hdot].
      * intros H. apply andb_true_iff in H. destruct H as [-> H].
        destruct (IH false H) as (g & rest & tail & E & Dg & Ng & Dr & T).
        exists EmptyString, (g :: rest), tail.
        split.
        { cbn [HelpersMore.tail_groups]. rewrite !sapp_assoc.
          simpl. f_equal. exact E. }
        split; [reflexivity|]. split; [discriminate|]. split; [|exact T].
        simpl. unfold HelpersMore.all_digits at 1.
        now rewrite (Ng eq_refl), Dg.
      * destruct (Ascii.eqb_spec c LF) as [->|Hlf]; [|discriminate].
        intros H. apply andb_true_iff in H. destruct H as [-> H].
        destruct s; [|discriminate].
        exists EmptyString, [], nl. repeat split; auto; discriminate.
Qed.

(** The language of the version pattern. *)
Lemma version_pattern_language (s : string) :
  Helpers.version_pattern_match s = true
  <-> exists groups,
        HelpersMore.dotted groups
        /\ (s = join "." groups \/ s = join "." groups ++ nl).
Proof.
  unfold Helpers.version_pattern_match. split.
  - intros H.
    destruct (version_groups_shape s false H)
      as (g & rest & tail & E & Dg & Ng & Dr & T).
    exists (g :: rest). split.
    + split; [discriminate|]. simpl. unfold HelpersMore.all_digits at 1.
      now rewrite (Ng eq_refl), Dg, Dr.
    + rewrite join_dot, sapp_assoc.
      destruct T as [->| ->]; [left | right]; [|exact E].
      now rewrite sapp_nil_r in E.
  - intros (groups & [Hne Hd] & E).
    destruct groups as [|g rest]; [now elim Hne|].
    simpl in Hd. apply andb_true_iff in Hd. destruct Hd as [Hg Hr].
    unfold HelpersMore.all_digits in Hg.
    apply andb_true_iff in Hg. destruct Hg as [Hn Hdg].
    assert (F : forall tail, tail = EmptyString \/ tail = nl ->
                Helpers.version_groups
                  false (g ++ HelpersMore.tail_groups rest ++ tail) = true).
    { intros tail T. rewrite (version_groups_digits g _ false Hdg), Hn.
      now apply version_groups_tail. }
    rewrite join_dot in E. destruct E as [->| ->].
    + rewrite <- (sapp_nil_r (g ++ _)), sapp_assoc. apply F. now left.
    + rewrite sapp_assoc. apply F. now right.
Qed.

Lemma file_warnings_fold (w : World) (files : list FileEntry.t)
    (warnings : list string) :
  fold_left
    (fun warnings file_entry =>
       Helpers.append_if
         (negb (FileEntry.is_directory file_entry)
          && negb (path_exists w (FileEntry.source_path file_entry)))
         warnings
         ("File not found: " ++ FileEntry.source_path file_entry))
    files warnings
  = app warnings
        (map (fun f => "File not found: " ++ FileEntry.source_path f)
             (filter (HelpersMore.missing_source w) files)).
Proof.
  revert warnings. induction files as [|f files IH]; intros warnings; simpl.
  - now rewrite app_nil_r.
  - rewrite IH. unfold HelpersMore.missing_source at 2.
    destruct (negb (FileEntry.is_directory f)
              && negb (path_exists w (FileEntry.source_path f))); simpl.
    + now rewrite <- app_assoc.
    + reflexivity.
Qed.

Lemma validator_warnings_shape (w : World) (project : ProjectConfig.t) :
  snd (Helpers.validate_project w project)
  = (HelpersMore.icon_warning w project
     ++ HelpersMore.license_warning w project
     ++ HelpersMore.certificate_warning w project
     ++ HelpersMore.file_warnings w project
     ++ HelpersMore.version_warning project
     ++ HelpersMore.placeholder_warning project)%list.
Proof.
  unfold Helpers.validate_project. cbv zeta. cbn [snd].
  rewrite file_warnings_fold.
  unfold HelpersMore.icon_warning, HelpersMore.license_warning,
    HelpersMore.certificate_warning, HelpersMore.file_warnings,
    HelpersMore.version_warning, HelpersMore.placeholder_warning,
    HelpersMore.warn_if, Helpers.append_if.
  destruct (negb (is_empty (ProjectConfig.icon_path project))
            && negb (path_exists w (ProjectConfig.icon_path project)));
    destruct (ProjectConfig.license_enabled project
              && negb (is_empty (ProjectConfig.license_file project))
              && negb (path_exists w (ProjectConfig.license_file project)));
    destruct (ProjectConfig.sign_installer project
              && negb (is_empty (ProjectConfig.certificate_path project))
              && negb (path_exists w (ProjectConfig.certificate_path project)));
    destruct (negb (is_empty (ProjectConfig.version project)));
    destruct (negb (Helpers.version_pattern_match
                      (ProjectConfig.version project)));
    destruct (negb (is_empty (ProjectConfig.default_install_dir project)));
    destruct (negb (contains "{name}"
                             (ProjectConfig.default_install_dir project)));
    cbn [app]; repeat rewrite <- app_assoc; cbn [app];
    rewrite ?app_nil_r; reflexivity.
Qed.

(** X3.  The verdict of the validator depends on four things only: the name
    and the version are not blank, the output directory is named, and, if it
    exists, the write probe succeeds (a directory that does not exist is
    accepted).  The verdict is [True] exactly when the list of errors is
    empty, and there are never more than three errors. *)
Theorem X3_validator_verdict (w : World) (project : ProjectConfig.t) :
  let result := Helpers.validate_project w project in
  fst (fst result) = HelpersMore.verdict w project
  /\ (fst (fst result) = true <-> snd (fst result) = [])
  /\ (length (snd (fst result)) <= 3)%nat.
Proof.
  unfold Helpers.validate_project, HelpersMore.verdict, Helpers.field_set.
  cbv zeta. cbn [fst snd].
  destruct (is_empty (ProjectConfig.name project)),
           (is_empty (strip (ProjectConfig.name project))),
           (is_empty (ProjectConfig.version project)),
           (is_empty (strip (ProjectConfig.version project))),
           (is_empty (ProjectConfig.output_dir project)),
           (path_exists w (ProjectConfig.output_dir project)),
           (write_probe w (ProjectConfig.output_dir project));
    simpl; repeat split; intros; try discriminate; try reflexivity; lia.
Qed.

(** X4.  The warnings of the validator are, in this order: the missing icon,
    the missing license file, the missing certificate, one warning for every
    file entry that is not a directory and whose source is missing, in the
    order of the file list, the version format, and the missing placeholder.
    Each of the five single warnings is present or absent on its own
    condition, whatever the others and the errors are. *)
Theorem X4_validator_warnings (w : World) (project : ProjectConfig.t) :
  snd (Helpers.validate_project w project)
  = (HelpersMore.icon_warning w project
     ++ HelpersMore.license_warning w project
     ++ HelpersMore.certificate_warning w project
     ++ HelpersMore.file_warnings w project
     ++ HelpersMore.version_warning project
     ++ HelpersMore.placeholder_warning project)%list.
Proof. apply validator_warnings_shape. Qed.

(** X2.  The version pattern accepts exactly the strings made of groups of
    decimal digits separated by single dots, each group non-empty, with an
    optional line feed after the last group: [1.0] is accepted, [v1.0], a
    leading, trailing or doubled dot and the empty string are not.  The
    validator gives the warning on the version format exactly when the
    version is not empty and the pattern rejects it: the empty version gets
    no such warning. *)
Theorem X2_version_pattern_language (w : World) (project : ProjectConfig.t)
    (s : string) :
  (Helpers.version_pattern_match s = true
   <-> exists groups,
         HelpersMore.dotted groups
         /\ (s = join "." groups \/ s = join "." groups ++ nl))
  /\ (In ("Version format should be like '1.0.0': "
          ++ ProjectConfig.version project)
         (snd (Helpers.validate_project w project))
      <-> is_empty (ProjectConfig.version project) = false
          /\ Helpers.version_pattern_match (ProjectConfig.version project)
             = false).
Proof.
  split; [apply version_pattern_language|].
  rewrite validator_warnings_shape.
  unfold HelpersMore.icon_warning, HelpersMore.license_warning,
    HelpersMore.certificate_warning, HelpersMore.file_warnings,
    HelpersMore.version_warning, HelpersMore.placeholder_warning,
    HelpersMore.warn_if.
  rewrite !in_app_iff. split.
  - intros [H|[H|[H|[H|[H|H]]]]].
    + destruct (_ && _); simpl in H; [destruct H as [H|[]]|contradiction];
        discriminate H.
    + destruct (_ && _); simpl in H; [destruct H as [H|[]]|contradiction];
        discriminate H.
    + destruct (_ && _); simpl in H; [destruct H as [H|[]]|contradiction];
        discriminate H.
    + apply in_map_iff in H. destruct H as (f & H & _). discriminate H.
    + destruct (negb (is_empty (ProjectConfig.version project))) eqn:E;
        [|contradiction].
      destruct (negb (Helpers.version_pattern_match
                        (ProjectConfig.version project))) eqn:F;
        [|contradiction].
      apply negb_true_iff in E, F. now split.
    + destruct (_ && _); simpl in H; [destruct H as [H|[]]|contradiction];
        discriminate H.
  - intros [E F]. right. right. right. right. left.
    rewrite E, F. now left.
Qed.


(* ================================================================== *)
(** ** utils/helpers.py: [is_binary_file] *)
(* ================================================================== *)

(** X5.  [is_binary_file] looks at the first 1024 bytes only: for a file
    that starts with 1024 bytes [head], the answer is whether [head] holds a
    zero byte, whatever follows. *)
Theorem X5_is_binary_file_reads_one_chunk
    (open_rb : string -> option (list byte)) (file_path : string)
    (head rest : list byte) :
  open_rb file_path = Some (head ++ rest)%list ->
  length head = 1024%nat ->
  HelpersMore.is_binary_file open_rb file_path = existsb (Byte.eqb x00) head.
Proof.
  intros Ho Hl. unfold HelpersMore.is_binary_file. rewrite Ho. cbv zeta.
  rewrite <- Hl, firstn_app, firstn_all, Nat.sub_diag. cbn [firstn].
  now rewrite app_nil_r.
Qed.

(** X5 at work: a zero byte right after the first 1024 bytes is not seen. *)
Lemma X5_is_binary_file_reads_one_chunk_witness :
  HelpersMore.is_binary_file Cases.late_zero "C:\src\blob.bin" = false.
Proof.
  rewrite (X5_is_binary_file_reads_one_chunk
             Cases.late_zero "C:\src\blob.bin" Cases.text_kilobyte [x00]).
  - vm_compute. reflexivity.
  - reflexivity.
  - vm_compute. reflexivity.
Defined.

(* ================================================================== *)
(** ** core/models.py: what reading a document guarantees *)
(* ================================================================== *)

Ltac bind_inversion H :=
  repeat match type of H with
         | rbind ?m _ = Ok _ =>
             let E := fresh "E" in
             destruct m eqn:E; cbn [rbind] in H; [|discriminate H]
         end.

Lemma post_init_has_id (w : World) (i : nat) (e : ScriptElement.t) :
  is_empty (ScriptElement.id (ScriptElement.post_init w i e)) = false.
Proof.
  unfold ScriptElement.post_init. simpl.
  destruct (is_empty (ScriptElement.id e)) eqn:E; simpl; [|exact E].
  destruct (ScriptElement.type e); reflexivity.
Qed.

Lemma read_script_element_has_id (w : World) (i : nat) (data : pyval)
    (e : ScriptElement.t) :
  ScriptElement.from_dict w i data = Ok e ->
  is_empty (ScriptElement.id e) = false.
Proof.
  intros H. unfold ScriptElement.from_dict in H.
  destruct data; try discriminate H.
  bind_inversion H. injection H as <-. apply post_init_has_id.
Qed.

(** X6.  Whatever the document holds, a script element that
    [ScriptElement.from_dict] returns has a non-empty id: an absent id is
    drawn at random, an empty one is replaced. *)
Theorem X6_read_script_element_has_id (w : World) (i : nat) (data : pyval)
    (e : ScriptElement.t) :
  ScriptElement.from_dict w i data = Ok e ->
  is_empty (ScriptElement.id e) = false.
Proof. apply read_script_element_has_id. Qed.

(** X6 at work: the id of the document is the empty string. *)
Lemma X6_read_script_element_has_id_witness :
  exists e,
    ScriptElement.from_dict
      Scenario.disk 0
      (PDict [ ("type", PStr "run_script"); ("name", PStr "hello");
               ("id", PStr EmptyString) ]) = Ok e
    /\ is_empty (ScriptElement.id e) = false.
Proof.
  eexists. split; [reflexivity|].
  apply (X6_read_script_element_has_id
           Scenario.disk 0
           (PDict [ ("type", PStr "run_script"); ("name", PStr "hello");
                    ("id", PStr EmptyString) ])).
  reflexivity.
Defined.

Lemma post_init_settles (w : World) (f : FileEntry.t) :
  ProjectConfig.hash_settled w (FileEntry.post_init w f) = true.
Proof.
  destruct f as [src dst bin dir cmp h ver descr].
  unfold ProjectConfig.hash_settled, FileEntry.post_init,
    FileEntry.calculate_hash, FileEntry.set_hash; simpl.
  destruct h as [|c h]; simpl; [|reflexivity].
  destruct (path_exists w src) eqn:Ex, dir; simpl; rewrite ?Ex; simpl;
    try reflexivity.
  destruct (sha256_hexdigest w src) as [[|c d]|]; simpl; rewrite ?Ex; simpl;
    reflexivity.
Qed.

Lemma FileEntry_read_is_settled (w : World) (data : pyval) (f : FileEntry.t) :
  FileEntry.from_dict w data = Ok f -> ProjectConfig.hash_settled w f = true.
Proof.
  intros H. unfold FileEntry.from_dict in H.
  bind_inversion H. injection H as <-. apply post_init_settles.
Qed.

Lemma rmapM_forallb {A B} (f : A -> result B) (P : B -> bool) (l : list A)
    (l' : list B) :
  (forall x y, f x = Ok y -> P y = true) ->
  rmapM f l = Ok l' -> forallb P l' = true.
Proof.
  intros Hf. revert l'. induction l as [|x l IH]; intros l' H; simpl in H.
  - injection H as <-. reflexivity.
  - bind_inversion H. injection H as <-. simpl.
    now rewrite (Hf _ _ E), (IH _ eq_refl).
Qed.

Lemma rmapMi_forallb {A B} (f : nat -> A -> result B) (P : B -> bool)
    (l : list A) (i : nat) (l' : list B) :
  (forall j x y, f j x = Ok y -> P y = true) ->
  rmapMi f i l = Ok l' -> forallb P l' = true.
Proof.
  intros Hf. revert i l'. induction l as [|x l IH]; intros i l' H; simpl in H.
  - injection H as <-. reflexivity.
  - bind_inversion H. injection H as <-. simpl.
    now rewrite (Hf _ _ _ E), (IH _ _ E0).
Qed.

Lemma init_keeps_lists (w : World) (fl : list FileEntry.t)
    (el : list ScriptElement.t) (sl : list ShortcutConfig.t)
    (rl : list RegistryEntry.t) (dl : list Dependency.t) (kw : dict)
    (p : ProjectConfig.t) :
  ProjectConfig.init w fl el sl rl dl kw = Ok p ->
  ProjectConfig.files p = fl /\ ProjectConfig.script_elements p = el.
Proof.
  intros H. unfold ProjectConfig.init in H.
  bind_inversion H. injection H as <-. split; reflexivity.
Qed.

Lemma read_project_reads_back (w : World) (document : pyval)
    (p : ProjectConfig.t) :
  ProjectConfig.from_dict w document = Ok p ->
  ProjectConfig.reads_back w p = true.
Proof.
  intros H. unfold ProjectConfig.from_dict in H.
  destruct document; try discriminate H.
  bind_inversion H.
  apply init_keeps_lists in H. destruct H as [Hf He].
  unfold ProjectConfig.reads_back. rewrite Hf, He.
  apply andb_true_iff. split.
  - eapply rmapM_forallb; [|eassumption].
    intros x y. apply FileEntry_read_is_settled.
  - eapply rmapMi_forallb; [|eassumption].
    intros j x y Hy. apply negb_true_iff.
    now apply (read_script_element_has_id w j x y).
Qed.

(** X7.  A project that was read from a document is written and read back
    unchanged on the same machine: if [from_dict] returns [p] for some
    document, then [from_dict] of [to_dict p] returns [p] again, whatever
    the document was. *)
Theorem X7_read_project_is_stable (w : World) (document : pyval)
    (p : ProjectConfig.t) :
  ProjectConfig.from_dict w document = Ok p ->
  ProjectConfig.from_dict w (ProjectConfig.to_dict p) = Ok p.
Proof.
  intros H. apply read_project_reads_back in H.
  pose proof (older_document_read_back
                w ProjectConfig.nothing_missing p H) as E.
  destruct p; exact E.
Qed.

(** X7 at work: the document of [Scenario.demo], read on [Scenario.disk],
    gives a project with a computed hash; that project reads back as
    itself. *)
Lemma X7_read_project_is_stable_witness :
  exists p,
    ProjectConfig.from_dict Scenario.disk (ProjectConfig.to_dict Scenario.demo)
    = Ok p
    /\ p <> Scenario.demo
    /\ ProjectConfig.from_dict Scenario.disk (ProjectConfig.to_dict p) = Ok p.
Proof.
  destruct (ProjectConfig.from_dict
              Scenario.disk (ProjectConfig.to_dict Scenario.demo))
    as [p|e] eqn:E.
  - exists p. split; [reflexivity|]. split.
    + intros ->. vm_compute in E. discriminate E.
    + apply (X7_read_project_is_stable
               Scenario.disk (ProjectConfig.to_dict Scenario.demo) p E).
  - vm_compute in E. discriminate E.
Defined.

Lemma mem_str_In (k : string) (l : list string) :
  mem_str k l = true <-> In k l.
Proof.
  unfold mem_str. rewrite existsb_exists. split.
  - intros (x & Hx & E). apply String.eqb_eq in E. now subst.
  - intros H. exists k. split; [exact H | apply String.eqb_refl].
Qed.

Lemma dict_del_keeps (d : dict) (k k' : string) :
  k <> k' -> In k (dict_keys d) -> In k (dict_keys (dict_del d k')).
Proof.
  intros Hne. induction d as [|[a v] d IH]; simpl; [exact id|].
  intros [->|H].
  - destruct (String.eqb_spec k' k) as [E|_]; [now elim Hne | now left].
  - destruct (String.eqb k' a); [now apply IH | right; now apply IH].
Qed.

Lemma dict_dels_keep (ks : list string) (d : dict) (k : string) :
  ~ In k ks -> In k (dict_keys d) ->
  In k (dict_keys (fold_left dict_del ks d)).
Proof.
  revert d. induction ks as [|k' ks IH]; intros d Hn H; simpl; [exact H|].
  apply IH.
  - intros Hk. apply Hn. now right.
  - apply dict_del_keeps; [|exact H]. intros ->. apply Hn. now left.
Qed.

Lemma setdefault_keeps (d : dict) (k k' : string) (v : pyval) :
  In k (dict_keys d) -> In k (dict_keys (dict_setdefault d k' v)).
Proof.
  intros H. unfold dict_setdefault. destruct (dict_has d k'); [exact H|].
  unfold dict_keys. rewrite map_app, in_app_iff. now left.
Qed.

Lemma unknown_key_fails (fields : list string) (d : dict) (k : string) :
  In k (dict_keys d) -> mem_str k fields = false ->
  check_kwargs fields d
  = Raise (TypeError "got an unexpected keyword argument").
Proof.
  intros Hin Hk. unfold check_kwargs.
  destruct (forallb (fun k0 => mem_str k0 fields) (dict_keys d)) eqn:E;
    [|reflexivity].
  rewrite forallb_forall in E. now rewrite (E k Hin) in Hk.
Qed.

(** X8.  A project document that holds a key which is not a field of
    [ProjectConfig] is never read: [from_dict] raises on it, whatever the
    rest of the document is. *)
Theorem X8_unknown_project_key_is_refused (w : World) (d : dict) (k : string) :
  In k (dict_keys d) ->
  mem_str k ProjectConfig.fields = false ->
  exists e, ProjectConfig.from_dict w (PDict d) = Raise e.
Proof.
  intros Hin Hk. unfold ProjectConfig.from_dict.
  repeat match goal with
         | |- exists e, rbind ?m _ = Raise e =>
             destruct m; cbn [rbind]; [|eexists; reflexivity]
         end.
  unfold ProjectConfig.init.
  rewrite (unknown_key_fails ProjectConfig.fields _ k); [| |exact Hk].
  - eexists. reflexivity.
  - unfold ProjectConfig.backfill. repeat apply setdefault_keeps.
    apply dict_dels_keep; [|exact Hin].
    intros Hs. apply mem_str_In in Hs.
    assert (F : mem_str k ProjectConfig.fields = true).
    { apply mem_str_In. apply mem_str_In in Hs.
      simpl in Hs. simpl. intuition. }
    now rewrite F in Hk.
Qed.

(** X8 at work: a document with the key [notes]. *)
Lemma X8_unknown_project_key_is_refused_witness :
  exists e,
    ProjectConfig.from_dict
      Scenario.disk (PDict [ ("name", PStr "Demo"); ("notes", PStr "draft") ])
    = Raise e.
Proof.
  apply (X8_unknown_project_key_is_refused
           Scenario.disk [ ("name", PStr "Demo"); ("notes", PStr "draft") ]
           "notes").
  - simpl. auto.
  - reflexivity.
Defined.

Lemma dict_del_lookup_other (d : dict) (k k' : string) :
  k' <> k -> dict_lookup (dict_del d k) k' = dict_lookup d k'.
Proof.
  intros Hne. induction d as [|[a v] d IH]; simpl; [reflexivity|].
  destruct (String.eqb_spec k a) as [->|Hka].
  - destruct (String.eqb_spec k' a) as [E|_]; [now elim Hne | exact IH].
  - simpl. now rewrite IH.
Qed.

Lemma known_key_is_not (k k' : string) :
  mem_str k Cases.known_keys = false ->
  mem_str k' Cases.known_keys = true -> k' <> k.
Proof. intros H H' ->. now rewrite H in H'. Qed.

Lemma not_known_not_field (k : string) (fields : list string) :
  mem_str k Cases.known_keys = false ->
  (forall x, In x fields -> In x Cases.known_keys) ->
  mem_str k fields = false.
Proof.
  intros H Hsub. destruct (mem_str k fields) eqn:E; [|reflexivity].
  apply mem_str_In, Hsub, mem_str_In in E. now rewrite E in H.
Qed.

(** X9.  The entry classes treat a key they do not know differently.
    [ScriptElement.from_dict] ignores it: the result is the same with and
    without the key.  The other four classes refuse the whole dict with a
    [TypeError]. *)
Theorem X9_unknown_entry_key (w : World) (i : nat) (d : dict) (k : string) :
  In k (dict_keys d) ->
  mem_str k Cases.known_keys = false ->
  ScriptElement.from_dict w i (PDict d)
  = ScriptElement.from_dict w i (PDict (dict_del d k))
  /\ FileEntry.from_dict w (PDict d)
     = Raise (TypeError "got an unexpected keyword argument")
  /\ ShortcutConfig.from_dict (PDict d)
     = Raise (TypeError "got an unexpected keyword argument")
  /\ RegistryEntry.from_dict (PDict d)
     = Raise (TypeError "got an unexpected keyword argument")
  /\ Dependency.from_dict (PDict d)
     = Raise (TypeError "got an unexpected keyword argument").
Proof.
  intros Hin Hk. split.
  - unfold ScriptElement.from_dict, ScriptElement.subscript, dict_get, kw_bool.
    rewrite !(dict_del_lookup_other d k)
      by (apply (known_key_is_not k); [exact Hk | reflexivity]).
    reflexivity.
  - assert (R : forall fields,
               (forall x, In x fields -> In x Cases.known_keys) ->
               check_kwargs fields d
               = Raise (TypeError "got an unexpected keyword argument")).
    { intros fields Hsub. apply (unknown_key_fails fields d k Hin).
      now apply not_known_not_field. }
    unfold FileEntry.from_dict, ShortcutConfig.from_dict,
      RegistryEntry.from_dict, Dependency.from_dict. cbn [as_dict rbind].
    rewrite !R; [repeat split | | | |];
      intros x Hx; unfold Cases.known_keys; rewrite !in_app_iff; auto 6.
Qed.

(** X9 at work: the dict [Cases.annotated] has the key [comment]. *)
Lemma X9_unknown_entry_key_witness :
  ScriptElement.from_dict Scenario.disk 0 (PDict Cases.annotated)
  = ScriptElement.from_dict Scenario.disk 0
      (PDict [ ("name", PStr "Demo"); ("type", PStr "run_script") ])
  /\ Dependency.from_dict (PDict Cases.annotated)
     = Raise (TypeError "got an unexpected keyword argument").
Proof.
  destruct (X9_unknown_entry_key Scenario.disk 0 Cases.annotated "comment")
    as (A & _ & _ & _ & B).
  - simpl. auto.
  - reflexivity.
  - split; [exact A | exact B].
Defined.

(** X10.  Two script elements with the same id are equal for [__eq__]
    whatever else they hold, but [__hash__] hashes the type, the name and the
    id: when their names differ, equal elements are hashed from different
    tuples. *)
Theorem X10_equal_elements_hash_differently (a b : ScriptElement.t) :
  ScriptElement.id a = ScriptElement.id b ->
  ScriptElement.name a <> ScriptElement.name b ->
  ScriptElementIdentity.__eq__ a b = true
  /\ ScriptElementIdentity.hashed a <> ScriptElementIdentity.hashed b.
Proof.
  intros Hid Hname. split.
  - unfold ScriptElementIdentity.__eq__. rewrite Hid. apply String.eqb_refl.
  - unfold ScriptElementIdentity.hashed. intros E.
    injection E as _ En _. now apply Hname.
Qed.

(** X10 at work: an element and its renamed copy. *)
Lemma X10_equal_elements_hash_differently_witness :
  ScriptElementIdentity.__eq__ (Cases.element "aaaa0001" "first")
                               (Cases.element "aaaa0001" "renamed") = true
  /\ ScriptElementIdentity.hashed (Cases.element "aaaa0001" "first")
     <> ScriptElementIdentity.hashed (Cases.element "aaaa0001" "renamed").
Proof.
  apply (X10_equal_elements_hash_differently
           (Cases.element "aaaa0001" "first")
           (Cases.element "aaaa0001" "renamed")).
  - reflexivity.
  - discriminate.
Defined.

(* ================================================================== *)
(** ** ui/main_window.py: moving a script element *)
(* ================================================================== *)

Lemma swap_items_cons {A} (a : A) (l : list A) (i j : nat) :
  MainWindow.swap_items (a :: l) (S i) (S j)
  = a :: MainWindow.swap_items l i j.
Proof.
  unfold MainWindow.swap_items. simpl.
  destruct (nth_error l j), (nth_error l i); reflexivity.
Qed.

Lemma swap_adjacent_cons {A} (a : A) (l : list A) (i : nat) :
  MainWindow.swap_adjacent (a :: l) (S i)
  = a :: MainWindow.swap_adjacent l i.
Proof. destruct l; reflexivity. Qed.

Lemma swap_items_down {A} (l : list A) (i : nat) :
  MainWindow.swap_items l i (S i) = MainWindow.swap_adjacent l i.
Proof.
  revert i. induction l as [|a l IH]; intros [|i]; try reflexivity.
  - destruct l as [|b r]; reflexivity.
  - rewrite swap_items_cons, IH, swap_adjacent_cons. reflexivity.
Qed.

Lemma swap_items_up {A} (l : list A) (i : nat) :
  MainWindow.swap_items l (S i) i = MainWindow.swap_adjacent l i.
Proof.
  revert i. induction l as [|a l IH]; intros [|i]; try reflexivity.
  - destruct l as [|b r]; reflexivity.
  - rewrite swap_items_cons, IH, swap_adjacent_cons. reflexivity.
Qed.

Lemma swap_adjacent_permutation {A} (l : list A) (i : nat) :
  Permutation l (MainWindow.swap_adjacent l i).
Proof.
  revert i. induction l as [|a l IH]; intros [|i];
    rewrite ?swap_adjacent_cons; auto.
  destruct l as [|b r]; [auto | apply perm_swap].
Qed.

Lemma swap_adjacent_involutive {A} (l : list A) (i : nat) :
  MainWindow.swap_adjacent (MainWindow.swap_adjacent l i) i = l.
Proof.
  revert i. induction l as [|a l IH]; intros [|i];
    rewrite ?swap_adjacent_cons; auto.
  - destruct l as [|b r]; reflexivity.
  - now rewrite IH.
Qed.

Lemma swap_adjacent_length {A} (l : list A) (i : nat) :
  length (MainWindow.swap_adjacent l i) = length l.
Proof. symmetry. apply Permutation_length, swap_adjacent_permutation. Qed.

Lemma index_from_lower (l : list ScriptElement.t) (x : ScriptElement.t)
    (k n : nat) :
  MainWindow.index_from l x k = Ok n -> (k <= n < k + length l)%nat.
Proof.
  revert k. induction l as [|y l IH]; intros k; simpl; [discriminate|].
  destruct (ScriptElementIdentity.__eq__ y x).
  - intros H. injection H as <-. lia.
  - intros H. apply IH in H. lia.
Qed.

Lemma index_after_swap (l : list ScriptElement.t) (x : ScriptElement.t)
    (k i : nat) :
  MainWindow.index_from l x k = Ok (k + S i)%nat ->
  MainWindow.index_from (MainWindow.swap_adjacent l i) x k = Ok (k + i)%nat.
Proof.
  revert k l. induction i as [|i IH]; intros k [|a l];
    rewrite ?swap_adjacent_cons; try discriminate.
  - cbn [MainWindow.index_from].
    destruct (ScriptElementIdentity.__eq__ a x) eqn:Ea.
    + intros H. injection H as H. lia.
    + destruct l as [|b r]; cbn [MainWindow.index_from MainWindow.swap_adjacent];
        [discriminate|].
      destruct (ScriptElementIdentity.__eq__ b x) eqn:Eb.
      * intros _. f_equal. lia.
      * intros H. apply index_from_lower in H. lia.
  - cbn [MainWindow.index_from].
    destruct (ScriptElementIdentity.__eq__ a x) eqn:Ea.
    + intros H. injection H as H. lia.
    + intros H. replace (k + S (S i))%nat with (S k + S i)%nat in H by lia.
      apply IH in H. rewrite H. f_equal. lia.
Qed.

(** X11.  [move_script_up] and [move_script_down] only reorder: when they
    return, the new sequence is a permutation of the old one, so no script
    element is lost, duplicated or changed. *)
Theorem X11_moving_a_script_only_reorders (l l' : list ScriptElement.t)
    (script : ScriptElement.t) :
  MainWindow.move_script_up l script = Ok l'
  \/ MainWindow.move_script_down l script = Ok l' ->
  Permutation l l' /\ length l' = length l.
Proof.
  assert (P : forall i, Permutation l (MainWindow.swap_adjacent l i)
                        /\ length (MainWindow.swap_adjacent l i) = length l).
  { intros i. split;
      [apply swap_adjacent_permutation | apply swap_adjacent_length]. }
  unfold MainWindow.move_script_up, MainWindow.move_script_down.
  intros [H|H]; destruct (MainWindow.index l script) as [n|e];
    cbn [rbind] in H; try discriminate H.
  - destruct n as [|n]; simpl in H; injection H as <-; [now split|].
    rewrite Nat.sub_0_r, swap_items_up. apply P.
  - destruct (n <? length l - 1)%nat; injection H as <-; [|now split].
    rewrite Nat.add_1_r, swap_items_down. apply P.
Qed.

(** X11 at work: the second of three elements moves up. *)
Lemma X11_moving_a_script_only_reorders_witness :
  Permutation Cases.three_elements
              [ Cases.element "bbbb0002" "second";
                Cases.element "aaaa0001" "first";
                Cases.element "cccc0003" "third" ]
  /\ length [ Cases.element "bbbb0002" "second";
              Cases.element "aaaa0001" "first";
              Cases.element "cccc0003" "third" ]
     = length Cases.three_elements.
Proof.
  apply (X11_moving_a_script_only_reorders
           Cases.three_elements _ (Cases.element "bbbb0002" "second")).
  left. reflexivity.
Defined.

(** X12.  Moving an element up and then down again restores the sequence:
    if the selected element is found at a position [i > 0], then
    [move_script_up] returns a sequence in which it is found at [i - 1], and
    [move_script_down] on that sequence returns the original one.  This
    holds whether or not other elements share ids. *)
Theorem X12_move_up_then_down (l : list ScriptElement.t)
    (script : ScriptElement.t) (i : nat) :
  MainWindow.index l script = Ok i ->
  (0 < i)%nat ->
  exists l',
    MainWindow.move_script_up l script = Ok l'
    /\ MainWindow.index l' script = Ok (i - 1)%nat
    /\ MainWindow.move_script_down l' script = Ok l.
Proof.
  intros Hi Hpos. destruct i as [|i]; [lia|].
  exists (MainWindow.swap_adjacent l i).
  assert (Hi' : MainWindow.index (MainWindow.swap_adjacent l i) script = Ok i).
  { apply (index_after_swap l script 0 i). exact Hi. }
  assert (Hlen : (S i < length l)%nat).
  { apply index_from_lower in Hi. lia. }
  split; [|split].
  - unfold MainWindow.move_script_up. rewrite Hi. cbn [rbind]. simpl.
    now rewrite Nat.sub_0_r, swap_items_up.
  - simpl. now rewrite Nat.sub_0_r.
  - unfold MainWindow.move_script_down. rewrite Hi'. cbn [rbind].
    rewrite swap_adjacent_length.
    destruct (Nat.ltb_spec i (length l - 1)) as [_|F]; [|lia].
    now rewrite Nat.add_1_r, swap_items_down, swap_adjacent_involutive.
Qed.

(** X12 at work: the third of three elements. *)
Lemma X12_move_up_then_down_witness :
  exists l',
    MainWindow.move_script_up Cases.three_elements
                              (Cases.element "cccc0003" "third") = Ok l'
    /\ MainWindow.index l' (Cases.element "cccc0003" "third") = Ok (2 - 1)%nat
    /\ MainWindow.move_script_down l' (Cases.element "cccc0003" "third")
       = Ok Cases.three_elements.
Proof.
  apply (X12_move_up_then_down
           Cases.three_elements (Cases.element "cccc0003" "third") 2).
  - reflexivity.
  - lia.
Defined.

(* ================================================================== *)
(** ** ui/main_window.py: removing the selected files *)
(* ================================================================== *)

Lemma insert_reverse_in (row r : nat) (sorted : list nat) :
  In r (MainWindow.insert_reverse row sorted) <-> r = row \/ In r sorted.
Proof.
  induction sorted as [|x sorted IH]; simpl.
  - intuition.
  - destruct (Nat.ltb_spec x row); [simpl; intuition|].
    destruct (Nat.eqb_spec x row) as [->|Hne]; simpl; [intuition|].
    rewrite IH. intuition.
Qed.

Lemma insert_reverse_sorted (row : nat) (sorted : list nat) :
  StronglySorted (fun a b => b < a)%nat sorted ->
  StronglySorted (fun a b => b < a)%nat (MainWindow.insert_reverse row sorted).
Proof.
  induction sorted as [|x sorted IH]; simpl; intros S.
  - repeat constructor.
  - inversion S as [|? ? Ss Hall]; subst.
    destruct (Nat.ltb_spec x row).
    + constructor; [exact S|]. constructor; [assumption|].
      rewrite Forall_forall in *. intros y Hy. specialize (Hall y Hy). lia.
    + destruct (Nat.eqb_spec x row) as [->|Hne]; [exact S|].
      constructor; [now apply IH|].
      rewrite Forall_forall in *. intros y Hy.
      apply insert_reverse_in in Hy. destruct Hy as [->|Hy]; [lia|].
      now apply Hall.
Qed.

Lemma sorted_reverse_in (rows : list nat) (r : nat) :
  In r (MainWindow.sorted_reverse rows) <-> In r rows.
Proof.
  induction rows as [|x rows IH]; simpl; [reflexivity|].
  rewrite insert_reverse_in, IH. intuition.
Qed.

Lemma sorted_reverse_sorted (rows : list nat) :
  StronglySorted (fun a b => b < a)%nat (MainWindow.sorted_reverse rows).
Proof.
  induction rows as [|x rows IH]; simpl; [constructor|].
  now apply insert_reverse_sorted.
Qed.

Lemma selected_spec (rows : list nat) (k : nat) :
  existsb (Nat.eqb k) rows = true <-> In k rows.
Proof.
  rewrite existsb_exists. split.
  - intros (x & Hx & E). apply Nat.eqb_eq in E. now subst.
  - intros H. exists k. split; [exact H | apply Nat.eqb_refl].
Qed.

Lemma keep_unselected_ext {A} (r1 r2 : list nat) (k : nat) (l : list A) :
  (forall x, In x r1 <-> In x r2) ->
  MainWindow.keep_unselected r1 k l = MainWindow.keep_unselected r2 k l.
Proof.
  intros H. revert k. induction l as [|a l IH]; intros k; simpl; [reflexivity|].
  assert (E : existsb (Nat.eqb k) r1 = existsb (Nat.eqb k) r2).
  { apply eq_true_iff_eq. now rewrite !selected_spec. }
  now rewrite E, IH.
Qed.

Lemma keep_unselected_above {A} (rows : list nat) (k : nat) (l : list A) :
  (forall x, In x rows -> x < k)%nat ->
  MainWindow.keep_unselected rows k l = l.
Proof.
  revert k. induction l as [|a l IH]; intros k H; simpl; [reflexivity|].
  destruct (existsb (Nat.eqb k) rows) eqn:E.
  - apply selected_spec, H in E. lia.
  - rewrite IH; [reflexivity|]. intros x Hx. specialize (H x Hx). lia.
Qed.

Lemma keep_unselected_pop {A} (rows : list nat) (l : list A) (k r : nat) :
  (forall x, In x rows -> x < k + r)%nat ->
  MainWindow.keep_unselected rows k (MainWindow.pop_row l r)
  = MainWindow.keep_unselected ((k + r)%nat :: rows) k l.
Proof.
  revert k r. induction l as [|a l IH]; intros k r H; [destruct r; reflexivity|].
  destruct r as [|r]; simpl.
  - rewrite Nat.add_0_r in *. rewrite Nat.eqb_refl. simpl.
    rewrite !keep_unselected_above; [reflexivity| |exact H].
    intros x [<-|Hx]; [lia|]. specialize (H x Hx). lia.
  - destruct (Nat.eqb_spec k (k + S r)) as [F|_]; [lia|]. simpl.
    replace (k + S r)%nat with (S k + r)%nat in * by lia.
    now rewrite (IH (S k) r H).
Qed.

Lemma pops_keep_unselected {A} (rows : list nat) (l : list A) :
  StronglySorted (fun a b => b < a)%nat rows ->
  fold_left MainWindow.pop_row rows l = MainWindow.keep_unselected rows 0 l.
Proof.
  revert l. induction rows as [|r rows IH]; intros l S; simpl.
  - symmetry. apply keep_unselected_above. intros x [].
  - inversion S as [|? ? Ss Hall]; subst.
    rewrite (IH _ Ss). rewrite Forall_forall in Hall.
    now rewrite (keep_unselected_pop rows l 0 r Hall).
Qed.

(** X13.  [remove_selected_files] removes exactly the entries whose row is
    selected and keeps the others in their order, however the selection
    lists the rows (several cells of a row, any order) and whether or not
    some selected row lies beyond the end of the list. *)
Theorem X13_remove_selected_files (A : Type) (selected : list nat)
    (files : list A) :
  MainWindow.remove_selected_files selected files
  = MainWindow.keep_unselected selected 0 files.
Proof.
  unfold MainWindow.remove_selected_files.
  rewrite pops_keep_unselected by apply sorted_reverse_sorted.
  apply keep_unselected_ext. intros x. apply sorted_reverse_in.
Qed.

(* ================================================================== *)
(** ** The list of recent projects *)
(* ================================================================== *)

Lemma remove_first_in (x y : string) (l : list string) :
  In y (MainWindow.remove_first x l) -> In y l.
Proof.
  induction l as [|a l IH]; simpl; [exact id|].
  destruct (String.eqb a x); [now right|].
  intros [->|H]; [now left | right; now apply IH].
Qed.

Lemma remove_first_nodup (x : string) (l : list string) :
  NoDup l -> NoDup (MainWindow.remove_first x l)
             /\ ~ In x (MainWindow.remove_first x l).
Proof.
  induction l as [|a l IH]; simpl; intros N; [split; [constructor | exact id]|].
  inversion N as [|? ? Ha Nl]; subst.
  destruct (String.eqb_spec a x) as [->|Hne]; [now split|].
  destruct (IH Nl) as [N' Hx]. split.
  - constructor; [|exact N']. intros H. apply Ha. now apply remove_first_in in H.
  - intros [E|H]; [now apply Hne | now apply Hx].
Qed.

Lemma firstn_in {A} (n : nat) (l : list A) (x : A) :
  In x (firstn n l) -> In x l.
Proof.
  revert l. induction n as [|n IH]; intros [|a l]; simpl; try tauto.
  intros [->|H]; [now left | right; now apply IH].
Qed.

Lemma firstn_nodup {A} (n : nat) (l : list A) :
  NoDup l -> NoDup (firstn n l).
Proof.
  revert l. induction n as [|n IH]; intros [|a l] N; simpl; try constructor.
  - inversion N as [|? ? Ha Nl]; subst. intros H. apply Ha.
    now apply firstn_in in H.
  - inversion N; subst. now apply IH.
Qed.

(** X14.  [add_to_recent_projects] keeps the list of recent projects in
    shape: if the list has no repeated path, then afterwards the added path
    comes first, the list has at most ten entries, still has no repeated
    path, and holds nothing but the added path and paths it held before. *)
Theorem X14_recent_projects_stay_in_shape (recent_projects : list string)
    (file_path : string) :
  NoDup recent_projects ->
  let after := MainWindow.add_to_recent_projects recent_projects file_path in
  hd_error after = Some file_path
  /\ (length after <= 10)%nat
  /\ NoDup after
  /\ (forall p, In p after -> p = file_path \/ In p recent_projects).
Proof.
  intros N. cbv zeta. unfold MainWindow.add_to_recent_projects.
  split; [reflexivity|]. split; [apply firstn_le_length|].
  assert (Fresh : NoDup (file_path ::
                           (if mem_str file_path recent_projects
                            then MainWindow.remove_first file_path recent_projects
                            else recent_projects))).
  { destruct (mem_str file_path recent_projects) eqn:M.
    - destruct (remove_first_nodup file_path recent_projects N).
      now constructor.
    - constructor; [|exact N]. intros H. apply mem_str_In in H.
      now rewrite H in M. }
  split; [now apply firstn_nodup|].
  intros p Hp. apply firstn_in in Hp. destruct Hp as [->|Hp]; [now left|].
  right. destruct (mem_str file_path recent_projects); [|exact Hp].
  now apply remove_first_in in Hp.
Qed.

(** X14 at work: a project that is already in the list is opened again. *)
Lemma X14_recent_projects_stay_in_shape_witness :
  let after := MainWindow.add_to_recent_projects Cases.recent_three
                                                 "C:\projects\c.icp" in
  hd_error after = Some "C:\projects\c.icp"
  /\ (length after <= 10)%nat
  /\ NoDup after
  /\ (forall p, In p after ->
                p = "C:\projects\c.icp" \/ In p Cases.recent_three).
Proof.
  apply (X14_recent_projects_stay_in_shape Cases.recent_three
                                           "C:\projects\c.icp").
  repeat constructor; simpl; intuition discriminate.
Defined.

Lemma split_cons (sep c : ascii) (s : string) :
  RecentProjects.split sep (String c s)
  = if Ascii.eqb c sep then EmptyString :: RecentProjects.split sep s
    else match RecentProjects.split sep s with
         | piece :: rest => String c piece :: rest
         | [] => [String c EmptyString]
         end.
Proof. reflexivity. Qed.

Lemma split_without_separator (sep : ascii) (s : string) :
  mem_char sep s = false -> RecentProjects.split sep s = [s].
Proof.
  induction s as [|c s IH]; [reflexivity|].
  cbn [mem_char]. intros H. apply orb_false_iff in H. destruct H as [Hc Hs].
  rewrite Ascii.eqb_sym in Hc. now rewrite split_cons, Hc, (IH Hs).
Qed.

Lemma split_first_piece (sep : ascii) (a rest : string) :
  mem_char sep a = false ->
  RecentProjects.split sep (a ++ chr sep ++ rest)
  = a :: RecentProjects.split sep rest.
Proof.
  induction a as [|c a IH].
  - intros _. cbn [append chr]. now rewrite split_cons, Ascii.eqb_refl.
  - cbn [mem_char append]. intros H. apply orb_false_iff in H.
    destruct H as [Hc Ha].
    rewrite Ascii.eqb_sym in Hc. now rewrite split_cons, Hc, (IH Ha).
Qed.

Lemma split_join (sep : ascii) (x : string) (l : list string) :
  (forall p, In p (x :: l) -> mem_char sep p = false) ->
  RecentProjects.split sep (join (chr sep) (x :: l)) = x :: l.
Proof.
  revert x. induction l as [|y l IH]; intros x H.
  - apply split_without_separator, H. now left.
  - change (join (chr sep) (x :: y :: l))
      with (x ++ chr sep ++ join (chr sep) (y :: l)).
    rewrite split_first_piece by (apply H; now left).
    f_equal. apply IH. intros p Hp. apply H. now right.
Qed.

(** X15.  Saving and loading the list of recent projects.  The value that
    [save_recent_projects] hands to [ConfigParser] is the first ten paths
    joined by [|].  When the assignment accepts the value, the file is
    written, and reading the file gives the value back, then
    [load_recent_projects], for paths none of which contains [|], returns the
    first ten saved paths, in order, without the empty ones and without
    those that no longer exist on disk.  When the assignment refuses the
    value, as [ConfigParser] does for a path with a percent sign, the call
    stores nothing: it leaves the settings file as it found it, and no
    exception leaves the call. *)
Theorem X15_recent_projects_round_trip (w : World)
    (cfg : RecentProjects.Settings) (projects : list string)
    (settings_ini : option string) :
  let value := join "|" (firstn 10 projects) in
  (forall text,
      (forall p, In p projects -> mem_char "|" p = false) ->
      RecentProjects.assign cfg value = Ok text ->
      RecentProjects.write cfg text = Ok tt ->
      RecentProjects.read cfg (Some text) = Ok (Some value) ->
      RecentProjects.load_recent_projects
        w cfg (RecentProjects.save_recent_projects cfg projects settings_ini)
      = filter (fun p => negb (is_empty p) && path_exists w p)
               (firstn 10 projects))
  /\ (forall e,
        RecentProjects.assign cfg value = Raise e ->
        RecentProjects.save_recent_projects cfg projects settings_ini
        = settings_ini).
Proof.
  cbv zeta. split.
  - intros text H Ha Hw Hr.
    unfold RecentProjects.load_recent_projects,
      RecentProjects.save_recent_projects.
    rewrite Ha, Hw, Hr. cbv zeta.
    assert (H' : forall p, In p (firstn 10 projects) ->
                           mem_char "|" p = false).
    { intros p Hp. apply H. now apply firstn_in in Hp. }
    destruct (firstn 10 projects) as [|x l]; [reflexivity|].
    change "|" with (chr "|"). now rewrite split_join.
  - intros e Ha. unfold RecentProjects.save_recent_projects. now rewrite Ha.
Qed.

(** X15 at work: of three saved paths, the two that exist come back; a list
    with a percent sign in a path leaves the settings file alone. *)
Lemma X15_recent_projects_round_trip_witness :
  RecentProjects.load_recent_projects
    Cases.recent_disk Cases.plain_settings
    (RecentProjects.save_recent_projects
       Cases.plain_settings Cases.recent_three None)
  = [ "C:\projects\a.icp"; "C:\projects\b.icp" ]
  /\ RecentProjects.save_recent_projects
       Cases.plain_settings ["C:\projects\100%.icp"] None
     = None.
Proof.
  split.
  - rewrite (proj1 (X15_recent_projects_round_trip
                      Cases.recent_disk Cases.plain_settings
                      Cases.recent_three None)
                   ("[Recent]" ++ nl ++ "projects = "
                    ++ join "|" Cases.recent_three ++ nl ++ nl));
      try reflexivity.
    intros p [<-|[<-|[<-|[]]]]; reflexivity.
  - apply (proj2 (X15_recent_projects_round_trip
                    Cases.recent_disk Cases.plain_settings
                    ["C:\projects\100%.icp"] None)
                 (ValueError "invalid interpolation syntax")).
    reflexivity.
Defined.

(* ================================================================== *)
(** ** The build orchestrator: progress and outcome of a run *)
(* ================================================================== *)

Lemma ends_with_split {A} (l tail : list A) :
  Observe.ends_with l tail -> exists pre, l = (pre ++ tail)%list.
Proof.
  induction l as [|a l IH]; simpl.
  - intros [->|[]]. now exists [].
  - intros [->|H]; [now exists []|].
    destruct (IH H) as (pre & ->). now exists (a :: pre).
Qed.

Lemma percents_app (a b : list Generator.event) :
  Observe.percents (a ++ b)%list
  = (Observe.percents a ++ Observe.percents b)%list.
Proof. apply flat_map_app. Qed.

Lemma cleanup_tail_no_percent (env : Generator.BuildEnv) :
  Observe.percents (Generator.cleanup_tail env) = [].
Proof.
  unfold Generator.cleanup_tail, Generator.cleanup_report.
  run_cases; reflexivity.
Qed.

Lemma cleanup_keeps_installer (env : Generator.BuildEnv) (s : Generator.state) :
  Generator.installer_at (fst (Generator.cleanup env s))
  = Generator.installer_at s.
Proof.
  destruct s as [evs [td|] sc out];
    unfold Generator.cleanup, Generator.try_except;
    unfold_monad; [|reflexivity].
  run_cases; reflexivity.
Qed.

Ltac find_tail :=
  simpl; repeat (first [ left; reflexivity | right ]).

Lemma body_outcome (env : Generator.BuildEnv) (project : ProjectConfig.t)
    (output_path : string) :
  let s1 := fst (Generator.try_except
                   (Generator.body env project output_path)
                   Generator.handler Generator.initial) in
  let evs := Generator.emitted s1 in
  Observe.is_prefix (Observe.percents evs) Observe.checkpoints = true
  /\ ((Generator.installer_at s1 = Some output_path
       /\ Observe.percents evs = Observe.checkpoints
       /\ Observe.ends_with evs
            [ Generator.log_message "Installer generation successful";
              Generator.finished output_path true ])
      \/ (Generator.installer_at s1 = None
          /\ ~ In 100%Z (Observe.percents evs)
          /\ exists m, Observe.ends_with evs (Observe.failure_report m))).
Proof.
  unfold Generator.try_except, Generator.body, Generator._run_pyinstaller,
    Generator.collect, Generator.relocate, Generator.handler,
    Observe.failure_report.
  unfold_monad. run_cases; (split; [reflexivity|]);
    first [ left; split; [reflexivity|]; split; [reflexivity|]; find_tail
          | right; split; [reflexivity|]; split;
            [ simpl; intuition discriminate | eexists; find_tail ] ].
Qed.

(** X16.  Progress and outcome of a build run.  The percentages reported
    in a run are, in order, an initial part of 0, 5, 20, 35, 40, 80, 95, 100.
    A run ends in one of two ways.  Either the installer was moved to the
    output path: then all eight percentages were reported and the run
    signals success with the output path as its message, right after the
    log line that announces it.  Or no installer was moved: then 100 was
    never reported and the run signals failure with a message that starts
    with [Installer generation failed: ], right after logging the same
    message behind [ERROR: ].  In both cases only the report of the cleanup
    step follows. *)
Theorem X16_build_progress_and_outcome (env : Generator.BuildEnv)
    (project : ProjectConfig.t) (output_path : string) :
  let s := Generator.run env project output_path in
  let evs := Generator.emitted s in
  Observe.is_prefix (Observe.percents evs) Observe.checkpoints = true
  /\ ((Generator.installer_at s = Some output_path
       /\ Observe.percents evs = Observe.checkpoints
       /\ exists pre,
           evs = (pre
                  ++ [ Generator.log_message "Installer generation successful";
                       Generator.finished output_path true ]
                  ++ Generator.cleanup_tail env)%list)
      \/ (Generator.installer_at s = None
          /\ ~ In 100%Z (Observe.percents evs)
          /\ exists pre m,
              evs = (pre ++ Observe.failure_report m
                     ++ Generator.cleanup_tail env)%list)).
Proof.
  cbv zeta. rewrite run_events, percents_app, cleanup_tail_no_percent,
    app_nil_r.
  unfold Generator.run, Generator.run_M.
  rewrite fst_try_finally, cleanup_keeps_installer.
  destruct (body_outcome env project output_path) as [Hp H].
  cbv zeta in Hp, H. split; [exact Hp|].
  destruct H as [(Hi & Hc & He)|(Hi & Hc & m & He)].
  - left. split; [exact Hi|]. split; [exact Hc|].
    destruct (ends_with_split _ _ He) as (pre & ->).
    exists pre. now rewrite <- app_assoc.
  - right. split; [exact Hi|]. split; [exact Hc|].
    destruct (ends_with_split _ _ He) as (pre & ->).
    exists pre, m. now rewrite <- app_assoc.
Qed.

Section BuildPaths.

Variable env : Generator.BuildEnv.
Variable project : ProjectConfig.t.
Variable output_path td stderr : string.
Variable files : list string.

Let dist_dir := Generator.os_path_join env td "dist".

Hypothesis Hmk : Generator.mkdtemp env = Ok td.
Hypothesis Hw1 :
  Generator.write_text env (Generator.os_path_join env td "installer.py")
                       (Synth._generate_installer_script project) = Ok tt.
Hypothesis Hw2 :
  Generator.write_text env (Generator.os_path_join env td "installer.spec")
                       (Synth._generate_spec_file project) = Ok tt.
Hypothesis Hsub :
  Generator.subprocess_run env (Generator.pyinstaller_cmd env) (Some td)
  = Ok (0%Z, stderr).
Hypothesis Hdist : Generator.dist_exists env dist_dir = true.
Hypothesis Hls : Generator.os_listdir env dist_dir = Ok files.

(** The run up to the search for the executable. *)
Lemma run_to_listing :
  Generator.body env project output_path Generator.initial
  = match filter (fun f => endswith f ".exe") files with
    | [] =>
        Generator.raise
          (Generator.FileNotFoundError (Observe.no_executable dist_dir files))
    | exe :: _ =>
        Generator.bind (Generator.relocate env output_path dist_dir exe)
          (fun _ =>
             Generator.bind
               (Generator.emit
                  (Generator.progress 100 "Installer build completed"))
               (fun _ =>
                  Generator.bind
                    (Generator.emit
                       (Generator.log_message "Installer generation successful"))
                    (fun _ =>
                       Generator.emit (Generator.finished output_path true))))
    end
      (Generator.mkState (Observe.listing_events td files) (Some td) true None).
Proof.
  unfold Generator.body, Generator._run_pyinstaller, Generator.collect,
    Generator.pyinstaller_cmd, dist_dir in *.
  unfold Generator.bind at 1 2 3 4 5 6 7 8 9 10 11 12 13 14.
  unfold Generator.lift, Generator.emit at 1 2 3 4 5 6 7 8,
    Generator.get_temp_dir, Generator.set_temp_dir, Generator.initial.
  cbn [app Generator.temp_dir].
  rewrite Hmk. cbn [app Generator.temp_dir]. rewrite Hw1.
  cbn [app Generator.temp_dir]. rewrite Hw2.
  cbn [app Generator.temp_dir]. rewrite Hsub.
  cbn [app Generator.temp_dir Z.eqb negb]. rewrite Hdist. cbn [negb].
  unfold Generator.bind at 1. unfold Generator.lift. rewrite Hls.
  unfold Generator.bind at 1. unfold Generator.emit at 1. cbn [app].
  destruct (filter (fun f => endswith f ".exe") files); reflexivity.
Qed.

End BuildPaths.

Lemma filter_none {A} (f : A -> bool) (l : list A) :
  (forall x, In x l -> f x = false) -> filter f l = [].
Proof.
  induction l as [|a l IH]; simpl; intros H; [reflexivity|].
  rewrite (H a) by now left. apply IH. intros x Hx. apply H. now right.
Qed.

Lemma run_state (env : Generator.BuildEnv) (project : ProjectConfig.t)
    (output_path : string) :
  Generator.run env project output_path
  = fst (Generator.cleanup env
           (fst (Generator.try_except (Generator.body env project output_path)
                                      Generator.handler Generator.initial))).
Proof. unfold Generator.run, Generator.run_M. apply fst_try_finally. Qed.

(** X17.  A build in which the packaging tool exits with code 0 but leaves
    no file whose name ends in [.exe] in the dist directory fails: after
    the listing of the directory is logged, the run reports failure with a
    message that names the directory and lists what it holds, no installer
    is moved to the output path, and only the cleanup report follows. *)
Theorem X17_build_without_executable (env : Generator.BuildEnv)
    (project : ProjectConfig.t) (output_path td stderr : string)
    (files : list string) :
  Generator.mkdtemp env = Ok td ->
  Generator.write_text env (Generator.os_path_join env td "installer.py")
                       (Synth._generate_installer_script project) = Ok tt ->
  Generator.write_text env (Generator.os_path_join env td "installer.spec")
                       (Synth._generate_spec_file project) = Ok tt ->
  Generator.subprocess_run env (Generator.pyinstaller_cmd env) (Some td)
  = Ok (0%Z, stderr) ->
  Generator.dist_exists env (Generator.os_path_join env td "dist") = true ->
  Generator.os_listdir env (Generator.os_path_join env td "dist") = Ok files ->
  (forall f, In f files -> endswith f ".exe" = false) ->
  let s := Generator.run env project output_path in
  Generator.emitted s
  = (Observe.listing_events td files
     ++ Observe.failure_report
          (Observe.no_executable (Generator.os_path_join env td "dist") files)
     ++ Generator.cleanup_report env td)%list
  /\ Generator.installer_at s = None.
Proof.
  intros Hmk Hw1 Hw2 Hsub Hdist Hls Hnone. cbv zeta.
  rewrite run_state, cleanup_appends_report, cleanup_keeps_installer.
  unfold Generator.try_except.
  rewrite (run_to_listing env project output_path td stderr files
                          Hmk Hw1 Hw2 Hsub Hdist Hls).
  rewrite (filter_none _ _ Hnone). split; reflexivity.
Qed.

(** X17 at work: the tool leaves a package and a text file. *)
Lemma X17_build_without_executable_witness :
  let s := Generator.run Cases.build_no_exe Scenario.demo
                         "C:\out\Demo_Setup.exe" in
  Generator.emitted s
  = (Observe.listing_events "C:\tmp\instgen_x" ["Setup.pkg"; "notes.txt"]
     ++ Observe.failure_report
          (Observe.no_executable "C:\tmp\instgen_x\dist"
                                 ["Setup.pkg"; "notes.txt"])
     ++ Generator.cleanup_report Cases.build_no_exe "C:\tmp\instgen_x")%list
  /\ Generator.installer_at s = None.
Proof.
  apply (X17_build_without_executable
           Cases.build_no_exe Scenario.demo "C:\out\Demo_Setup.exe"
           "C:\tmp\instgen_x" EmptyString ["Setup.pkg"; "notes.txt"]);
    try reflexivity.
  intros f [<-|[<-|[]]]; reflexivity.
Defined.

(** X18.  A build in which every step succeeds.  When the tool exits with
    code 0, the first entry of the dist listing whose name ends in [.exe] is
    the one moved to the output path; the directory of the output path is
    created only when it is named and not there yet.  The run then emits
    the fifteen events of [Observe.success_events], the last of which is
    the success outcome with the output path as its message, followed by the
    cleanup report. *)
Theorem X18_build_success (env : Generator.BuildEnv)
    (project : ProjectConfig.t) (output_path td stderr : string)
    (files : list string) (exe : string) (rest : list string) :
  Generator.mkdtemp env = Ok td ->
  Generator.write_text env (Generator.os_path_join env td "installer.py")
                       (Synth._generate_installer_script project) = Ok tt ->
  Generator.write_text env (Generator.os_path_join env td "installer.spec")
                       (Synth._generate_spec_file project) = Ok tt ->
  Generator.subprocess_run env (Generator.pyinstaller_cmd env) (Some td)
  = Ok (0%Z, stderr) ->
  Generator.dist_exists env (Generator.os_path_join env td "dist") = true ->
  Generator.os_listdir env (Generator.os_path_join env td "dist") = Ok files ->
  filter (fun f => endswith f ".exe") files = exe :: rest ->
  (is_empty (Generator.os_path_dirname env output_path) = false ->
   Generator.output_dir_exists env (Generator.os_path_dirname env output_path)
   = false ->
   Generator.os_makedirs env (Generator.os_path_dirname env output_path)
   = Ok tt) ->
  Generator.shutil_move
    env
    (Generator.os_path_join env (Generator.os_path_join env td "dist") exe)
    output_path = Ok tt ->
  let s := Generator.run env project output_path in
  Generator.emitted s
  = (Observe.success_events env td output_path files exe
     ++ Generator.cleanup_report env td)%list
  /\ Generator.installer_at s = Some output_path.
Proof.
  intros Hmk Hw1 Hw2 Hsub Hdist Hls Hexe Hdir Hmove. cbv zeta.
  rewrite run_state, cleanup_appends_report, cleanup_keeps_installer.
  unfold Generator.try_except.
  rewrite (run_to_listing env project output_path td stderr files
                          Hmk Hw1 Hw2 Hsub Hdist Hls).
  rewrite Hexe. unfold Generator.relocate. unfold_monad.
  destruct (is_empty (Generator.os_path_dirname env output_path)) eqn:E;
    simpl.
  - rewrite Hmove. split; reflexivity.
  - destruct (Generator.output_dir_exists
                env (Generator.os_path_dirname env output_path)) eqn:X; simpl.
    + rewrite Hmove. split; reflexivity.
    + rewrite (Hdir eq_refl eq_refl). simpl. rewrite Hmove. split; reflexivity.
Qed.

(** X18 at work: the tool leaves [Setup.exe]. *)
Lemma X18_build_success_witness :
  let s := Generator.run Scenario.build_ok Scenario.demo
                         "C:\out\Demo_Setup.exe" in
  Generator.emitted s
  = (Observe.success_events Scenario.build_ok "C:\tmp\instgen_x"
                            "C:\out\Demo_Setup.exe" ["Setup.exe"] "Setup.exe"
     ++ Generator.cleanup_report Scenario.build_ok "C:\tmp\instgen_x")%list
  /\ Generator.installer_at s = Some "C:\out\Demo_Setup.exe".
Proof.
  apply (X18_build_success
           Scenario.build_ok Scenario.demo "C:\out\Demo_Setup.exe"
           "C:\tmp\instgen_x" EmptyString ["Setup.exe"] "Setup.exe" []);
    reflexivity.
Defined.

(* ================================================================== *)
(** ** The emitted installer: what a run appends *)
(* ================================================================== *)

Section Appends.

Variable env : Installer.InstallEnv.
Variable P : Installer.item -> bool.

Lemma appends_ret {A} (a : A) : Observe.appends P (Installer.ret a).
Proof. intros t. exists []. now rewrite app_nil_r. Qed.

Lemma appends_lift {A} (r : result A) : Observe.appends P (Installer.lift r).
Proof. intros t. exists []. now rewrite app_nil_r. Qed.

Lemma appends_perform (o : Installer.sysop) :
  P (Installer.did o) = true ->
  (forall e, P (Installer.failed o e) = true) ->
  Observe.appends P (Installer.perform env o).
Proof.
  intros Hd Hf t. unfold Installer.perform.
  destruct (Installer.raised env (length t) o) as [e|].
  - exists [Installer.failed o e]. simpl. now rewrite Hf.
  - exists [Installer.did o]. simpl. now rewrite Hd.
Qed.

Lemma appends_emit (s : Installer.signal) :
  P (Installer.sig s) = true -> Observe.appends P (Installer.emit s).
Proof. intros H t. exists [Installer.sig s]. simpl. now rewrite H. Qed.

Lemma appends_bind {A B} (m : Installer.M A) (k : A -> Installer.M B) :
  Observe.appends P m -> (forall a, Observe.appends P (k a)) ->
  Observe.appends P (Installer.bind m k).
Proof.
  intros Hm Hk t. unfold Installer.bind.
  destruct (Hm t) as (e1 & E1 & S1).
  destruct (m t) as [t1 [a|e]]; simpl in E1; subst t1.
  - destruct (Hk a (t ++ e1)%list) as (e2 & E2 & S2).
    exists (e1 ++ e2)%list. rewrite E2, app_assoc, forallb_app, S1, S2.
    now split.
  - now exists e1.
Qed.

Lemma appends_try_except (catches : exn -> bool) (body : Installer.M unit)
    (handler : exn -> Installer.M unit) :
  Observe.appends P body -> (forall e, Observe.appends P (handler e)) ->
  Observe.appends P (Installer.try_except catches body handler).
Proof.
  intros Hb Hh t. unfold Installer.try_except.
  destruct (Hb t) as (e1 & E1 & S1).
  destruct (body t) as [t1 [[]|e]]; simpl in E1; subst t1.
  - now exists e1.
  - destruct (catches e).
    + destruct (Hh e (t ++ e1)%list) as (e2 & E2 & S2).
      exists (e1 ++ e2)%list. rewrite E2, app_assoc, forallb_app, S1, S2.
      now split.
    + now exists e1.
Qed.

Lemma appends_for_each_in {A} (l : list A) (f : A -> Installer.M unit) :
  (forall a, In a l -> Observe.appends P (f a)) ->
  Observe.appends P (Installer.for_each l f).
Proof.
  induction l as [|x l IH]; simpl; intros Hf.
  - apply appends_ret.
  - apply appends_bind; [apply Hf; now left | intros _].
    apply IH. intros a Ha. apply Hf. now right.
Qed.

Lemma appends_for_each {A} (l : list A) (f : A -> Installer.M unit) :
  (forall a, Observe.appends P (f a)) ->
  Observe.appends P (Installer.for_each l f).
Proof. intros Hf. apply appends_for_each_in. intros a _. apply Hf. Qed.

End Appends.

Ltac appends_step :=
  first
    [ apply appends_ret
    | apply appends_lift
    | apply appends_perform; [reflexivity | intros ?; reflexivity]
    | apply appends_emit; reflexivity
    | apply appends_for_each; intros ?
    | apply appends_try_except; [| intros ?]
    | apply appends_bind; [| intros ?]
    | match goal with
      | |- Observe.appends _ (if ?b then _ else _) => destruct b
      | |- Observe.appends _ (match ?x with _ => _ end) => destruct x
      end ].

Ltac appends_tac := repeat appends_step.

Section InstallSteps.

Variable env : Installer.InstallEnv.
Variable data : InstallerData.
Variable install_path : string.
Variable P : Installer.item -> bool.

Lemma appends_install_dependency (dep : pyval) :
  (forall name, P (Installer.did (Installer.pip_install name)) = true) ->
  (forall name e, P (Installer.failed (Installer.pip_install name) e) = true) ->
  Observe.appends P (Installer._install_dependency env dep).
Proof.
  intros Hd Hf. unfold Installer._install_dependency.
  apply appends_bind; [apply appends_lift | intros dep_type].
  apply appends_bind; [apply appends_lift | intros name].
  destruct (eq_str dep_type "pip" && truthy name); [|apply appends_ret].
  apply appends_perform; [apply Hd | apply Hf].
Qed.

Lemma appends_create_shortcut (shortcut : pyval) :
  (forall o, Observe.is_shortcut_op o = true ->
             P (Installer.did o) = true
             /\ forall e, P (Installer.failed o e) = true) ->
  Observe.appends P (Installer._create_shortcut env install_path shortcut).
Proof.
  intros H. unfold Installer._create_shortcut.
  assert (Hp : forall o, Observe.is_shortcut_op o = true ->
                         Observe.appends P (Installer.perform env o)).
  { intros o Ho. destruct (H o Ho). now apply appends_perform. }
  repeat first
    [ apply appends_ret
    | apply appends_lift
    | apply Hp; reflexivity
    | apply appends_try_except; [| intros ?]
    | apply appends_bind; [| intros ?]
    | match goal with
      | |- Observe.appends _ (if ?b then _ else _) => destruct b
      | |- Observe.appends _ (match ?x with _ => _ end) => destruct x
      end ].
Qed.

End InstallSteps.

Section InstallOutcome.

Variable env : Installer.InstallEnv.
Variable data : InstallerData.
Variable install_path : string.

Lemma no_outcome_step_dependencies :
  Observe.appends Observe.no_outcome
    (if truthy (PList (DEPENDENCIES data)) then
       Installer.bind
         (Installer.emit (Installer.progress 20 "Installing dependencies..."))
         (fun _ => Installer.for_each (DEPENDENCIES data)
                                      (Installer._install_dependency env))
     else Installer.ret tt).
Proof.
  destruct (truthy (PList (DEPENDENCIES data))); [|apply appends_ret].
  apply appends_bind; [apply appends_emit; reflexivity | intros _].
  apply appends_for_each. intros dep.
  apply appends_install_dependency; reflexivity.
Qed.

Lemma no_outcome_copy_file (file_info : pyval) :
  Observe.appends Observe.no_outcome
                  (Installer._copy_file env install_path file_info).
Proof. unfold Installer._copy_file. appends_tac. Qed.

Lemma no_outcome_create_shortcut (shortcut : pyval) :
  Observe.appends Observe.no_outcome
                  (Installer._create_shortcut env install_path shortcut).
Proof.
  apply appends_create_shortcut. intros o _. split; [|intros e]; reflexivity.
Qed.

Lemma no_outcome_apply_registry (reg_entry : pyval) :
  Observe.appends Observe.no_outcome (Installer._apply_registry env reg_entry).
Proof. unfold Installer._apply_registry. appends_tac. Qed.

Lemma no_outcome_post_install :
  Observe.appends Observe.no_outcome
                  (Installer.run_post_install_scripts env data install_path).
Proof.
  unfold Installer.run_post_install_scripts, Installer._run_script.
  appends_tac.
Qed.

Lemma no_outcome_uninstaller :
  Observe.appends Observe.no_outcome
    (if CREATE_UNINSTALLER data then
       Installer.bind
         (Installer.emit (Installer.progress 90 "Creating uninstaller..."))
         (fun _ => Installer._create_uninstaller env data install_path)
     else Installer.ret tt).
Proof. unfold Installer._create_uninstaller. appends_tac. Qed.

Lemma appends_then_closes {A} (m : Installer.M A) (k : Installer.M unit) :
  Observe.appends Observe.no_outcome m -> Observe.closes k ->
  Observe.closes (Installer.bind m (fun _ => k)).
Proof.
  intros Hm Hk t. unfold Installer.bind.
  destruct (Hm t) as (e1 & E1 & S1).
  destruct (m t) as [t1 [a|e]]; simpl in E1; subst t1.
  - destruct (Hk (t ++ e1)%list) as (e2 & S2 & E2).
    exists (e1 ++ e2)%list. rewrite forallb_app, S1, S2. split; [reflexivity|].
    destruct (k (t ++ e1)%list) as [t2 [[]|e]]; rewrite E2;
      now rewrite <- !app_assoc.
  - now exists e1.
Qed.

Lemma closes_run_body :
  Observe.closes (Installer.run_body env data install_path).
Proof.
  unfold Installer.run_body.
  do 12 (apply appends_then_closes;
         [ first [ apply appends_perform; [reflexivity | intros ?; reflexivity]
                 | apply appends_emit; reflexivity
                 | apply no_outcome_post_install
                 | apply no_outcome_step_dependencies
                 | apply no_outcome_uninstaller
                 | apply appends_for_each; intros ?;
                   first [ apply no_outcome_copy_file
                         | apply no_outcome_create_shortcut
                         | apply no_outcome_apply_registry ] ]
         | ]).
  intros t. exists []. split; [reflexivity|].
  unfold Installer.bind, Installer.emit. simpl. now rewrite <- app_assoc.
Qed.

End InstallOutcome.

Lemma tame_of_total (m : Installer.M unit) :
  (forall t, snd (m t) = Ok tt) -> Installer.tame m.
Proof. intros H t e E. rewrite H in E. discriminate E. Qed.

Lemma tame_create_shortcut (env : Installer.InstallEnv)
    (install_path : string) (shortcut : pyval) :
  Installer.tame (Installer._create_shortcut env install_path shortcut).
Proof. unfold Installer._create_shortcut. tame_tac. Qed.

(** On the data of a project the install routine raises nothing but
    [Exception]s: it never reaches [exec]. *)
Lemma tame_run_body_of_project (env : Installer.InstallEnv)
    (project : ProjectConfig.t) (install_path : string) :
  Installer.tame
    (Installer.run_body env (Synth.installer_data project) install_path).
Proof.
  assert (Files : forall t,
             Installer.for_each
               (FILES_DATA (Synth.installer_data project))
               (Installer._copy_file env install_path) t = (t, Ok tt))
    by (intros t; simpl; apply copy_loop_of_entries).
  assert (Scripts : forall t,
             Installer.run_post_install_scripts
               env (Synth.installer_data project) install_path t
             = (t, Ok tt))
    by (intros t; unfold Installer.run_post_install_scripts; simpl;
        apply script_loop_of_elements).
  unfold Installer.run_body.
  repeat first
    [ match goal with
      | |- Installer.tame (Installer.for_each (FILES_DATA _) _) =>
          apply tame_of_total; intros t; now rewrite Files
      | |- Installer.tame (Installer.run_post_install_scripts _ _ _) =>
          apply tame_of_total; intros t; now rewrite Scripts
      | |- Installer.tame (Installer.for_each (SHORTCUTS _) _) =>
          apply tame_for_each; intros ?; apply tame_create_shortcut
      | |- Installer.tame (Installer.for_each (REGISTRY_ENTRIES _) _) =>
          apply tame_for_each; intros ?; apply tame_apply_registry_body
      | |- Installer.tame (Installer._install_dependency _ _) =>
          unfold Installer._install_dependency
      | |- Installer.tame (Installer._create_uninstaller _ _ _) =>
          unfold Installer._create_uninstaller
      end
    | tame_step ].
Qed.

Lemma run_ends (env : Installer.InstallEnv) (data : InstallerData)
    (install_path : string) :
  Observe.ends_with_outcome (Installer.run env data install_path)
  \/ (exists e,
         Installer.run_body env data install_path [] 
         = (Installer.run env data install_path, Raise e)
         /\ Installer.Exception e = false
         /\ forallb Observe.no_outcome (Installer.run env data install_path)
            = true).
Proof.
  unfold Installer.run, Installer.run_M, Installer.try_except.
  destruct (closes_run_body env data install_path []) as (ext & S & E).
  destruct (Installer.run_body env data install_path []) as [t' [[]|e]];
    simpl in E; subst t'.
  - left.
    exists (ext ++ [Installer.sig
                      (Installer.progress 100 "Installation complete!")])%list,
      true, "Installation completed successfully!".
    split; [simpl; now rewrite <- app_assoc|].
    split; [rewrite forallb_app, S; reflexivity|].
    split; [|discriminate]. intros _. split; [reflexivity|]. now exists ext.
  - destruct (Installer.Exception e) eqn:X.
    + left. exists ext, false, ("Installation failed: " ++ exn_msg e).
      split; [reflexivity|]. split; [exact S|]. split; [discriminate|].
      intros _. apply prefix_app.
    + right. exists e. simpl. now repeat split.
Qed.

(** X19.  A run of the emitted install routine ends with its outcome, or is
    left by an exception outside [Exception].  For every embedded data, the
    run either emits one [finished_signal], as its last item (a successful
    outcome carries the message [Installation completed successfully!] and
    comes right after the progress signal at 100, the message of a failed
    outcome starts with [Installation failed: ]), or the routine raises an
    exception that [except Exception] does not catch, and then the run
    holds no outcome at all.  On the data that the generator embeds for a
    project the first case always holds: such a run never reaches [exec],
    the only step that can raise outside [Exception]. *)
Theorem X19_install_outcome_is_last (env : Installer.InstallEnv)
    (install_path : string) :
  let outcome_is_last := fun run : list Installer.item =>
    exists pre success message,
      run = (pre ++ [Installer.sig
                       (Installer.finished_signal success message)])%list
      /\ forallb Observe.no_outcome pre = true
      /\ (success = true ->
          message = "Installation completed successfully!"
          /\ exists pre',
              pre = (pre' ++ [Installer.sig
                                (Installer.progress
                                   100 "Installation complete!")])%list)
      /\ (success = false ->
          String.prefix "Installation failed: " message = true) in
  (forall data : InstallerData,
      outcome_is_last (Installer.run env data install_path)
      \/ (exists e,
             snd (Installer.run_M env data install_path []) = Raise e
             /\ Installer.Exception e = false
             /\ forallb Observe.no_outcome
                        (Installer.run env data install_path) = true))
  /\ (forall project : ProjectConfig.t,
        outcome_is_last
          (Installer.run env (Synth.installer_data project) install_path)).
Proof.
  cbv zeta. split.
  - intros data.
    destruct (run_ends env data install_path) as [H|(e & B & X & N)];
      [left; exact H | right].
    exists e. split; [|now split].
    unfold Installer.run_M, Installer.try_except. rewrite B. now rewrite X.
  - intros project.
    destruct (run_ends env (Synth.installer_data project) install_path)
      as [H|(e & B & X & N)]; [exact H|].
    pose proof (tame_run_body_of_project env project install_path [] e) as T.
    rewrite B in T. rewrite (T eq_refl) in X. discriminate X.
Qed.

(* ================================================================== *)
(** ** The emitted installer: the first failure ends the install *)
(* ================================================================== *)

Lemma calm_app (a b : list Installer.item) :
  Observe.calm (a ++ b)%list = Observe.calm a && Observe.calm b.
Proof. apply forallb_app. Qed.

Section FailFast.

Variable env : Installer.InstallEnv.

Lemma fail_fast_ret {A} (a : A) : Observe.fail_fast (Installer.ret a).
Proof. intros t. exists []. now rewrite app_nil_r. Qed.

Lemma fail_fast_lift {A} (r : result A) :
  Observe.fail_fast (Installer.lift r).
Proof.
  intros t. exists []. rewrite app_nil_r. split; [reflexivity|].
  destruct r; simpl; [reflexivity | now left].
Qed.

Lemma fail_fast_emit (s : Installer.signal) :
  Observe.fail_fast (Installer.emit s).
Proof. intros t. now exists [Installer.sig s]. Qed.

Lemma fail_fast_perform (o : Installer.sysop) :
  Observe.fail_fast (Installer.perform env o).
Proof.
  intros t. unfold Installer.perform.
  destruct (Installer.raised env (length t) o) as [e|].
  - exists [Installer.failed o e]. split; [reflexivity|]. simpl.
    right. now exists [], o.
  - now exists [Installer.did o].
Qed.

Lemma fail_fast_bind {A B} (m : Installer.M A) (k : A -> Installer.M B) :
  Observe.fail_fast m -> (forall a, Observe.fail_fast (k a)) ->
  Observe.fail_fast (Installer.bind m k).
Proof.
  intros Hm Hk t. unfold Installer.bind.
  destruct (Hm t) as (e1 & E1 & S1).
  destruct (m t) as [t1 [a|e]]; simpl in E1, S1; subst t1.
  - destruct (Hk a (t ++ e1)%list) as (e2 & E2 & S2).
    exists (e1 ++ e2)%list. rewrite E2, app_assoc. split; [reflexivity|].
    destruct (snd (k a (t ++ e1)%list)) as [b|e].
    + now rewrite calm_app, S1, S2.
    + destruct S2 as [S2|(e2' & o & -> & S2)].
      * left. now rewrite calm_app, S1, S2.
      * right. exists (e1 ++ e2')%list, o.
        now rewrite app_assoc, calm_app, S1, S2.
  - exists e1. now split.
Qed.

Lemma fail_fast_for_each {A} (l : list A) (f : A -> Installer.M unit) :
  (forall a, Observe.fail_fast (f a)) ->
  Observe.fail_fast (Installer.for_each l f).
Proof.
  intros Hf. induction l as [|x l IH]; simpl.
  - apply fail_fast_ret.
  - apply fail_fast_bind; [apply Hf | intros _; exact IH].
Qed.

(** A [try] block whose handler passes over the exception, around
    operations of kind [K]. *)
Lemma fail_fast_pass_over (K : Installer.sysop -> bool)
    (catches : exn -> bool) (body : Installer.M unit) :
  (forall o e, K o = true -> catches e = true ->
               Observe.swallowed o e = true) ->
  Observe.appends (Observe.of_kind K) body ->
  Observe.fail_fast body ->
  Observe.fail_fast
    (Installer.try_except catches body (fun _ => Installer.ret tt)).
Proof.
  intros HK Ha Hb t. unfold Installer.try_except.
  destruct (Hb t) as (e1 & E1 & S1).
  destruct (Ha t) as (e1' & E1' & K1).
  rewrite E1 in E1'. apply app_inv_head in E1'. subst e1'.
  destruct (body t) as [t1 [[]|e]]; simpl in E1, S1; subst t1.
  - exists e1. now split.
  - destruct (catches e) eqn:C.
    + exists e1. split; [reflexivity|]. simpl.
      destruct S1 as [S1|(e1' & o & -> & S1)]; [exact S1|].
      rewrite forallb_app in K1. apply andb_true_iff in K1.
      destruct K1 as [_ K1]. simpl in K1. rewrite andb_true_r in K1.
      rewrite calm_app, S1. simpl. now rewrite (HK o e K1 C).
    + exists e1. now split.
Qed.

End FailFast.

Ltac fail_fast_step :=
  first
    [ apply fail_fast_ret
    | apply fail_fast_lift
    | apply fail_fast_perform
    | apply fail_fast_emit
    | apply fail_fast_for_each; intros ?
    | apply fail_fast_bind; [| intros ?]
    | match goal with
      | |- Observe.fail_fast (if ?b then _ else _) => destruct b
      | |- Observe.fail_fast (match ?x with _ => _ end) => destruct x
      end ].

Ltac fail_fast_tac := repeat fail_fast_step.

Section FailFastRun.

Variable env : Installer.InstallEnv.
Variable data : InstallerData.
Variable install_path : string.

Lemma fail_fast_create_shortcut (shortcut : pyval) :
  Observe.fail_fast (Installer._create_shortcut env install_path shortcut).
Proof.
  unfold Installer._create_shortcut.
  apply (fail_fast_pass_over Observe.is_shortcut_op).
  - intros o e Ho He. unfold Observe.swallowed. rewrite Ho, He.
    apply orb_true_r.
  - appends_tac.
  - fail_fast_tac.
Qed.

Lemma fail_fast_apply_registry (reg_entry : pyval) :
  Observe.fail_fast (Installer._apply_registry env reg_entry).
Proof.
  unfold Installer._apply_registry.
  apply (fail_fast_pass_over Observe.is_registry_op).
  - intros o e Ho _. unfold Observe.swallowed. now rewrite Ho.
  - appends_tac.
  - fail_fast_tac.
Qed.

Lemma fail_fast_run_body :
  Observe.fail_fast (Installer.run_body env data install_path).
Proof.
  unfold Installer.run_body, Installer.run_post_install_scripts,
    Installer._run_script, Installer._create_uninstaller,
    Installer._install_dependency, Installer._copy_file.
  repeat first [ apply fail_fast_create_shortcut
               | apply fail_fast_apply_registry
               | fail_fast_step ].
Qed.

End FailFastRun.

Lemma fatal_in_tail (a pre post rest : list Installer.item)
    (x : Installer.item) :
  (pre ++ x :: post)%list = (a ++ rest)%list ->
  Observe.calm a = true -> Observe.fatal x = true ->
  exists pre', rest = (pre' ++ x :: post)%list.
Proof.
  revert pre. induction a as [|y a IH]; intros pre E Ha Hx.
  - now exists pre.
  - simpl in Ha. apply andb_true_iff in Ha. destruct Ha as [Hy Ha].
    destruct pre as [|z pre]; simpl in E; injection E as -> E.
    + rewrite Hx in Hy. discriminate.
    + now apply (IH pre).
Qed.

(** X20.  The install routine stops at the first failure that it does not
    pass over.  When an operation fails during a run, and it is neither a
    registry operation nor a shortcut operation failing with an import
    error, then nothing is attempted after it.  If its exception is an
    [Exception], the only item that follows is the failed outcome, whose
    message is that of the exception; if it is not (a [SystemExit] raised by
    the text of a script), nothing follows at all. *)
Theorem X20_install_stops_at_first_failure (env : Installer.InstallEnv)
    (data : InstallerData) (install_path : string)
    (pre post : list Installer.item) (o : Installer.sysop) (e : exn) :
  Installer.run env data install_path
  = (pre ++ Installer.failed o e :: post)%list ->
  Observe.is_registry_op o
  || (Observe.is_shortcut_op o && Installer.ImportError e) = false ->
  post = if Installer.Exception e
         then [ Installer.sig
                  (Installer.finished_signal
                     false ("Installation failed: " ++ exn_msg e)) ]
         else [].
Proof.
  unfold Installer.run, Installer.run_M, Installer.try_except.
  destruct (fail_fast_run_body env data install_path []) as (ext & E & S).
  destruct (Installer.run_body env data install_path []) as [t' [[]|e']];
    simpl in E, S; subst t'; intros Hrun Hsw;
    assert (Hx : Observe.fatal (Installer.failed o e) = true)
      by (simpl; unfold Observe.swallowed; now rewrite Hsw).
  - simpl in Hrun. symmetry in Hrun. rewrite <- (app_nil_r ext) in Hrun.
    destruct (fatal_in_tail ext pre post [] _ Hrun S Hx) as (pre' & F).
    now destruct pre'.
  - destruct (Installer.Exception e') eqn:X; simpl in Hrun;
      symmetry in Hrun.
    + destruct S as [S|(ext' & o' & -> & S)].
      * destruct (fatal_in_tail ext pre post _ _ Hrun S Hx) as (pre' & F).
        destruct pre' as [|? [|? ?]]; discriminate.
      * rewrite <- app_assoc in Hrun.
        destruct (fatal_in_tail ext' pre post _ _ Hrun S Hx) as (pre' & F).
        destruct pre' as [|? [|? [|? ?]]]; try discriminate.
        injection F as -> -> <-. now rewrite X.
    + destruct S as [S|(ext' & o' & -> & S)].
      * rewrite <- (app_nil_r ext) in Hrun.
        destruct (fatal_in_tail ext pre post [] _ Hrun S Hx) as (pre' & F).
        now destruct pre'.
      * destruct (fatal_in_tail ext' pre post _ _ Hrun S Hx) as (pre' & F).
        destruct pre' as [|? [|? ?]]; try discriminate.
        injection F as -> -> <-. now rewrite X.
Qed.

(** X20 at work: on a machine without network the first pip install fails,
    and the outcome follows at once. *)
Lemma X20_install_stops_at_first_failure_witness :
  [ Installer.sig
      (Installer.finished_signal false "Installation failed: pip failed") ]
  = if Installer.Exception Cases.pip_failed
    then [ Installer.sig
             (Installer.finished_signal
                false ("Installation failed: " ++ exn_msg Cases.pip_failed)) ]
    else [].
Proof.
  apply (X20_install_stops_at_first_failure
           Cases.offline_machine (Synth.installer_data Cases.equipped)
           "C:\Program Files\Demo"
           [ Installer.did (Installer.os_makedirs "C:\Program Files\Demo");
             Installer.sig
               (Installer.progress 10 "Created installation directory");
             Installer.sig (Installer.progress 20 "Installing dependencies...") ]
           [ Installer.sig
               (Installer.finished_signal false
                                          "Installation failed: pip failed") ]
           (Installer.pip_install (PStr "requests")) Cases.pip_failed);
    reflexivity.
Defined.

(* ================================================================== *)
(** ** The emitted installer: dependencies and shortcuts of a project *)
(* ================================================================== *)

Lemma try_except_bind_ok {A} (catches : exn -> bool) (m : Installer.M A)
    (k : A -> Installer.M unit) (handler : exn -> Installer.M unit)
    (t t' : list Installer.item) (a : A) :
  m t = (t', Ok a) ->
  Installer.try_except catches (Installer.bind m k) handler t
  = Installer.try_except catches (k a) handler t'.
Proof.
  intros H. unfold Installer.try_except, Installer.bind. now rewrite H.
Qed.

Lemma filter_none_of (P : Installer.item -> bool) (l : list Installer.item) :
  forallb (fun i => negb (P i)) l = true -> filter P l = [].
Proof.
  intros H. apply filter_none. intros x Hx.
  rewrite forallb_forall in H. apply negb_true_iff. now apply H.
Qed.

Section Dependencies.

Variable env : Installer.InstallEnv.
Hypothesis quiet_machine : Observe.never_raises env.

Lemma install_named_dependencies (deps : list Dependency.t)
    (t : list Installer.item) :
  Installer.for_each (map Dependency.to_dict deps)
                     (Installer._install_dependency env) t
  = ((t ++ map Observe.pip_installed (Observe.named deps))%list, Ok tt).
Proof.
  revert t. induction deps as [|d deps IH]; intros t.
  - simpl. now rewrite app_nil_r.
  - cbn [map Installer.for_each]. unfold Installer.bind at 1.
    assert (E : Installer._install_dependency env (Dependency.to_dict d) t
                = ((t ++ (if negb (is_empty (Dependency.name d))
                          then [Observe.pip_installed d] else []))%list,
                   Ok tt)).
    { unfold Installer._install_dependency, Installer.bind, Installer.lift,
        Installer.perform, Installer.raised, Installer.ret. simpl.
      destruct (is_empty (Dependency.name d)); simpl.
      - now rewrite app_nil_r.
      - now rewrite quiet_machine. }
    rewrite E, IH. unfold Observe.named. cbn [filter].
    destruct (negb (is_empty (Dependency.name d))); simpl.
    + now rewrite <- app_assoc.
    + now rewrite app_nil_r.
Qed.

End Dependencies.

Lemma dependencies_step (env : Installer.InstallEnv)
    (deps : list Dependency.t) (t : list Installer.item) :
  Observe.never_raises env ->
  exists hdr,
    (hdr = []
     \/ hdr = [ Installer.sig
                  (Installer.progress 20 "Installing dependencies...") ])
    /\ (if truthy (PList (map Dependency.to_dict deps)) then
          Installer.bind
            (Installer.emit (Installer.progress 20 "Installing dependencies..."))
            (fun _ => Installer.for_each (map Dependency.to_dict deps)
                                         (Installer._install_dependency env))
        else Installer.ret tt) t
       = ((t ++ hdr ++ map Observe.pip_installed (Observe.named deps))%list,
          Ok tt).
Proof.
  intros Hq. destruct deps as [|d deps].
  - exists []. split; [now left|]. simpl. now rewrite app_nil_r.
  - exists [Installer.sig (Installer.progress 20 "Installing dependencies...")].
    split; [now right|].
    cbn [map truthy]. unfold Installer.bind at 1, Installer.emit.
    change (Dependency.to_dict d :: map Dependency.to_dict deps)
      with (map Dependency.to_dict (d :: deps)).
    rewrite (install_named_dependencies env Hq).
    now rewrite <- app_assoc.
Qed.

Lemma pip_installed_is_pip (deps : list Dependency.t) :
  filter Observe.is_pip_install (map Observe.pip_installed deps)
  = map Observe.pip_installed deps.
Proof.
  induction deps as [|d deps IH]; simpl; [reflexivity | now rewrite IH].
Qed.

(** X21.  What the installer does with the dependencies of a project.  On
    a machine on which no operation raises, the installer built from a
    project runs one pip install for every dependency that has a name, in
    the order of the project, with the bare name as the requirement: the
    version, the installer path, the check command and the [required] flag
    of a dependency play no part, and a dependency without a name is passed
    over. *)
Theorem X21_named_dependencies_are_pip_installed (env : Installer.InstallEnv)
    (project : ProjectConfig.t) (install_path : string) :
  Observe.never_raises env ->
  filter Observe.is_pip_install
         (Installer.run env (Synth.installer_data project) install_path)
  = map Observe.pip_installed
        (Observe.named (ProjectConfig.dependencies project)).
Proof.
  intros Hq.
  unfold Installer.run, Installer.run_M, Installer.run_body.
  rewrite (try_except_bind_ok
             _ _ _ _ [] [Installer.did (Installer.os_makedirs install_path)] tt)
    by (unfold Installer.perform, Installer.raised; now rewrite Hq).
  rewrite (try_except_bind_ok
             _ _ _ _ _
             [ Installer.did (Installer.os_makedirs install_path);
               Installer.sig
                 (Installer.progress 10 "Created installation directory") ] tt)
    by reflexivity.
  cbn [DEPENDENCIES Synth.installer_data].
  destruct (dependencies_step
              env (ProjectConfig.dependencies project)
              [ Installer.did (Installer.os_makedirs install_path);
                Installer.sig
                  (Installer.progress 10 "Created installation directory") ]
              Hq) as (hdr & Hh & E).
  rewrite (try_except_bind_ok _ _ _ _ _ _ tt E).
  match goal with
  | |- context [fst (Installer.try_except ?c ?b ?h ?t)] =>
      assert (A : Observe.appends Observe.no_pip_install
                                  (Installer.try_except c b h))
  end.
  { unfold Installer.run_post_install_scripts, Installer._run_script,
      Installer._create_uninstaller, Installer._copy_file,
      Installer._create_shortcut, Installer._apply_registry.
    appends_tac. }
  match goal with
  | |- context [fst (Installer.try_except ?c ?b ?h ?t)] =>
      destruct (A t) as (ext & -> & S)
  end.
  rewrite !filter_app, pip_installed_is_pip.
  rewrite (filter_none_of Observe.is_pip_install ext S).
  destruct Hh as [->| ->]; simpl; now rewrite app_nil_r.
Qed.

(** X21 at work: of the two dependencies of [Cases.equipped], the named one
    is installed. *)
Lemma X21_named_dependencies_are_pip_installed_witness :
  filter Observe.is_pip_install
         (Installer.run Scenario.willing_machine
                        (Synth.installer_data Cases.equipped)
                        "C:\Program Files\Demo")
  = [ Installer.did (Installer.pip_install (PStr "requests")) ].
Proof.
  rewrite (X21_named_dependencies_are_pip_installed
             Scenario.willing_machine Cases.equipped "C:\Program Files\Demo").
  - reflexivity.
  - intros n o. reflexivity.
Defined.

Lemma unplaced_shortcut (env : Installer.InstallEnv) (install_path : string)
    (s : ShortcutConfig.t) :
  ShortcutConfig.location s <> "desktop" ->
  ShortcutConfig.location s <> "start_menu" ->
  Observe.appends Observe.no_save_shortcut
    (Installer._create_shortcut env install_path (ShortcutConfig.to_dict s)).
Proof.
  intros Hd Hs. apply String.eqb_neq in Hd, Hs.
  unfold Installer._create_shortcut.
  apply appends_try_except; [|intros e; apply appends_ret].
  apply appends_bind;
    [apply appends_perform; [reflexivity | intros ?; reflexivity] | intros _].
  apply appends_bind;
    [apply appends_perform; [reflexivity | intros ?; reflexivity] | intros _].
  unfold ShortcutConfig.to_dict, py_get, Installer.lift, Installer.bind,
    eq_str.
  cbn [dict_get dict_lookup String.eqb Ascii.eqb Bool.eqb fst snd].
  simpl. rewrite Hd, Hs. apply appends_ret.
Qed.

(** X22.  A shortcut that is placed neither on the desktop nor in the start
    menu is not created.  When the location of every shortcut of a project
    is something other than [desktop] and [start_menu] (the dialog also
    offers [both]), the installer built from the project never saves a
    shortcut, on any machine. *)
Theorem X22_unplaced_shortcuts_are_not_created (env : Installer.InstallEnv)
    (project : ProjectConfig.t) (install_path : string) :
  (forall s, In s (ProjectConfig.shortcuts project) ->
             ShortcutConfig.location s <> "desktop"
             /\ ShortcutConfig.location s <> "start_menu") ->
  forallb Observe.no_save_shortcut
          (Installer.run env (Synth.installer_data project) install_path)
  = true.
Proof.
  intros H.
  assert (A : Observe.appends
                Observe.no_save_shortcut
                (Installer.run_M env (Synth.installer_data project)
                                 install_path)).
  { unfold Installer.run_M, Installer.run_body,
      Installer.run_post_install_scripts, Installer._run_script,
      Installer._create_uninstaller, Installer._copy_file,
      Installer._apply_registry, Installer._install_dependency.
    repeat first
      [ match goal with
        | |- Observe.appends _ (Installer.for_each _ (Installer._create_shortcut _ _)) =>
            apply appends_for_each_in; intros shortcut Hin;
            change (In shortcut (map ShortcutConfig.to_dict
                                     (ProjectConfig.shortcuts project))) in Hin;
            apply in_map_iff in Hin; destruct Hin as (sc & <- & Hsc);
            destruct (H sc Hsc); now apply unplaced_shortcut
        end
      | appends_step ]. }
  unfold Installer.run. destruct (A []) as (ext & -> & S). exact S.
Qed.

(** X22 at work: the shortcut of [Cases.equipped] is meant for both
    places. *)
Lemma X22_unplaced_shortcuts_are_not_created_witness :
  forallb Observe.no_save_shortcut
          (Installer.run Scenario.willing_machine
                         (Synth.installer_data Cases.equipped)
                         "C:\Program Files\Demo")
  = true.
Proof.
  apply (X22_unplaced_shortcuts_are_not_created
           Scenario.willing_machine Cases.equipped "C:\Program Files\Demo").
  intros s [<-|[]]. split; discriminate.
Defined.

Section PlacedShortcuts.

Variable env : Installer.InstallEnv.
Variable install_path appdata : string.
Hypothesis quiet_machine : Observe.never_raises env.
Hypothesis roaming : Installer.os_environ env "APPDATA" = Some appdata.

Lemma create_shortcut_of_entry (s : ShortcutConfig.t)
    (t : list Installer.item) :
  Installer._create_shortcut env install_path (ShortcutConfig.to_dict s) t
  = ((t ++ Observe.shortcut_items env appdata install_path s)%list, Ok tt).
Proof.
  unfold Installer._create_shortcut, Installer.try_except, Installer.bind,
    Installer.perform, Installer.raised, Installer.lift,
    Observe.shortcut_items,
    Observe.saved_link.
  rewrite !quiet_machine. simpl.
  destruct (String.eqb (ShortcutConfig.location s) "desktop").
  - rewrite quiet_machine. now rewrite <- !app_assoc.
  - destruct (String.eqb (ShortcutConfig.location s) "start_menu").
    + rewrite roaming, quiet_machine. now rewrite <- !app_assoc.
    + now rewrite <- !app_assoc.
Qed.

Lemma shortcut_loop_of_entries (l : list ShortcutConfig.t)
    (t : list Installer.item) :
  Installer.for_each (map ShortcutConfig.to_dict l)
                     (Installer._create_shortcut env install_path) t
  = ((t ++ flat_map (Observe.shortcut_items env appdata install_path) l)%list,
     Ok tt).
Proof.
  revert t. induction l as [|s l IH]; intros t.
  - simpl. now rewrite app_nil_r.
  - cbn [map Installer.for_each flat_map]. unfold Installer.bind at 1.
    rewrite create_shortcut_of_entry, IH. now rewrite <- app_assoc.
Qed.

Lemma saved_of_shortcut_items (l : list ShortcutConfig.t) :
  filter Observe.is_save_shortcut
         (flat_map (Observe.shortcut_items env appdata install_path) l)
  = flat_map (Observe.saved_link env appdata install_path) l.
Proof.
  induction l as [|s l IH]; [reflexivity|].
  cbn [flat_map]. rewrite filter_app, IH. f_equal.
  unfold Observe.shortcut_items, Observe.saved_link. simpl.
  destruct (String.eqb (ShortcutConfig.location s) "desktop");
    [reflexivity|].
  destruct (String.eqb (ShortcutConfig.location s) "start_menu"); reflexivity.
Qed.

End PlacedShortcuts.

Lemma pip_installed_no_shortcut (deps : list Dependency.t) :
  filter Observe.is_save_shortcut (map Observe.pip_installed deps) = [].
Proof. induction deps as [|d deps IH]; [reflexivity | exact IH]. Qed.

(** X23.  What the installer does with the shortcuts of a project.  On a
    machine on which no operation raises and [APPDATA] is set, the installer
    built from a project saves, in the order of the project, one shortcut
    for every shortcut whose location is [desktop] or [start_menu], and
    none for the others: a link named after the shortcut, under the Desktop
    folder of the home directory or under the Programs folder of the start
    menu, whose target is the target of the shortcut under the install path
    and whose working directory is the directory of that target.  The icon,
    the arguments, the working directory and the description of the
    shortcut play no part. *)
Theorem X23_placed_shortcuts_are_saved (env : Installer.InstallEnv)
    (project : ProjectConfig.t) (install_path appdata : string) :
  Observe.never_raises env ->
  Installer.os_environ env "APPDATA" = Some appdata ->
  filter Observe.is_save_shortcut
         (Installer.run env (Synth.installer_data project) install_path)
  = flat_map (Observe.saved_link env appdata install_path)
             (ProjectConfig.shortcuts project).
Proof.
  intros Hq Ha.
  unfold Installer.run, Installer.run_M, Installer.run_body.
  rewrite (try_except_bind_ok
             _ _ _ _ [] [Installer.did (Installer.os_makedirs install_path)] tt)
    by (unfold Installer.perform, Installer.raised; now rewrite Hq).
  rewrite (try_except_bind_ok
             _ _ _ _ _
             [ Installer.did (Installer.os_makedirs install_path);
               Installer.sig
                 (Installer.progress 10 "Created installation directory") ] tt)
    by reflexivity.
  cbn [DEPENDENCIES FILES_DATA SHORTCUTS Synth.installer_data].
  destruct (dependencies_step
              env (ProjectConfig.dependencies project)
              [ Installer.did (Installer.os_makedirs install_path);
                Installer.sig
                  (Installer.progress 10 "Created installation directory") ]
              Hq) as (hdr & Hh & E).
  rewrite (try_except_bind_ok _ _ _ _ _ _ tt E).
  rewrite (try_except_bind_ok _ _ _ _ _ _ tt eq_refl).
  rewrite (try_except_bind_ok _ _ _ _ _ _ tt (copy_loop_of_entries _ _ _ _)).
  rewrite (try_except_bind_ok _ _ _ _ _ _ tt eq_refl).
  rewrite (try_except_bind_ok
             _ _ _ _ _ _ tt
             (shortcut_loop_of_entries env install_path appdata Hq Ha _ _)).
  match goal with
  | |- context [fst (Installer.try_except ?c ?b ?h ?t)] =>
      assert (A : Observe.appends Observe.no_save_shortcut
                                  (Installer.try_except c b h))
  end.
  { unfold Installer.run_post_install_scripts, Installer._run_script,
      Installer._create_uninstaller, Installer._apply_registry.
    appends_tac. }
  match goal with
  | |- context [fst (Installer.try_except ?c ?b ?h ?t)] =>
      destruct (A t) as (ext & -> & S)
  end.
  rewrite !filter_app, saved_of_shortcut_items.
  rewrite (filter_none_of Observe.is_save_shortcut ext S), app_nil_r.
  rewrite pip_installed_no_shortcut. destruct Hh as [->| ->]; reflexivity.
Qed.

(** X23 at work: of the three shortcuts of [Cases.linked], the one for the
    desktop and the one for the start menu are saved. *)
Lemma X23_placed_shortcuts_are_saved_witness :
  filter Observe.is_save_shortcut
         (Installer.run Scenario.willing_machine
                        (Synth.installer_data Cases.linked)
                        "C:\Program Files\Demo")
  = [ Installer.did
        (Installer.save_shortcut
           "C:\Users\me\Desktop\Demo.lnk"
           "C:\Program Files\Demo\app\demo.exe"
           "C:\Program Files\Demo\app");
      Installer.did
        (Installer.save_shortcut
           "C:\Users\me\AppData\Roaming\Microsoft\Windows\Start Menu\Programs\Manual.lnk"
           "C:\Program Files\Demo\doc\manual.pdf"
           "C:\Program Files\Demo\doc") ].
Proof.
  rewrite (X23_placed_shortcuts_are_saved
             Scenario.willing_machine Cases.linked "C:\Program Files\Demo"
             "C:\Users\me\AppData\Roaming").
  - reflexivity.
  - intros n o. reflexivity.
  - reflexivity.
Defined.

(* ================================================================== *)
(** ** The installer source: the lines that carry the name of the project *)
(* ================================================================== *)

Lemma all_printable_app (a b : string) :
  Observe.all_printable_ascii (a ++ b)
  = Observe.all_printable_ascii a && Observe.all_printable_ascii b.
Proof.
  unfold Observe.all_printable_ascii.
  induction a as [|c a IH]; simpl; [reflexivity|].
  now rewrite IH, andb_assoc.
Qed.

Lemma json_char_printable (c : ascii) :
  Observe.all_printable_ascii (json_char c) = true.
Proof. destruct c as [[] [] [] [] [] [] [] []]; reflexivity. Qed.

Lemma json_dumps_printable (s : string) :
  Observe.all_printable_ascii (json_dumps_str s) = true.
Proof.
  unfold json_dumps_str. rewrite !all_printable_app.
  assert (H : Observe.all_printable_ascii (sflat json_char s) = true).
  { induction s as [|c s IH]; [reflexivity|].
    cbn [sflat]. now rewrite all_printable_app, json_char_printable, IH. }
  now rewrite H.
Qed.

(** X24.  The name, the version and the description of a project cannot
    break the lines that carry them in the installer source: whatever the
    three fields hold (line breaks, quotes, control characters, characters
    outside ASCII), each of the lines from the blank line after the five
    data lines to the blank line after [PROJECT_DESCRIPTION] consists of
    printable ASCII characters only. *)
Theorem X24_project_texts_stay_on_their_lines (project : ProjectConfig.t)
    (line : string) :
  In line (skipn 5 (Synth.embedded_data_lines (Synth.installer_data project)))
  -> Observe.all_printable_ascii line = true.
Proof.
  unfold Synth.embedded_data_lines. cbn [skipn].
  intros [<-|[<-|[<-|[<-|[<-|[]]]]]];
    try reflexivity;
    rewrite all_printable_app, json_dumps_printable; reflexivity.
Qed.

(** X24 at work: a name with a line break and a quote. *)
Lemma X24_project_texts_stay_on_their_lines_witness :
  Observe.all_printable_ascii
    ("PROJECT_NAME = "
     ++ json_dumps_str (String "D" (String LF (String DQ EmptyString))))
  = true.
Proof.
  apply (X24_project_texts_stay_on_their_lines
           (Scenario.project_with
              (String "D" (String LF (String DQ EmptyString)))
              "1.0.0" "C:\out" EmptyString [] [] [] true
              "2024-01-01T00:00:00")).
  right. left. reflexivity.
Defined.

(* ================================================================== *)
(** ** ui/main_window.py: what comes before a build *)
(* ================================================================== *)

Lemma valid_has_output_dir (w : World) (project : ProjectConfig.t) :
  fst (fst (Helpers.validate_project w project)) = true ->
  is_empty (ProjectConfig.output_dir project) = false.
Proof.
  unfold Helpers.validate_project. cbv zeta. cbn [fst snd].
  destruct (is_empty (ProjectConfig.name project)),
           (is_empty (strip (ProjectConfig.name project))),
           (is_empty (ProjectConfig.version project)),
           (is_empty (strip (ProjectConfig.version project))),
           (is_empty (ProjectConfig.output_dir project));
    simpl; intros; try discriminate; reflexivity.
Qed.

Lemma start_generation_steps (desk : MainWindow.Desk)
    (project : ProjectConfig.t) (shown : list MainWindow.step) :
  exists more,
    fst (MainWindow.start_generation desk project shown)
    = (shown ++ more)%list
    /\ forallb (fun s => negb (MainWindow.is_warning s)) more = true
    /\ forall path, In (MainWindow.start_thread path) more ->
                    path = ProjectConfig.output_dir project.
Proof.
  unfold MainWindow.start_generation.
  destruct (String.eqb (ProjectConfig.compression project) "upx");
    [destruct (MainWindow.shutil_which desk "upx") as [upx_path|];
     [destruct (negb (is_empty upx_path))|];
     try destruct (MainWindow.answers_yes desk "UPX Not Found"
                                          MainWindow.upx_question)|];
    eexists; (split; [reflexivity|]); (split; [reflexivity|]);
    intros path Hin; simpl in Hin;
    repeat (destruct Hin as [Hin|Hin]; [try discriminate Hin|]);
    try contradiction; now injection Hin as <-.
Qed.

(** X25.  [generate_installer] starts a build only for a project that
    passes validation.  Whatever the user answers and the machine holds:
    when the validator rejects the project, the only thing that happens is
    the message box [Validation Failed], whose text starts with
    [Validation failed:]; the generator thread is started only after a
    positive verdict, after the output directory has been created and with
    PyInstaller importable, and the output path it is given is the output
    directory of the project, which is not empty; and the warning
    [Please specify output directory] is never shown. *)
Theorem X25_build_starts_only_when_valid (w : World) (desk : MainWindow.Desk)
    (project : ProjectConfig.t) :
  let steps := fst (MainWindow.generate_installer w desk project) in
  let is_valid := fst (fst (Helpers.validate_project w project)) in
  forallb (fun s => negb (MainWindow.is_warning s)) steps = true
  /\ (is_valid = false ->
      exists text,
        steps = [MainWindow.critical "Validation Failed" text]
        /\ String.prefix "Validation failed:" text = true)
  /\ (forall path,
        In (MainWindow.start_thread path) steps ->
        is_valid = true
        /\ path = ProjectConfig.output_dir project
        /\ is_empty path = false
        /\ In (MainWindow.os_makedirs path) steps
        /\ MainWindow.import_PyInstaller desk = true).
Proof.
  cbv zeta. unfold MainWindow.generate_installer.
  pose proof (valid_has_output_dir w project) as Hout.
  destruct (Helpers.validate_project w project) as [[is_valid errors] warnings].
  cbn [fst snd] in *.
  destruct is_valid; cbn [negb].
  - rewrite (Hout eq_refl).
    set (text := ("Validation warnings:" ++ nl ++ nl ++ join nl warnings)
                 ++ nl ++ nl ++ "Continue anyway?").
    destruct (MainWindow.nonempty warnings
              && negb (MainWindow.answers_yes desk "Validation Warnings" text))
      eqn:Stop.
    + split; [destruct (MainWindow.nonempty warnings); reflexivity|].
      split; [discriminate|].
      intros path Hin. destruct (MainWindow.nonempty warnings); simpl in Hin;
        [destruct Hin as [Hin|[]]; discriminate | contradiction].
    + destruct (MainWindow.makedirs desk (ProjectConfig.output_dir project))
        as [[]|e].
      * destruct (MainWindow.import_PyInstaller desk); cbn [negb].
        -- destruct (start_generation_steps
                       desk project
                       ((if MainWindow.nonempty warnings
                         then [MainWindow.question "Validation Warnings" text]
                         else [])
                        ++ [MainWindow.os_makedirs
                              (ProjectConfig.output_dir project)])%list)
             as (more & -> & Hw & Hp).
           split; [|split; [discriminate|]].
           ++ rewrite !forallb_app, Hw.
              destruct (MainWindow.nonempty warnings); reflexivity.
           ++ intros path Hin.
              assert (E : path = ProjectConfig.output_dir project).
              { rewrite !in_app_iff in Hin.
                destruct Hin as [[Hin|Hin]|Hin].
                - destruct (MainWindow.nonempty warnings); simpl in Hin;
                    [destruct Hin as [Hin|[]]; discriminate | contradiction].
                - destruct Hin as [Hin|[]]; discriminate.
                - now apply Hp. }
              subst path. repeat split; try reflexivity; [now apply Hout|].
              rewrite !in_app_iff. left. right. now left.
        -- cbn [fst]. split; [|split; [discriminate|]].
           ++ destruct (MainWindow.nonempty warnings); reflexivity.
           ++ intros path Hin. rewrite !in_app_iff in Hin.
              destruct Hin as [[Hin|Hin]|Hin];
                [ destruct (MainWindow.nonempty warnings); simpl in Hin;
                  [destruct Hin as [Hin|[]]; discriminate | contradiction]
                | destruct Hin as [Hin|[]]; discriminate
                | destruct Hin as [Hin|[]]; discriminate ].
      * cbn [fst]. split; [|split; [discriminate|]].
        -- destruct (MainWindow.nonempty warnings); reflexivity.
        -- intros path Hin. rewrite !in_app_iff in Hin.
           destruct Hin as [Hin|Hin];
             [ destruct (MainWindow.nonempty warnings); simpl in Hin;
               [destruct Hin as [Hin|[]]; discriminate | contradiction]
             | destruct Hin as [Hin|[]]; discriminate ].
  - split; [reflexivity|]. split.
    + intros _. eexists. split; [reflexivity|].
      destruct (MainWindow.nonempty warnings); reflexivity.
    + intros path [Hin|[]]. discriminate.
Qed.

(* ================================================================== *)
(** ** ui/main_window.py: removing the selected script elements *)
(* ================================================================== *)

Lemma filter_other_ids (x : ScriptElement.t) (l : list ScriptElement.t) :
  ~ In (ScriptElement.id x) (map ScriptElement.id l) ->
  filter (fun y => negb (ScriptElementIdentity.__eq__ y x)) l = l.
Proof.
  induction l as [|y l IH]; simpl; intros H; [reflexivity|].
  unfold ScriptElementIdentity.__eq__ at 1.
  destruct (String.eqb_spec (ScriptElement.id y) (ScriptElement.id x))
    as [E|_].
  - elim H. now left.
  - simpl. f_equal. apply IH. intros Hin. apply H. now right.
Qed.

Lemma remove_one_script (x : ScriptElement.t) (l : list ScriptElement.t) :
  NoDup (map ScriptElement.id l) ->
  (if MainWindow.contains_script l x then MainWindow.remove_script l x else l)
  = filter (fun y => negb (ScriptElementIdentity.__eq__ y x)) l.
Proof.
  induction l as [|y l IH]; simpl; intros N; [reflexivity|].
  inversion N as [|? ? Hy Nl]; subst.
  destruct (ScriptElementIdentity.__eq__ y x) eqn:E; simpl.
  - symmetry. apply filter_other_ids.
    unfold ScriptElementIdentity.__eq__ in E. apply String.eqb_eq in E.
    now rewrite <- E.
  - specialize (IH Nl).
    destruct (MainWindow.contains_script l x); now rewrite <- IH.
Qed.

Lemma filter_keeps_distinct_ids (f : ScriptElement.t -> bool)
    (l : list ScriptElement.t) :
  NoDup (map ScriptElement.id l) ->
  NoDup (map ScriptElement.id (filter f l)).
Proof.
  induction l as [|y l IH]; simpl; intros N; [constructor|].
  inversion N as [|? ? Hy Nl]; subst.
  destruct (f y); simpl; [|now apply IH].
  constructor; [|now apply IH].
  intros Hin. apply Hy. apply in_map_iff in Hin.
  destruct Hin as (z & Ez & Hz). apply filter_In in Hz.
  apply in_map_iff. exists z. now split.
Qed.

Lemma filter_filter {A} (f g : A -> bool) (l : list A) :
  filter f (filter g l) = filter (fun y => g y && f y) l.
Proof.
  induction l as [|y l IH]; simpl; [reflexivity|].
  destruct (g y); simpl; [destruct (f y)|]; now rewrite IH.
Qed.

(** X26.  [remove_selected_scripts] removes the selected elements and keeps
    the others in their order.  When the script elements of the project have
    pairwise different ids, what is left is the sequence without the
    elements whose id is that of a selected element, whatever the order of
    the selection and whether or not it names an element twice or one that
    is not in the sequence. *)
Theorem X26_remove_selected_scripts (selected : list ScriptElement.t)
    (script_elements : list ScriptElement.t) :
  NoDup (map ScriptElement.id script_elements) ->
  MainWindow.remove_selected_scripts selected script_elements
  = filter (MainWindow.unselected selected) script_elements.
Proof.
  unfold MainWindow.remove_selected_scripts.
  revert script_elements.
  induction selected as [|x selected IH]; intros l N; simpl.
  - symmetry. apply forallb_filter_id. now apply forallb_forall.
  - rewrite (remove_one_script x l N).
    rewrite IH by now apply filter_keeps_distinct_ids.
    rewrite filter_filter. apply filter_ext. intros y.
    unfold MainWindow.unselected. simpl. now rewrite negb_orb.
Qed.

(** X26 at work: the second of three elements is selected, twice. *)
Lemma X26_remove_selected_scripts_witness :
  MainWindow.remove_selected_scripts
    [ Cases.element "bbbb0002" "second"; Cases.element "bbbb0002" "second" ]
    Cases.three_elements
  = [ Cases.element "aaaa0001" "first"; Cases.element "cccc0003" "third" ].
Proof.
  rewrite (X26_remove_selected_scripts
             [ Cases.element "bbbb0002" "second";
               Cases.element "bbbb0002" "second" ]
             Cases.three_elements).
  - reflexivity.
  - repeat constructor; simpl; intuition discriminate.
Defined.

(* ================================================================== *)
(** ** ui/main_window.py: what the file scanner finds *)
(* ================================================================== *)

Lemma mem_char_srev_app (c : ascii) (s acc : string) :
  mem_char c (srev_app s acc) = mem_char c s || mem_char c acc.
Proof.
  revert acc. induction s as [|d s IH]; intros acc; simpl; [reflexivity|].
  rewrite IH. simpl. destruct (Ascii.eqb c d), (mem_char c s); reflexivity.
Qed.

Lemma mem_char_srev (c : ascii) (s : string) :
  mem_char c (srev s) = mem_char c s.
Proof. unfold srev. rewrite mem_char_srev_app. apply orb_false_r. Qed.

Lemma prefix_mem_char (c : ascii) (p s : string) :
  String.prefix p s = true -> mem_char c p = true -> mem_char c s = true.
Proof.
  revert s. induction p as [|d p IH]; intros s;
    [intros _ H; discriminate H|].
  destruct s as [|e s]; [intros H; discriminate H|].
  cbn [String.prefix mem_char].
  destruct (ascii_dec d e) as [<-|_]; [|intros H; discriminate H].
  intros Hp Hc. apply orb_true_iff in Hc. apply orb_true_iff.
  destruct Hc as [Hc|Hc]; [now left | right; now apply IH].
Qed.

Lemma endswith_mem_char (c : ascii) (file suffix : string) :
  endswith file suffix = true -> mem_char c suffix = true ->
  mem_char c file = true.
Proof.
  unfold endswith. intros He Hc.
  rewrite <- mem_char_srev. apply (prefix_mem_char c _ _ He).
  now rewrite mem_char_srev.
Qed.

Lemma starred_pattern_matches_nothing (file pattern : string) :
  (forall piece, In piece (RecentProjects.split ";" pattern) ->
                 mem_char "*" piece = true) ->
  mem_char "*" file = false ->
  FileScannerThread.matches file pattern = false.
Proof.
  intros Hstar Hfile. unfold FileScannerThread.matches.
  destruct (existsb (endswith file) (RecentProjects.split ";" pattern))
    eqn:E; [|reflexivity].
  apply existsb_exists in E. destruct E as (piece & Hin & He).
  now rewrite (endswith_mem_char "*" _ _ He (Hstar piece Hin)) in Hfile.
Qed.

Lemma rmapM_all_empty {A B} (f : A -> result (list B)) (l : list A) :
  (forall x, In x l -> f x = Ok []) ->
  exists found, rmapM f l = Ok found /\ List.concat found = [].
Proof.
  induction l as [|x l IH]; intros H.
  - now exists [].
  - destruct IH as (found & E & C); [intros y Hy; apply H; now right|].
    exists ([] :: found). simpl. rewrite (H x) by now left.
    simpl. rewrite E. now split.
Qed.

(** X27.  Patterns written with a star find nothing.  The scanner tests
    whether a file name ends with the text of a piece of a pattern, star
    included.  When every piece of every pattern handed to
    [FileScannerThread] contains a star, a scan finds no file whose name has
    no star: the recursive scan of a tree of such names, and the scan of
    the entries of one directory of such names, both end normally with an
    empty list. *)
Theorem X27_starred_patterns_find_nothing (env : FileScannerThread.ScanEnv)
    (directory : string) (patterns : list string) :
  (forall pattern piece,
      In pattern patterns ->
      In piece (RecentProjects.split ";" pattern) ->
      mem_char "*" piece = true) ->
  ((forall root files file,
       In (root, files) (FileScannerThread.os_walk env directory) ->
       In file files -> mem_char "*" file = false) ->
   FileScannerThread.run env directory patterns true = Ok [])
  /\ (forall items,
        FileScannerThread.os_listdir env directory = Ok items ->
        (forall item, In item items -> mem_char "*" item = false) ->
        FileScannerThread.run env directory patterns false = Ok []).
Proof.
  intros Hstar.
  assert (Hfile : forall file full_path rel_path,
             mem_char "*" file = false ->
             FileScannerThread.scan_file env patterns full_path rel_path file
             = Ok []).
  { intros file full_path rel_path Hf. unfold FileScannerThread.scan_file.
    rewrite filter_none; [reflexivity|].
    intros pattern Hp. apply starred_pattern_matches_nothing; [|exact Hf].
    intros piece Hpiece. now apply (Hstar pattern). }
  unfold FileScannerThread.run. split.
  - intros Hnames.
    match goal with
    | |- rbind (rmapM ?f ?l) _ = _ =>
        destruct (rmapM_all_empty f l) as (found & E & C)
    end.
    + intros [root files] Hin.
      match goal with
      | |- rbind (rmapM ?f ?l) _ = _ =>
          destruct (rmapM_all_empty f l) as (per_file & E & C)
      end.
      * intros file Hf. apply Hfile. now apply (Hnames root files).
      * rewrite E. simpl. now rewrite C.
    + rewrite E. simpl. now rewrite C.
  - intros items Hls Hnames. rewrite Hls. cbn [rbind].
    match goal with
    | |- rbind (rmapM ?f ?l) _ = _ =>
        destruct (rmapM_all_empty f l) as (found & E & C)
    end.
    + intros item Hin.
      destruct (FileScannerThread.os_path_isfile env _); [|reflexivity].
      apply Hfile. now apply Hnames.
    + rewrite E. simpl. now rewrite C.
Qed.

(** X27 at work: five starred patterns, in three texts, on a tree with an
    executable, a library, a text and a Markdown file. *)
Lemma X27_starred_patterns_find_nothing_witness :
  FileScannerThread.run
    Cases.scanned_tree "C:\app" ["*.exe;*.dll"; "*.py"; "*.txt;*.md"] true
  = Ok []
  /\ FileScannerThread.run
       Cases.scanned_tree "C:\app" ["*.exe;*.dll"; "*.py"; "*.txt;*.md"] false
     = Ok [].
Proof.
  destruct (X27_starred_patterns_find_nothing
              Cases.scanned_tree "C:\app"
              ["*.exe;*.dll"; "*.py"; "*.txt;*.md"]) as [A B].
  - intros pattern piece [<-|[<-|[<-|[]]]] H; vm_compute in H;
      repeat (destruct H as [<-|H]; [reflexivity|]); contradiction.
  - split.
    + apply A. intros root files file [E|[E|[]]]; injection E as <- <-;
        intros [<-|[<-|[]]]; reflexivity.
    + apply (B ["setup.exe"; "core.dll"; "doc"]); [reflexivity|].
      intros item [<-|[<-|[<-|[]]]]; reflexivity.
Defined.
